(** * Query Gateway: SQL guard, KPI query builder, formatter and data-quality check

    A shallow embedding of the Lambda functions
    - [lambda/sql_executor/lambda_function.py]  (modules [SqlExecutor] and
      [SqlHandler])
    - [lambda/get_kpi_data/lambda_function.py]  (modules [GetKpiData] and
      [KpiCatalog])
    - [lambda/get_available_kpis/lambda_function.py]  (module
      [GetAvailableKpis])
    together with the Python built-ins they call (module [Py]).

    Python [str] values are modelled by [string].  The embedding covers ASCII
    text: [upper], [lower], [strip] and the regular-expression class [\w] are
    given the meaning they have on code points below 128, and the statements
    about arbitrary queries carry the hypothesis [ascii_only]. *)

From Stdlib Require Import ZArith List String Ascii Bool Lia.
From stdpp Require Import base option list gmap strings pretty sorting.

Open Scope string_scope.

(** ** Python built-ins on strings *)
Module Py.

Definition code (c : ascii) : N := N_of_ascii c.

Definition ascii_char (c : ascii) : bool := (code c <? 128)%N.

Fixpoint ascii_only (s : string) : bool :=
  match s with
  | "" => true
  | String c s' => ascii_char c && ascii_only s'
  end.

Definition is_lower_letter (c : ascii) : bool := ((97 <=? code c) && (code c <=? 122))%N.
Definition is_upper_letter (c : ascii) : bool := ((65 <=? code c) && (code c <=? 90))%N.
Definition is_digit (c : ascii) : bool := ((48 <=? code c) && (code c <=? 57))%N.

(** [str.isspace] on one ASCII character: TAB, LF, VT, FF, CR, the four
    separators FS, GS, RS, US, and the space. *)
Definition is_space (c : ascii) : bool :=
  (((9 <=? code c) && (code c <=? 13)) || ((28 <=? code c) && (code c <=? 32)))%N.

(** The class [\w] of module [re]: letters, digits and the underscore. *)
Definition is_word (c : ascii) : bool :=
  is_lower_letter c || is_upper_letter c || is_digit c || (code c =? 95)%N.

Definition upper_char (c : ascii) : ascii :=
  if is_lower_letter c then ascii_of_N (code c - 32) else c.

Definition lower_char (c : ascii) : ascii :=
  if is_upper_letter c then ascii_of_N (code c + 32) else c.

(** [s.upper()] and [s.lower()] *)
Fixpoint upper (s : string) : string :=
  match s with
  | "" => ""
  | String c s' => String (upper_char c) (upper s')
  end.

Fixpoint lower (s : string) : string :=
  match s with
  | "" => ""
  | String c s' => String (lower_char c) (lower s')
  end.

(** Truth value of a string: the empty string is false. *)
Definition truthy (s : string) : bool :=
  match s with "" => false | _ => true end.

Fixpoint lstrip (s : string) : string :=
  match s with
  | "" => ""
  | String c s' => if is_space c then lstrip s' else s
  end.

Fixpoint rstrip (s : string) : string :=
  match s with
  | "" => ""
  | String c s' =>
      let r := rstrip s' in
      if is_space c && negb (truthy r) then "" else String c r
  end.

(** [s.strip()] *)
Definition strip (s : string) : string := rstrip (lstrip s).

(** [s.startswith(p)] *)
Fixpoint startswith (s p : string) {struct p} : bool :=
  match p, s with
  | "", _ => true
  | String a p', String b s' => if Ascii.eqb a b then startswith s' p' else false
  | String _ _, "" => false
  end.

(** The rest of [s] after the prefix [p], when [s] starts with [p]. *)
Fixpoint strip_prefix (p s : string) {struct p} : option string :=
  match p, s with
  | "", _ => Some s
  | String a p', String b s' => if Ascii.eqb a b then strip_prefix p' s' else None
  | String _ _, "" => None
  end.

(** [p in s] *)
Fixpoint contains (p s : string) : bool :=
  startswith s p ||
  match s with
  | "" => false
  | String _ s' => contains p s'
  end.

(** [s.split(sep)] for a non-empty separator: the fragments between the
    non-overlapping occurrences of [sep], scanned from the left.  [skip]
    counts the characters of a matched separator still to be passed and
    [cur] holds the current fragment, reversed. *)
Fixpoint split_go (sep : string) (skip : nat) (cur s : string) : list string :=
  match s with
  | "" => [String.rev cur]
  | String c s' =>
      match skip with
      | S k => split_go sep k cur s'
      | O =>
          if startswith s sep
          then String.rev cur :: split_go sep (String.length sep - 1) "" s'
          else split_go sep 0 (String c cur) s'
      end
  end.

Definition split (sep s : string) : list string := split_go sep 0 "" s.

(** [sep.join(l)] *)
Definition join (sep : string) (l : list string) : string := String.concat sep l.

Definition head (s : string) : option ascii :=
  match s with "" => None | String c _ => Some c end.

(** Last character of [s], or [prev] when [s] is empty. *)
Fixpoint last_char (s : string) (prev : option ascii) : option ascii :=
  match s with
  | "" => prev
  | String c s' => last_char s' (Some c)
  end.

Definition is_word_opt (o : option ascii) : bool :=
  match o with Some c => is_word c | None => false end.

(** The assertion [\b] between the characters [prev] and [next] ([None] at
    either end of the string): exactly one side is a word character. *)
Definition at_boundary (prev next : option ascii) : bool :=
  xorb (is_word_opt prev) (is_word_opt next).

(** Does [\b lit \b] match at the current position, [prev] being the
    character just before it? *)
Definition match_word_here (prev : option ascii) (lit s : string) : bool :=
  at_boundary prev (head s) &&
  match strip_prefix lit s with
  | Some rest => at_boundary (last_char lit prev) (head rest)
  | None => false
  end.

Fixpoint search_word_from (prev : option ascii) (lit s : string) : bool :=
  match_word_here prev lit s ||
  match s with
  | "" => false
  | String c s' => search_word_from (Some c) lit s'
  end.

(** [re.search(r'\b' + re.escape(lit) + r'\b', s)] finds a match. *)
Definition re_search_word (lit s : string) : bool := search_word_from None lit s.

(** Python values that occur in the results and in database rows.
    [VDec c e] is the [decimal.Decimal] of value [c * 10^(-e)]. *)
Inductive pyval :=
| VNone
| VBool (b : bool)
| VInt (z : Z)
| VDec (c : Z) (e : nat)
| VStr (s : string)
| VDatetime (stamp : Z).

End Py.

(** ** lambda/sql_executor/lambda_function.py *)
Module SqlExecutor.
Import Py.

Definition FORBIDDEN_OPERATIONS : list string :=
  [ "INSERT"; "UPDATE"; "DELETE"; "DROP"; "ALTER";
    "CREATE"; "TRUNCATE"; "EXEC"; "EXECUTE"; "MERGE";
    "GRANT"; "REVOKE"; "COMMIT"; "ROLLBACK" ].

Definition QUERY_TIMEOUT : Z := 30.

Definition forbidden_message (operation : string) : string :=
  "Forbidden operation detected: " ++ operation ++ ". Only SELECT queries are allowed.".

Definition multiple_statements_message : string :=
  "Multiple SQL statements are not allowed. Only single SELECT queries permitted.".

Definition only_select_message : string := "Only SELECT queries are allowed.".

(** The dictionary [{'valid': False, 'error': msg}] *)
Definition invalid (msg : string) : gmap string pyval :=
  <["error" := VStr msg]> {["valid" := VBool false]}.

(** The first forbidden operation found by the loop of lines 72-79. *)
Definition first_forbidden (query_upper : string) : option string :=
  List.find (fun operation => re_search_word operation query_upper) FORBIDDEN_OPERATIONS.

(** Lines 82-83: the stripped fragments that are not blank. *)
Definition non_empty_statements (query : string) : list string :=
  let statements := split ";" (strip query) in
  List.map strip (List.filter (fun s => truthy (strip s)) statements).

Definition validate_sql_security (query : string) : gmap string pyval :=
  let query_upper := upper query in
  match first_forbidden query_upper with
  | Some operation => invalid (forbidden_message operation)
  | None =>
      if (1 <? List.length (non_empty_statements query))%nat
      then invalid multiple_statements_message
      else if negb (startswith (strip query_upper) "SELECT")
      then invalid only_select_message
      else {["valid" := VBool true]}
  end.

(** *** execute_query

    The database driver is the environment of [execute_query].  A [world]
    holds the answers the driver will give to the successive driver calls
    (the [script]), the calls made so far, and the duration measured around
    [cursor.execute(query)]. *)

Definition row : Type := list (string * pyval).

(** The exceptions the three [except] clauses tell apart:
    [pymysql.err.OperationalError] with its [args] and its [str(e)], any
    other [pymysql.err.MySQLError], any other [Exception]. *)
Inductive exception :=
| OperationalError (args : list pyval) (text : string)
| MySQLError (text : string)
| OtherException (text : string).

Inductive call :=
| Connect
| Execute (statement : string)
| Fetchall
| CloseCursor
| CloseConnection.

Inductive answer :=
| Done
| Rows (rows : list row)
| Raise (e : exception).

Record world := World {
  script : list answer;
  calls : list call;
  elapsed_ms : Z
}.

(** An action of the [try] block: it either returns or raises. *)
Definition action (A : Type) : Type := world -> (A + exception) * world.

Definition bind {A B} (m : action A) (k : A -> action B) : action B :=
  fun w =>
    match m w with
    | (inl a, w') => k a w'
    | (inr e, w') => (inr e, w')
    end.

Notation "'do' x <- m ; k" := (bind m (fun x => k))
  (at level 10, x name, m at level 100, k at level 200).

(** One call to the driver: the next scripted answer is consumed and the
    call is recorded.  An exhausted script answers [Done]. *)
Definition driver (c : call) : action answer :=
  fun w =>
    let a := match script w with [] => Done | a :: _ => a end in
    let w' := {| script := List.tl (script w);
                 calls := calls w ++ [c];
                 elapsed_ms := elapsed_ms w |} in
    match a with
    | Raise e => (inr e, w')
    | _ => (inl a, w')
    end.

Record exec_result := ExecResult {
  success : bool;
  data : list row;
  row_count : nat;
  execution_time_ms : Z;
  error : option string  (* [None] is Python's [None]; the key is always present *)
}.

Definition set_timeout_statement (timeout : Z) : string :=
  "SET SESSION max_execution_time = " ++ pretty (timeout * 1000)%Z.

(** Lines 121-141, once the connection and its cursor exist *)
Definition run (query : string) (timeout : Z) : action exec_result :=
  do _timeout_set <- driver (Execute (set_timeout_statement timeout));
  do _executed <- driver (Execute query);
  do results <- driver Fetchall;
  fun w =>
    let data := match results with Rows r => r | _ => [] end in
    (inl {| success := true;
            data := data;
            row_count := List.length data;
            execution_time_ms := elapsed_ms w;
            error := None |}, w).

(** [error_code == 3024] for the first argument of the exception *)
Definition is_code_3024 (v : pyval) : bool :=
  match v with
  | VInt z => (z =? 3024)%Z
  | VDec c e => (c =? 3024 * 10 ^ Z.of_nat e)%Z
  | _ => false
  end.

Definition timeout_message (timeout : Z) : string :=
  "Query execution timeout after " ++ pretty timeout
  ++ " seconds. Try narrowing your date range or filters.".

Definition failure (time_ms : Z) (msg : string) : exec_result :=
  {| success := false; data := []; row_count := 0;
     execution_time_ms := time_ms; error := Some msg |}.

(** The three [except] clauses, lines 143-187 *)
Definition handle_exception (timeout : Z) (e : exception) : exec_result :=
  match e with
  | OperationalError args text =>
      let error_code := match args with a :: _ => a | [] => VInt 0 end in
      if is_code_3024 error_code
      then failure (timeout * 1000) (timeout_message timeout)
      else failure 0 ("Database operational error: " ++ strip text)
  | MySQLError text => failure 0 ("Database error: " ++ strip text)
  | OtherException text => failure 0 ("Execution error: " ++ strip text)
  end.

(** The [finally] clause when cursor and connection exist. *)
Definition close (w : world) : world :=
  {| script := script w;
     calls := calls w ++ [CloseCursor; CloseConnection];
     elapsed_ms := elapsed_ms w |}.

(** When [get_connection] raises, [connection] and [cursor] are still
    [None] and the [finally] clause closes nothing; afterwards both exist
    and are closed on every path. *)
Definition execute_query (query org_id : string) (timeout : Z) (w : world)
  : exec_result * world :=
  match driver Connect w with
  | (inr e, w1) => (handle_exception timeout e, w1)
  | (inl _, w1) =>
      match run query timeout w1 with
      | (inl r, w2) => (r, close w2)
      | (inr e, w2) => (handle_exception timeout e, close w2)
      end
  end.

End SqlExecutor.

(** ** lambda/get_kpi_data/lambda_function.py *)
Module GetKpiData.
Import Py.

Definition row : Type := list (string * pyval).

(** *** Insertion-ordered dictionaries

    A Python [dict] whose iteration order is observable is a list of items
    with distinct keys, in insertion order. *)
Fixpoint od_get {V} (k : string) (d : list (string * V)) : option V :=
  match d with
  | [] => None
  | (k', v) :: d' => if String.eqb k k' then Some v else od_get k d'
  end.

(** [d[k] = v]: an existing key keeps its place, a new key goes last. *)
Fixpoint od_set {V} (k : string) (v : V) (d : list (string * V)) : list (string * V) :=
  match d with
  | [] => [(k, v)]
  | (k', v') :: d' => if String.eqb k k' then (k, v) :: d' else (k', v') :: od_set k v d'
  end.

(** *** Dates *)

(** [None] stands for a raised exception in this module. *)
Definition parse_date_range (date_range : string) : option (string * string) :=
  match split " to " date_range with
  | [a; b] => Some (strip a, strip b)
  | _ => None
  end.

Definition digit_value (c : ascii) : Z := Z.of_N (code c) - 48.

(** Digits of an integer literal; single underscores may separate digits.
    [pending] is set when a digit has to come next. *)
Fixpoint int_digits (acc : Z) (pending : bool) (s : string) : option Z :=
  match s with
  | "" => if pending then None else Some acc
  | String c s' =>
      if is_digit c then int_digits (10 * acc + digit_value c) false s'
      else if (code c =? 95)%N && negb pending then int_digits acc true s'
      else None
  end.

(** The whitespace [int] skips around a literal: TAB, LF, VT, FF, CR and
    the space (the separators FS, GS, RS, US are not skipped). *)
Definition is_c_space (c : ascii) : bool :=
  (((9 <=? code c) && (code c <=? 13)) || (code c =? 32))%N.

Fixpoint skip_leading (s : string) : string :=
  match s with
  | "" => ""
  | String c s' => if is_c_space c then skip_leading s' else s
  end.

Fixpoint skip_trailing (s : string) : string :=
  match s with
  | "" => ""
  | String c s' =>
      let r := skip_trailing s' in
      if is_c_space c && negb (truthy r) then "" else String c r
  end.

(** [int(s)] on ASCII text: surrounding whitespace, an optional sign,
    decimal digits. *)
Definition py_int (s : string) : option Z :=
  match skip_trailing (skip_leading s) with
  | "" => None
  | String c d =>
      if Ascii.eqb c "-" then Z.opp <$> int_digits 0 true d
      else if Ascii.eqb c "+" then int_digits 0 true d
      else int_digits 0 true (String c d)
  end.

(** [calendar.isleap] *)
Definition isleap (year : Z) : bool :=
  ((year mod 4 =? 0) && (negb (year mod 100 =? 0) || (year mod 400 =? 0)))%Z.

(** [calendar.mdays] *)
Definition mdays : list Z := [0; 31; 28; 31; 30; 31; 30; 31; 31; 30; 31; 30; 31]%Z.

(** Second component of [calendar.monthrange(year, month)]; the call raises
    [IllegalMonthError] outside 1..12. *)
Definition monthrange_days (year month : Z) : option Z :=
  if ((1 <=? month) && (month <=? 12))%Z
  then Some (List.nth (Z.to_nat month) mdays 0 + (if (month =? 2)%Z && isleap year then 1 else 0))%Z
  else None.

(** The format specification [02d] *)
Definition format_02d (n : Z) : string :=
  let s := pretty n in
  if (String.length s <? 2)%nat then "0" ++ s else s.

Definition normalize_date_format (date_str : string) : string :=
  if (String.length date_str =? 7)%nat then date_str ++ "-01" else date_str.

Definition get_last_day_of_month (date_str : string) : option string :=
  if (String.length date_str =? 7)%nat then
    match List.map py_int (split "-" date_str) with
    | [Some year; Some month] =>
        last_day ← monthrange_days year month;
        Some (date_str ++ "-" ++ format_02d last_day)
    | _ => None
    end
  else Some date_str.

(** *** build_kpi_query *)

(** A value of the KPI mapping: [{column, name, unit, chain}] *)
Record info := Info {
  column : string;
  name : string;
  unit_ : string;
  chain : string
}.

(** An element of [kpi_info] *)
Record kpi_entry := KpiEntry {
  kpi_id : Z;
  kpi_column : string;
  kpi_name : string;
  kpi_unit : string;
  kpi_chain : string
}.

(** The three accumulators of the loop over [kpi_ids], lines 298-313 *)
Record resolved := Resolved {
  columns_to_select : gset string;
  chains_to_filter : gset string;
  kpi_info : list kpi_entry
}.

Definition resolve_step (kpi_mapping : gmap Z info) (acc : resolved) (id : Z) : resolved :=
  match kpi_mapping !! id with
  | Some i =>
      {| columns_to_select := columns_to_select acc ∪ {[column i]};
         chains_to_filter := chains_to_filter acc ∪ {[chain i]};
         kpi_info := kpi_info acc ++
           [{| kpi_id := id; kpi_column := column i; kpi_name := name i;
               kpi_unit := unit_ i; kpi_chain := chain i |}] |}
  | None => acc
  end.

Definition resolve (kpi_mapping : gmap Z info) (kpi_ids : list Z) : resolved :=
  List.fold_left (resolve_step kpi_mapping) kpi_ids
    {| columns_to_select := ∅; chains_to_filter := ∅; kpi_info := [] |}.

(** [sorted] on a set of strings *)
Definition sorted (s : gset string) : list string :=
  merge_sort String.le (elements s).

(** Line 338: the first occurrence of each element is kept. *)
Fixpoint unique_in_order (seen : gset string) (l : list string) : list string :=
  match l with
  | [] => []
  | x :: l' =>
      if decide (x ∈ seen) then unique_in_order seen l'
      else x :: unique_in_order ({[x]} ∪ seen) l'
  end.

Definition fixed_columns : list string :=
  [ "mon_year as period"; "parent_chain_group"; "company_chain";
    "channel_group"; "channel" ].

Definition select_columns (columns : gset string) : list string :=
  let cols := (fixed_columns ++ sorted columns)%list in
  let cols :=
    if decide ("cy_revenue" ∈ columns ∨ "cy_sss_revenue" ∈ columns)
    then (cols ++ ["py_revenue"; "revenue_variance"; "revenue_variance_percent"])%list
    else cols in
  let cols :=
    if decide ("cy_volume" ∈ columns ∨ "cy_sss_volume" ∈ columns)
    then (cols ++ ["py_volume"; "volume_variance"; "percent_volume_change"])%list
    else cols in
  let cols :=
    if decide ("cy_oos_percent" ∈ columns)
    then (cols ++ ["py_oos_percent"])%list
    else cols in
  unique_in_order ∅ cols.

Definition lower_bound_clause (start_date : string) : string :=
  "mon_year >= '" ++ start_date ++ "'".

Definition upper_bound_clause (end_date : string) : string :=
  "mon_year <= '" ++ end_date ++ "'".

Definition chain_clause (chains : gset string) : string :=
  "parent_chain_group IN ('" ++ join "', '" (elements chains) ++ "')".

(** Lines 341-349; a set is true when it is not empty. *)
Definition where_clauses (start_date end_date : string) (chains : gset string) : list string :=
  ([lower_bound_clause start_date; upper_bound_clause end_date] ++
   (if negb (bool_decide (chains = ∅)) && (size chains <? 2)%nat
    then [chain_clause chains] else []))%list.

Definition nl : string := String "010" "".

(** The text of lines 352-358 *)
Definition render_query (cols clauses : list string) : string :=
  nl ++ "        SELECT " ++ nl ++
  "            " ++ join ", " cols ++ nl ++
  "        FROM reddyice_s3_commercial_money" ++ nl ++
  "        WHERE " ++ join " AND " clauses ++ nl ++
  "        ORDER BY mon_year, parent_chain_group" ++ nl ++
  "    ".

Definition build_kpi_query (kpi_mapping : gmap Z info) (kpi_ids : list Z)
    (start_date end_date frequency org_id : string)
  : option (string * list kpi_entry) :=
  let start_date := normalize_date_format start_date in
  end_date ← get_last_day_of_month end_date;
  let r := resolve kpi_mapping kpi_ids in
  Some (render_query (select_columns (columns_to_select r))
          (where_clauses start_date end_date (chains_to_filter r)),
        kpi_info r).

(** *** validate_data_quality *)

Record quality := Quality {
  valid : bool;
  issues : list string;
  warnings : list string;
  row_count : nat
}.

Definition is_none (v : pyval) : bool :=
  match v with VNone => true | _ => false end.

Definition no_data_message : string :=
  "No data returned for the specified date range and KPI IDs".

Definition numeric_columns : list string :=
  [ "cy_revenue"; "cy_volume"; "cy_oos_percent"; "store_count" ].

(** Lines 388-390, for the items of one row *)
Definition count_row_nulls (null_counts : list (string * nat)) (r : row)
  : list (string * nat) :=
  List.fold_left
    (fun nc item =>
       if is_none (snd item)
       then od_set (fst item) (default 0 (od_get (fst item) nc) + 1) nc
       else nc)
    r null_counts.

Definition count_nulls (results : list row) : list (string * nat) :=
  List.fold_left count_row_nulls results [].

(** [[row.get(col) for row in results if row.get(col) is not None]] *)
Definition column_values (col : string) (results : list row) : list pyval :=
  List.flat_map
    (fun r => match od_get col r with
              | Some v => if is_none v then [] else [v]
              | None => []
              end)
    results.

Section DataQuality.

(** Floating-point arithmetic is kept outside the embedding.  The rendering
    [f"{pct:.1f}"] of [pct = (count / total) * 100] and the two numeric tests
    of the outlier loop are parameters.  The comparisons [pct > 50] and
    [pct > 10] are taken exactly, [100 * count > 50 * total] and
    [100 * count > 10 * total]: both [0.5 * 100] and [0.1 * 100] are
    computed exactly as 50.0 and 10.0 in binary64 and rounding is monotone,
    so the two agree for every result set of fewer than 2^40 rows.

    [mean_is_zero values] is the test [avg == 0] for
    [avg = sum(values) / len(values)] and [count_outliers values] the length
    of [[v for v in values if v > avg * 10]], both for a non-empty list of
    numbers; [None] when the arithmetic raises (the quotient of two integers
    too large for a float, a signal of the decimal context). *)
Variable format_pct : nat -> nat -> string.
Variable mean_is_zero : list pyval -> option bool.
Variable count_outliers : list pyval -> option nat.

Definition null_message (col : string) (count total : nat) : string :=
  "Column '" ++ col ++ "' has " ++ format_pct count total ++ "% null values".

Definition outlier_message (col : string) (n : nat) : string :=
  "Column '" ++ col ++ "' has " ++ pretty n ++ " extreme outliers".

(** Lines 393-398: one column of [null_counts] *)
Definition null_step (total : nat) (acc : list string * list string)
    (item : string * nat) : list string * list string :=
  let (col, count) := item in
  if (50 * total <? 100 * count)%nat
  then ((fst acc ++ [null_message col count total])%list, snd acc)
  else if (10 * total <? 100 * count)%nat
  then (fst acc, (snd acc ++ [null_message col count total])%list)
  else acc.

(** The values [sum] can add up from 0: [int], [bool] and [Decimal].  A
    string or a date raises [TypeError]. *)
Definition is_number (v : pyval) : bool :=
  match v with
  | VInt _ | VBool _ | VDec _ _ => true
  | VNone | VStr _ | VDatetime _ => false
  end.

(** Lines 402-412: one numeric column; [None] when it raises. *)
Definition outlier_step (results : list row) (warnings : list string)
    (col : string) : option (list string) :=
  let values := column_values col results in
  match values with
  | [] => Some warnings
  | _ =>
      if forallb is_number values then
        zero ← mean_is_zero values;
        if zero : bool then Some warnings
        else
          outliers ← count_outliers values;
          if (0 <? outliers)%nat
          then Some (warnings ++ [outlier_message col outliers])%list
          else Some warnings
      else None
  end.

(** The loop of lines 401-412 over the numeric columns *)
Fixpoint outlier_loop (results : list row) (cols : list string)
    (warnings : list string) : option (list string) :=
  match cols with
  | [] => Some warnings
  | col :: cols' =>
      warnings' ← outlier_step results warnings col;
      outlier_loop results cols' warnings'
  end.

(** [None] when the outlier loop raises. *)
Definition validate_data_quality (results : list row) : option quality :=
  match results with
  | [] => Some {| valid := false; issues := [no_data_message]; warnings := [];
                  row_count := 0 |}
  | _ =>
      let total := List.length results in
      let found := List.fold_left (null_step total) (count_nulls results) ([], []) in
      warnings ← outlier_loop results numeric_columns (snd found);
      Some {| valid := (List.length (fst found) =? 0)%nat;
              issues := fst found;
              warnings := warnings;
              row_count := total |}
  end.

End DataQuality.

(** *** format_kpi_results *)

(** A number as an exact decimal [(c, e)], of value [c * 10^(-e)].  A [bool]
    is an [int] in Python; strings, dates and [None] are not numbers. *)
Definition as_decimal (v : pyval) : option (Z * nat) :=
  match v with
  | VInt z => Some (z, 0%nat)
  | VBool b => Some (Z.b2z b, 0%nat)
  | VDec c e => Some (c, e)
  | _ => None
  end.

(** [value < 1] *)
Definition below_one (d : Z * nat) : bool := (fst d <? 10 ^ Z.of_nat (snd d))%Z.

(** [value * 100] *)
Definition times_100 (d : Z * nat) : Z * nat := ((fst d * 100)%Z, snd d).

Definition round_half_even (n d : Z) : Z :=
  let q := (n / d)%Z in
  let r := (n mod d)%Z in
  if (2 * r <? d)%Z then q
  else if (d <? 2 * r)%Z then (q + 1)%Z
  else if Z.even q then q else (q + 1)%Z.

(** The format specification [.2f] on an exact decimal: two fractional
    digits, ties to even, the sign of the value kept.  The arithmetic is
    exact here; the interpreter formats an [int] through binary64, which is
    exact below 2^53, and rounds the product of a [Decimal] by 100 to the 28
    digits of the decimal context. *)
Definition format_2f (d : Z * nat) : string :=
  let m := Z.abs (fst d) in
  let e := snd d in
  let hundredths :=
    if (e <=? 2)%nat then (m * 10 ^ Z.of_nat (2 - e))%Z
    else round_half_even m (10 ^ Z.of_nat (e - 2)) in
  (if (fst d <? 0)%Z then "-" else "") ++
  pretty (hundredths / 100)%Z ++ "." ++ format_02d (hundredths mod 100)%Z.

(** Lines 454-457 *)
Definition format_percent (d : Z * nat) : string :=
  if below_one d then format_2f (times_100 d) ++ "%"
  else format_2f d ++ "%".

Section Formatting.

(** The renderings this development does not look into: [f"${value:,.2f}"],
    [f"{value:,.0f}"] ([None] when the value cannot be formatted),
    [value.strftime(fmt)] and [str(value)]. *)
Variable format_currency : pyval -> option string.
Variable format_grouped : pyval -> option string.
Variable strftime : string -> Z -> string.
Variable py_str : pyval -> string.

(** Lines 442-471: one item of a row; [None] when an exception is raised. *)
Definition format_item (formatted_row : row) (item : string * pyval) : option row :=
  let (key, value) := item in
  let key_formatted := key ++ "_formatted" in
  if is_none value then Some (od_set key VNone formatted_row)
  else if contains "revenue" (lower key) then
    s ← format_currency value;
    Some (od_set key_formatted (VStr s) (od_set key value formatted_row))
  else if contains "percent" (lower key) || contains "oos" (lower key) then
    d ← as_decimal value;
    Some (od_set key_formatted (VStr (format_percent d)) (od_set key value formatted_row))
  else if contains "volume" (lower key) || contains "count" (lower key) then
    s ← format_grouped value;
    Some (od_set key_formatted (VStr s) (od_set key value formatted_row))
  else if String.eqb key "period" || contains "date" (lower key) then
    match value with
    | VDatetime t =>
        Some (od_set key_formatted (VStr (strftime "%B %Y" t))
                (od_set key (VStr (strftime "%Y-%m-%d" t)) formatted_row))
    | _ =>
        Some (od_set key_formatted (VStr (py_str value))
                (od_set key (VStr (py_str value)) formatted_row))
    end
  else Some (od_set key value formatted_row).

Fixpoint format_items (formatted_row : row) (items : row) : option row :=
  match items with
  | [] => Some formatted_row
  | item :: rest =>
      formatted_row' ← format_item formatted_row item;
      format_items formatted_row' rest
  end.

Fixpoint format_kpi_results (results : list row) (kpi_info : list kpi_entry)
  : option (list row) :=
  match results with
  | [] => Some []
  | r :: rest =>
      formatted_row ← format_items [] r;
      formatted_rest ← format_kpi_results rest kpi_info;
      Some (formatted_row :: formatted_rest)
  end.

(** *** lambda_handler, lines 527-603

    The parameters have been extracted and [kpi_ids] parsed.  [connect]
    tells whether [get_db_connection] succeeds and [run_query] is the answer
    of [cursor.execute(query); cursor.fetchall()], [None] when it raises.
    The second component of the result lists the statements handed to
    [cursor.execute]. *)
Variable format_pct : nat -> nat -> string.
Variable mean_is_zero : list pyval -> option bool.
Variable count_outliers : list pyval -> option nat.
Variable connect : bool.
Variable run_query : string -> option (list row).

Inductive response :=
| Status400
| Status500
| Status200 (kpi_data : list row) (count : nat) (kpi_info : list kpi_entry)
            (data_quality : quality).

Definition lambda_handler (kpi_mapping : gmap Z info) (kpi_ids : list Z)
    (date_range frequency org_id : string) : response * list string :=
  match kpi_ids with
  | [] => (Status400, [])
  | _ =>
      match parse_date_range date_range with
      | None => (Status500, [])
      | Some (start_date, end_date) =>
          match build_kpi_query kpi_mapping kpi_ids start_date end_date frequency org_id with
          | None => (Status500, [])
          | Some (query, kpi_info) =>
              if connect then
                match run_query query with
                | None => (Status500, [query])
                | Some raw_data =>
                    match validate_data_quality format_pct mean_is_zero count_outliers
                            raw_data with
                    | None => (Status500, [query])
                    | Some validation =>
                        match format_kpi_results raw_data kpi_info with
                        | None => (Status500, [query])
                        | Some formatted_data =>
                            (Status200 formatted_data (List.length formatted_data)
                               kpi_info validation, [query])
                        end
                    end
                end
              else (Status500, [])
          end
      end
  end.

End Formatting.

End GetKpiData.

(** ** Vocabulary of the specification

    The notions the specification uses to describe inputs, stated on the
    input itself and independently of the functions above. *)
Module Spec.
Import Py SqlExecutor GetKpiData.

(** [verb] occurs in [q] as a standalone word, letter case ignored: a part
    [mid] of [q] reads [verb] once uppercased, the text before it does not
    end with a word character and the text after it does not begin with
    one. *)
Definition standalone (verb q : string) : Prop :=
  exists pre mid post,
    q = pre ++ mid ++ post /\ upper mid = verb /\
    is_word_opt (last_char pre None) = false /\
    is_word_opt (head post) = false.

(** A literal that begins and ends with a word character. *)
Definition word_literal (lit : string) : bool :=
  is_word_opt (head lit) && is_word_opt (last_char lit None).

(** The pieces of [q] between semicolons, and those of them that hold
    something else than whitespace. *)
Definition fragments (q : string) : list string := split ";" q.

Definition blank (f : string) : bool := negb (truthy (strip f)).

Definition nonblank_fragments (q : string) : list string :=
  List.filter (fun f => negb (blank f)) (fragments q).

(** Some character of [s] is not whitespace. *)
Fixpoint has_ink (s : string) : bool :=
  match s with
  | "" => false
  | String c s' => negb (is_space c) || has_ink s'
  end.

(** Number of non-blank fragments of [s], [ink] telling whether the
    fragment being read already holds a non-blank character. *)
Fixpoint count_from (ink : bool) (s : string) : nat :=
  match s with
  | "" => if ink then 1 else 0
  | String c s' =>
      if Ascii.eqb c ";" then (if ink then 1 else 0) + count_from false s'
      else count_from (ink || negb (is_space c)) s'
  end.

(** The leading run of word characters. *)
Fixpoint first_token (s : string) : string :=
  match s with
  | "" => ""
  | String c s' => if is_word c then String c (first_token s') else ""
  end.

(** The failure classes of the free-form executor.  A timeout is the
    driver's [OperationalError] whose first argument is the server code
    3024, "query execution was interrupted". *)
Inductive failure_class :=
| TimeoutFailure
| OperationalFailure
| DatabaseFailure
| UnclassifiedFailure.

(** The value [v] is a number equal to the integer [n]: an [int], a [bool]
    counted as 0 or 1, or a [Decimal] of that value. *)
Definition equals_int (n : Z) (v : pyval) : bool :=
  match v with
  | VInt z => (z =? n)%Z
  | VBool b => (Z.b2z b =? n)%Z
  | VDec c e => (c =? n * 10 ^ Z.of_nat e)%Z
  | VNone | VStr _ | VDatetime _ => false
  end.

(** The server code an exception of the driver carries, if any. *)
Definition server_code (e : exception) : option pyval :=
  match e with
  | OperationalError (code :: _) _ => Some code
  | _ => None
  end.

Definition class_of (e : exception) : failure_class :=
  match e with
  | OperationalError _ _ =>
      match server_code e with
      | Some code => if equals_int 3024 code then TimeoutFailure else OperationalFailure
      | None => OperationalFailure
      end
  | MySQLError _ => DatabaseFailure
  | OtherException _ => UnclassifiedFailure
  end.

Definition text_of (e : exception) : string :=
  match e with
  | OperationalError _ text | MySQLError text | OtherException text => text
  end.

(** The driver calls of one execution, in order. *)
Definition plan (query : string) (timeout : Z) : list call :=
  [Connect; Execute (set_timeout_statement timeout); Execute query; Fetchall].

(** The text of the statement that reads [projection] from the commercial
    table under [condition], ordered by month and chain group, in the layout
    of the builder: every line but the last ends with a line feed. *)
Definition statement (projection condition : string) : string :=
  String "010" "        SELECT " ++
  String "010" "            " ++ projection ++
  String "010" "        FROM reddyice_s3_commercial_money" ++
  String "010" "        WHERE " ++ condition ++
  String "010" "        ORDER BY mon_year, parent_chain_group" ++
  String "010" "    ".

(** The condition on the months of the range, and the one on the chain. *)
Definition months_between (first_day last_day : string) : string :=
  "mon_year >= '" ++ first_day ++ "' AND mon_year <= '" ++ last_day ++ "'".

Definition and_chain (c : string) : string :=
  " AND parent_chain_group IN ('" ++ c ++ "')".

(** The five columns every statement selects. *)
Definition fixed_projection : string :=
  "mon_year as period, parent_chain_group, company_chain, channel_group, channel".

(** The entry of [kpi_info] for a requested id, when the id is mapped. *)
Definition entry_of (kpi_mapping : gmap Z info) (id : Z) : option kpi_entry :=
  (fun i => {| kpi_id := id; kpi_column := column i; kpi_name := name i;
               kpi_unit := unit_ i; kpi_chain := chain i |}) <$> kpi_mapping !! id.

(** The chains of the requested ids that are mapped, in request order. *)
Definition implicated_chains (kpi_mapping : gmap Z info) (kpi_ids : list Z) : list string :=
  omap (fun id => chain <$> kpi_mapping !! id) kpi_ids.

(** [c] is the one and only chain implicated by the request. *)
Definition single_chain (kpi_mapping : gmap Z info) (kpi_ids : list Z) (c : string) : Prop :=
  In c (implicated_chains kpi_mapping kpi_ids) /\
  forall c', In c' (implicated_chains kpi_mapping kpi_ids) -> c' = c.

(** A month written [YYYY-MM], as the request format has it. *)
Definition digit_char (d : Z) : ascii := ascii_of_N (Z.to_N (48 + d)).

Definition two_digits (n : Z) : string :=
  String (digit_char (n / 10)) (String (digit_char (n mod 10)) "").

Definition four_digits (n : Z) : string :=
  String (digit_char (n / 1000)) (String (digit_char (n / 100 mod 10))
    (String (digit_char (n / 10 mod 10)) (String (digit_char (n mod 10)) ""))).

Definition year_month (y m : Z) : string := four_digits y ++ "-" ++ two_digits m.

(** The Gregorian rule, and the number of the last day of a month. *)
Definition leap_year (y : Z) : bool :=
  (((y mod 4 =? 0) && negb (y mod 100 =? 0)) || (y mod 400 =? 0))%Z.

Definition last_calendar_day (y m : Z) : Z :=
  if ((m =? 4) || (m =? 6) || (m =? 9) || (m =? 11))%Z then 30%Z
  else if (m =? 2)%Z then (if leap_year y then 29%Z else 28%Z)
  else 31%Z.

(** The percent rule as the specification words it: a value whose
    magnitude is below 1 is a fraction and is multiplied by 100, any other
    value is rendered as it is. *)
Definition magnitude_below_one (d : Z * nat) : bool :=
  (Z.abs (fst d) <? 10 ^ Z.of_nat (snd d))%Z.

Definition percent_by_magnitude (d : Z * nat) : string :=
  if magnitude_below_one d then format_2f (times_100 d) ++ "%"
  else format_2f d ++ "%".

(** [col] is null in row [r]; number of rows of [results] where it is. *)
Definition is_null (col : string) (r : GetKpiData.row) : bool :=
  match od_get col r with Some VNone => true | _ => false end.

Definition null_rows (col : string) (results : list GetKpiData.row) : nat :=
  List.length (List.filter (is_null col) results).

(** A column counted [snd item] times null among [total] rows is null in
    more than half of them; in more than a tenth and at most half of them. *)
Definition over_half (total : nat) (item : string * nat) : bool :=
  (50 * total <? 100 * snd item)%nat.

Definition over_tenth_only (total : nat) (item : string * nat) : bool :=
  negb (over_half total item) && (10 * total <? 100 * snd item)%nat.

(** A warning of the outlier loop: an outlier message, with a positive
    count, for one of the columns [cols]. *)
Definition outlier_warning (cols : list string) (w : string) : Prop :=
  exists col k, In col cols /\ 0 < k /\
    w = "Column '" ++ col ++ "' has " ++ pretty k ++ " extreme outliers".

(** The outlier analysis of [col] has nothing to raise on: the column holds
    no value, or it holds numbers only and the arithmetic on them returns. *)
Definition analysable (mean_is_zero : list pyval -> option bool)
    (count_outliers : list pyval -> option nat)
    (results : list GetKpiData.row) (col : string) : Prop :=
  let values := column_values col results in
  values = [] \/
  (forallb is_number values = true /\ is_Some (mean_is_zero values)
   /\ is_Some (count_outliers values)).

(** A result set of [total] rows with one column, null in the first [nulls]. *)
Definition null_sample (total nulls : nat) : list GetKpiData.row :=
  (repeat [("py_volume", VNone)] nulls
   ++ repeat [("py_volume", VInt 5)] (total - nulls))%list.

(** A rendering of the null percentage for the examples; it is the
    interpreter's when the percentage is a whole number. *)
Definition whole_percent (count total : nat) : string :=
  pretty (100 * count / total)%nat ++ ".0".

(** A small mapping used in examples: ids 7 and 9 are mapped, for two
    different chains; id 11 shares the chain of id 7. *)
Definition sample_mapping : gmap Z info :=
  <[7%Z := Info "cy_revenue" "Total Revenue" "currency" "Customer A"]>
  (<[9%Z := Info "cy_oos_percent" "Average OOS%" "percent" "Customer B"]>
  (<[11%Z := Info "cy_volume" "Total Volume" "count" "Customer A"]> ∅)).

End Spec.

(** ** lambda/get_kpi_data/lambda_function.py: the KPI catalogue and the
    request parameters *)
Module KpiCatalog.
Import Py GetKpiData.

(** Lines 101-114.  [page_name[6:]] after the test is the rest of the
    string behind the prefix. *)
Definition extract_customer_from_page_name (page_name : string) : string :=
  match strip_prefix "Draft " page_name with
  | Some rest => rest
  | None => page_name
  end.

(** Lines 117-161 *)
Definition map_kpi_name_to_column (kpi_name : string) : option string :=
  let kpi_lower := lower kpi_name in
  if contains "sss revenue" kpi_lower then Some "cy_sss_revenue"
  else if contains "revenue" kpi_lower then Some "cy_revenue"
  else if contains "sss volume" kpi_lower then Some "cy_sss_volume"
  else if contains "volume" kpi_lower && negb (contains "7lb" kpi_lower)
  then Some "cy_volume"
  else if contains "store count" kpi_lower then Some "store_count"
  else if contains "oos" kpi_lower || contains "out-of-stock" kpi_lower
          || contains "out of stock" kpi_lower
  then Some "cy_oos_percent"
  else None.

(** A record of the metadata file.  [kpi_id] and [kpi_name] are read with
    [kpi[...]], [page_name] and [unit] with [kpi.get(..., default)]: an
    absent key is [None] here. *)
Record kpi_record := KpiRecord {
  meta_kpi_id : Z;
  meta_kpi_name : string;
  meta_page_name : option string;
  meta_unit : option string
}.

(** The body of the loop of lines 184-202.  The returned column names are
    never empty, so [if column] tests for [None]. *)
Definition mapping_step (mapping : gmap Z info) (kpi : kpi_record) : gmap Z info :=
  let customer := extract_customer_from_page_name (default "" (meta_page_name kpi)) in
  match map_kpi_name_to_column (meta_kpi_name kpi) with
  | Some column =>
      <[meta_kpi_id kpi := {| column := column;
                              name := meta_kpi_name kpi;
                              unit_ := default "unknown" (meta_unit kpi);
                              chain := customer |}]> mapping
  | None => mapping
  end.

(** Lines 164-207.  [loaded] is what [load_kpi_metadata] returns, [None]
    when it raises. *)
Definition get_kpi_mapping (loaded : option (list kpi_record)) : gmap Z info :=
  match loaded with
  | None => ∅
  | Some metadata => List.fold_left mapping_step metadata ∅
  end.

(** Lines 211-226.  The module-level cache is threaded through: the result
    is the mapping and the new value of [_KPI_MAPPING_CACHE]. *)
Definition get_cached_kpi_mapping (loaded : option (list kpi_record))
    (cache : option (gmap Z info)) : gmap Z info * option (gmap Z info) :=
  match cache with
  | None => let m := get_kpi_mapping loaded in (m, Some m)
  | Some m => (m, cache)
  end.

(** [int(v)] for the values this development knows; [None] when it
    raises.  A [Decimal] is truncated towards zero. *)
Definition int_of (v : pyval) : option Z :=
  match v with
  | VInt z => Some z
  | VBool b => Some (Z.b2z b)
  | VDec c e => Some (Z.quot c (10 ^ Z.of_nat e))
  | VStr s => py_int s
  | VNone | VDatetime _ => None
  end.

Fixpoint all_some {A} (l : list (option A)) : option (list A) :=
  match l with
  | [] => Some []
  | x :: l' =>
      a ← x;
      rest ← all_some l';
      Some (a :: rest)
  end.

(** The value of the parameter [kpi_ids]: a string, a list, or anything
    else. *)
Inductive ids_param :=
| IdsText (s : string)
| IdsList (l : list pyval)
| IdsOther (v : pyval).

(** Lines 519-525 *)
Definition parse_kpi_ids (kpi_ids_str : ids_param) : option (list Z) :=
  match kpi_ids_str with
  | IdsText s =>
      all_some (List.map (fun x => py_int (strip x))
                  (List.filter (fun x => truthy (strip x)) (split "," s)))
  | IdsList l => all_some (List.map int_of l)
  | IdsOther v => z ← int_of v; Some [z]
  end.

Section Request.

Variable format_currency : pyval -> option string.
Variable format_grouped : pyval -> option string.
Variable strftime : string -> Z -> string.
Variable py_str : pyval -> string.
Variable format_pct : nat -> nat -> string.
Variable mean_is_zero : list pyval -> option bool.
Variable count_outliers : list pyval -> option nat.
Variable connect : bool.
Variable run_query : string -> option (list row).

(** Lines 519-603: the handler from the value of the parameter [kpi_ids];
    an id that cannot be read raises, which the handler answers with the
    status 500. *)
Definition handle_parameters (kpi_mapping : gmap Z info) (kpi_ids_str : ids_param)
    (date_range frequency org_id : string) : response * list string :=
  match parse_kpi_ids kpi_ids_str with
  | None => (Status500, [])
  | Some kpi_ids =>
      lambda_handler format_currency format_grouped strftime py_str
        format_pct mean_is_zero count_outliers connect run_query
        kpi_mapping kpi_ids date_range frequency org_id
  end.

End Request.

End KpiCatalog.

(** ** lambda/get_available_kpis/lambda_function.py

    Its [extract_customer_from_page_name], lines 49-62, is the function of
    the same name of get_kpi_data, and its records are those of the same
    metadata file. *)
Module GetAvailableKpis.
Import Py GetKpiData KpiCatalog.

(** [filter_kpis_by_customer(kpis, customer)], lines 65-93 *)
Definition filter_kpis_by_customer (kpis : list kpi_record) (customer : string)
  : list kpi_record :=
  if String.eqb (lower customer) "all" then kpis
  else
    let customer_lower := lower customer in
    List.filter
      (fun kpi =>
         let page_name := default "" (meta_page_name kpi) in
         let extracted_customer := extract_customer_from_page_name page_name in
         contains customer_lower (lower extracted_customer))
      kpis.

End GetAvailableKpis.

(** ** lambda/sql_executor/lambda_function.py: the handler *)
Module SqlHandler.
Import Py SqlExecutor GetKpiData KpiCatalog.

(** The body handed to [format_response]: an error message, the result of
    [execute_query], or the message of the catch-all clause, whose text
    [str(e)] is not modelled. *)
Inductive body :=
| ErrorBody (error : string)
| ResultBody (result : exec_result)
| InternalErrorBody.

(** [format_response(status_code, body, is_bedrock)], lines 197-228: both
    envelopes carry the status code and the serialised body. *)
Record response := Response {
  statusCode : Z;
  responseBody : body;
  bedrock : bool
}.

(** [parameters.get(key, '').strip()]; [None] when the value has no
    [strip]. *)
Definition stripped (v : option pyval) : option string :=
  match v with
  | None => Some ""
  | Some (VStr s) => Some (strip s)
  | Some _ => None
  end.

Definition first_of (a b : option pyval) : option pyval :=
  match a with Some _ => a | None => b end.

(** Lines 282-329, the parameters having been extracted from the event.
    An exception raised while reading them is caught by the last clause,
    lines 337-352. *)
Definition lambda_handler (parameters : gmap string pyval) (is_bedrock_format : bool)
    (w : world) : response * world :=
  let internal := ({| statusCode := 500; responseBody := InternalErrorBody;
                      bedrock := is_bedrock_format |}, w) in
  match stripped (first_of (parameters !! "sql_query") (parameters !! "query")) with
  | None => internal
  | Some query =>
      match stripped (parameters !! "org_id") with
      | None => internal
      | Some org_id =>
          match int_of (default (VInt QUERY_TIMEOUT) (parameters !! "timeout")) with
          | None => internal
          | Some timeout =>
              if negb (truthy query) then
                ({| statusCode := 400;
                    responseBody := ErrorBody "Query parameter is required";
                    bedrock := is_bedrock_format |}, w)
              else if negb (truthy org_id) then
                ({| statusCode := 400;
                    responseBody := ErrorBody "org_id parameter is required for data isolation";
                    bedrock := is_bedrock_format |}, w)
              else
                let validation_result := validate_sql_security query in
                match validation_result !! "valid" with
                | Some (VBool true) =>
                    let (result, w') := execute_query query org_id timeout w in
                    ({| statusCode := if success result then 200 else 500;
                        responseBody := ResultBody result;
                        bedrock := is_bedrock_format |}, w')
                | _ =>
                    match validation_result !! "error" with
                    | Some (VStr msg) =>
                        ({| statusCode := 403; responseBody := ErrorBody msg;
                            bedrock := is_bedrock_format |}, w)
                    | _ => internal
                    end
                end
          end
      end
  end.

End SqlHandler.

(** ** Further vocabulary *)
Module Notions.
Import Py SqlExecutor GetKpiData KpiCatalog SqlHandler.

(** No character of [s] is whitespace. *)
Fixpoint spaceless (s : string) : bool :=
  match s with
  | "" => true
  | String c s' => negb (is_space c) && spaceless s'
  end.

(** The columns a KPI name can be mapped to. *)
Definition kpi_columns : list string :=
  [ "cy_sss_revenue"; "cy_revenue"; "cy_sss_volume"; "cy_volume";
    "store_count"; "cy_oos_percent" ].

(** The columns added for context. *)
Definition context_columns : list string :=
  [ "py_revenue"; "revenue_variance"; "revenue_variance_percent";
    "py_volume"; "volume_variance"; "percent_volume_change"; "py_oos_percent" ].

(** Successive calls of [get_cached_kpi_mapping], the metadata file
    holding [loaded] at each call; the mappings returned, in order. *)
Fixpoint cached_calls (loads : list (option (list kpi_record)))
    (cache : option (gmap Z info)) : list (gmap Z info) :=
  match loads with
  | [] => []
  | loaded :: rest =>
      let (m, cache') := get_cached_kpi_mapping loaded cache in
      m :: cached_calls rest cache'
  end.

(** No formatting rule of [format_kpi_results] applies to the column. *)
Definition plain_column (key : string) : bool :=
  negb (contains "revenue" (lower key) || contains "percent" (lower key)
        || contains "oos" (lower key) || contains "volume" (lower key)
        || contains "count" (lower key) || String.eqb key "period"
        || contains "date" (lower key)).

(** An item the formatter passes through: a null, or a plain column. *)
Definition plain_item (item : string * pyval) : bool :=
  is_none (snd item) || plain_column (fst item).

(** The mapping value a record stands for, when its name maps to a column. *)
Definition info_of (kpi : kpi_record) : option info :=
  (fun column =>
     {| column := column;
        name := meta_kpi_name kpi;
        unit_ := default "unknown" (meta_unit kpi);
        chain := extract_customer_from_page_name (default "" (meta_page_name kpi)) |})
  <$> map_kpi_name_to_column (meta_kpi_name kpi).

(** Every character of [s] satisfies [P]. *)
Fixpoint all_chars (P : ascii -> bool) (s : string) : bool :=
  match s with
  | "" => true
  | String c s' => P c && all_chars P s'
  end.

(** The characters of a decimal numeral: digits and the minus sign. *)
Definition numeral_char (c : ascii) : bool := is_digit c || Ascii.eqb c "-".

(** Number of driver steps of the plan that [execute_query] performs on a
    script: it stops at the first answer that raises. *)
Fixpoint steps_upto (n : nat) (answers : list answer) : nat :=
  match n with
  | 0 => 0
  | S n' =>
      match answers with
      | Raise _ :: _ => 1
      | _ :: rest => S (steps_upto n' rest)
      | [] => S (steps_upto n' [])
      end
  end.

Definition steps (answers : list answer) : nat := steps_upto 4 answers.

Definition closing_calls : list call := [CloseCursor; CloseConnection].

End Notions.

(** * Properties *)

Import Py SqlExecutor GetKpiData Spec.

(** ** Strings *)
Section StringFacts.

Lemma app_cons (c : ascii) (s t : string) : String c s ++ t = String c (s ++ t).
Proof. reflexivity. Qed.

Lemma app_empty_l (s : string) : "" ++ s = s.
Proof. reflexivity. Qed.

Lemma app_empty_r (s : string) : s ++ "" = s.
Proof. induction s as [|c s IH]; [reflexivity|]. rewrite app_cons, IH. reflexivity. Qed.

Lemma app_assoc_str (a b c : string) : (a ++ b) ++ c = a ++ (b ++ c).
Proof.
  induction a as [|x a IH]; [reflexivity|].
  rewrite !app_cons, IH. reflexivity.
Qed.

Lemma upper_app (a b : string) : upper (a ++ b) = upper a ++ upper b.
Proof.
  induction a as [|x a IH]; [reflexivity|].
  rewrite app_cons. simpl. rewrite IH. reflexivity.
Qed.

Lemma upper_app_inv (q a b : string) :
  upper q = a ++ b -> exists p r, q = p ++ r /\ upper p = a /\ upper r = b.
Proof.
  revert q. induction a as [|x a IH]; intros q H.
  - exists "", q. auto.
  - destruct q as [|c q]; [discriminate|].
    rewrite app_cons in H. simpl in H. injection H as Hc Hq.
    destruct (IH _ Hq) as (p & r & -> & Hp & Hr).
    exists (String c p), r. simpl. rewrite Hp, Hc. auto.
Qed.

Lemma is_word_upper_char (c : ascii) : is_word (upper_char c) = is_word c.
Proof. destruct c as [[] [] [] [] [] [] [] []]; reflexivity. Qed.

Lemma head_upper (s : string) : is_word_opt (head (upper s)) = is_word_opt (head s).
Proof. destruct s; [reflexivity|]. simpl. apply is_word_upper_char. Qed.

Lemma last_char_upper (s : string) (prev : option ascii) :
  is_word_opt (last_char (upper s) (upper_char <$> prev)) = is_word_opt (last_char s prev).
Proof.
  revert prev. induction s as [|c s IH]; intros prev.
  - destruct prev; [|reflexivity]. simpl. apply is_word_upper_char.
  - simpl. apply (IH (Some c)).
Qed.

Lemma last_char_app (a b : string) (prev : option ascii) :
  last_char (a ++ b) prev = last_char b (last_char a prev).
Proof.
  revert prev. induction a as [|c a IH]; intros prev; [reflexivity|].
  rewrite app_cons. simpl. apply IH.
Qed.

Lemma strip_prefix_app (p s rest : string) :
  strip_prefix p s = Some rest <-> s = p ++ rest.
Proof.
  revert s. induction p as [|a p IH]; intros s.
  - simpl. split; [intros [= ->]|intros ->]; reflexivity.
  - destruct s as [|b s]; simpl; [split; discriminate|].
    rewrite app_cons. destruct (Ascii.eqb_spec a b) as [->|Hne].
    + rewrite IH. split; [intros ->; reflexivity|intros [= ->]; reflexivity].
    + split; [discriminate|]. intros [= -> _]. congruence.
Qed.

Lemma startswith_app (s p : string) :
  startswith s p = true <-> exists rest, s = p ++ rest.
Proof.
  revert s. induction p as [|a p IH]; intros s.
  - simpl. split; [eauto|reflexivity].
  - destruct s as [|b s]; simpl.
    + split; [discriminate|]. intros [rest H]. discriminate.
    + destruct (Ascii.eqb_spec a b) as [->|Hne].
      * rewrite IH. split; intros [rest H]; exists rest.
        -- rewrite H. reflexivity.
        -- rewrite app_cons in H. congruence.
      * split; [discriminate|]. intros [rest H]. rewrite app_cons in H. congruence.
Qed.

End StringFacts.

(** ** The regular expression [\b lit \b] *)
Section WordSearch.

Lemma match_word_here_spec (prev : option ascii) (lit s : string) :
  match_word_here prev lit s = true <->
  exists b, s = lit ++ b /\
            at_boundary prev (head s) = true /\
            at_boundary (last_char lit prev) (head b) = true.
Proof.
  unfold match_word_here. rewrite andb_true_iff. split.
  - intros [H1 H2]. destruct (strip_prefix lit s) as [rest|] eqn:E; [|discriminate].
    apply strip_prefix_app in E. eauto.
  - intros (b & Hs & H1 & H2). split; [exact H1|].
    apply strip_prefix_app in Hs. rewrite Hs. exact H2.
Qed.

Lemma search_word_from_spec (prev : option ascii) (lit s : string) :
  search_word_from prev lit s = true <->
  exists a b, s = a ++ lit ++ b /\
              at_boundary (last_char a prev) (head (lit ++ b)) = true /\
              at_boundary (last_char lit (last_char a prev)) (head b) = true.
Proof.
  revert prev. induction s as [|c s IH]; intros prev.
  - simpl. rewrite orb_false_r, match_word_here_spec. split.
    + intros (b & Hs & H1 & H2). exists "", b. rewrite <- Hs. auto.
    + intros (a & b & Hs & H1 & H2). destruct a; [|discriminate].
      exists b. rewrite app_empty_l in Hs. rewrite <- Hs in H1. auto.
  - simpl. rewrite orb_true_iff, match_word_here_spec, IH. split.
    + intros [(b & Hs & H1 & H2)|(a & b & Hs & H1 & H2)].
      * exists "", b. rewrite <- Hs. auto.
      * exists (String c a), b. rewrite Hs. auto.
    + intros (a & b & Hs & H1 & H2). destruct a as [|x a].
      * left. exists b. rewrite app_empty_l in Hs. rewrite <- Hs in H1. auto.
      * right. rewrite app_cons in Hs. injection Hs as -> Hs.
        exists a, b. auto.
Qed.

End WordSearch.

(** ** validate_sql_security: the forbidden-operation rule *)
Section ForbiddenOperations.

Lemma word_literal_inv (lit : string) :
  word_literal lit = true ->
  exists c l, lit = String c l /\ is_word c = true /\
              forall p, is_word_opt (last_char lit p) = true.
Proof.
  unfold word_literal. destruct lit as [|c l]; [discriminate|].
  simpl. rewrite andb_true_iff. intros [Hc Hl]. exists c, l. auto.
Qed.

Lemma re_search_word_standalone (lit q : string) :
  word_literal lit = true ->
  re_search_word lit (upper q) = true <-> standalone lit q.
Proof.
  intros Hlit. destruct (word_literal_inv lit Hlit) as (c & l & El & Hc & Hlast).
  unfold re_search_word, standalone. rewrite search_word_from_spec. split.
  - intros (a & b & Hq & H1 & H2).
    apply upper_app_inv in Hq as (pre & r & -> & Hpre & Hr).
    apply upper_app_inv in Hr as (mid & post & -> & Hmid & Hpost).
    exists pre, mid, post. split; [reflexivity|]. split; [exact Hmid|].
    unfold at_boundary in H1, H2. rewrite Hlast in H2.
    rewrite El, app_cons in H1. simpl in H1. rewrite Hc in H1.
    rewrite <- Hpre in H1. rewrite <- Hpost in H2.
    pose proof (last_char_upper pre None) as E1. simpl in E1.
    rewrite E1 in H1. rewrite head_upper in H2.
    split; [destruct (is_word_opt (last_char pre None))|
            destruct (is_word_opt (head post))]; simpl in *; congruence.
  - intros (pre & mid & post & -> & Hmid & H1 & H2).
    exists (upper pre), (upper post). rewrite !upper_app, Hmid.
    split; [reflexivity|]. unfold at_boundary. rewrite Hlast.
    pose proof (last_char_upper pre None) as E1. simpl in E1.
    rewrite E1, H1, head_upper, H2.
    rewrite El, app_cons. simpl. rewrite Hc. auto.
Qed.

Lemma forbidden_word_literals :
  forall v, In v FORBIDDEN_OPERATIONS -> word_literal v = true.
Proof.
  intros v Hv. simpl in Hv.
  repeat (destruct Hv as [<-|Hv]; [reflexivity|]). contradiction.
Qed.

Lemma first_forbidden_none (q : string) :
  first_forbidden (upper q) = None <->
  forall v, In v FORBIDDEN_OPERATIONS -> ~ standalone v q.
Proof.
  unfold first_forbidden. split.
  - intros H v Hv Hs. apply (re_search_word_standalone v q) in Hs;
      [|apply forbidden_word_literals; exact Hv].
    pose proof (find_none _ _ H v Hv) as Hf. simpl in Hf. congruence.
  - intros H. destruct (find _ _) as [v|] eqn:E; [|reflexivity].
    apply find_some in E as [Hv Hs]. exfalso. apply (H v Hv).
    apply re_search_word_standalone; [apply forbidden_word_literals|]; assumption.
Qed.

Lemma find_first {A} (f : A -> bool) (before after : list A) (x : A) :
  (forall y, In y before -> f y = false) -> f x = true ->
  find f (before ++ x :: after) = Some x.
Proof.
  intros Hb Hx. induction before as [|y before IH]; simpl.
  - rewrite Hx. reflexivity.
  - rewrite (Hb y) by (left; reflexivity). apply IH. intros z Hz. apply Hb. right. exact Hz.
Qed.

Lemma first_forbidden_first (q verb : string) (before after : list string) :
  FORBIDDEN_OPERATIONS = (before ++ verb :: after)%list ->
  standalone verb q ->
  (forall v, In v before -> ~ standalone v q) ->
  first_forbidden (upper q) = Some verb.
Proof.
  intros HF Hs Hb. unfold first_forbidden. rewrite HF.
  assert (Hin : forall v, In v (before ++ verb :: after)%list -> word_literal v = true).
  { rewrite <- HF. apply forbidden_word_literals. }
  apply find_first.
  - intros y Hy. destruct (re_search_word y (upper q)) eqn:E; [|reflexivity].
    exfalso. apply (Hb y Hy). apply re_search_word_standalone; [|exact E].
    apply Hin. apply in_or_app. left. exact Hy.
  - apply re_search_word_standalone; [|exact Hs].
    apply Hin. apply in_or_app. right. left. reflexivity.
Qed.

Lemma first_forbidden_some (q v : string) :
  first_forbidden (upper q) = Some v -> In v FORBIDDEN_OPERATIONS /\ standalone v q.
Proof.
  unfold first_forbidden. intros E. apply find_some in E as [Hv Hs].
  split; [exact Hv|]. apply re_search_word_standalone; [apply forbidden_word_literals|]; assumption.
Qed.

End ForbiddenOperations.

(** ** validate_sql_security: the statement count *)
Section Statements.

Lemma truthy_lstrip (s : string) : truthy (lstrip s) = has_ink s.
Proof.
  induction s as [|c s IH]; [reflexivity|]. simpl.
  destruct (is_space c); [exact IH|reflexivity].
Qed.

Lemma truthy_rstrip (s : string) : truthy (rstrip s) = has_ink s.
Proof.
  induction s as [|c s IH]; [reflexivity|]. simpl.
  rewrite IH. destruct (is_space c), (has_ink s); reflexivity.
Qed.

Lemma has_ink_lstrip (s : string) : has_ink (lstrip s) = has_ink s.
Proof.
  induction s as [|c s IH]; [reflexivity|]. simpl.
  destruct (is_space c) eqn:E; [exact IH|]. simpl. rewrite E. reflexivity.
Qed.

Lemma truthy_strip (s : string) : truthy (strip s) = has_ink s.
Proof. unfold strip. rewrite truthy_rstrip. apply has_ink_lstrip. Qed.

Lemma has_ink_rev_app (a b : string) :
  has_ink (String.rev_app a b) = has_ink a || has_ink b.
Proof.
  revert b. induction a as [|c a IH]; intros b; [reflexivity|].
  simpl. rewrite IH. simpl. destruct (is_space c), (has_ink a), (has_ink b); reflexivity.
Qed.

Lemma has_ink_rev (s : string) : has_ink (String.rev s) = has_ink s.
Proof. unfold String.rev. rewrite has_ink_rev_app. simpl. apply orb_false_r. Qed.

Lemma startswith_semicolon (c : ascii) (s : string) :
  startswith (String c s) ";" = Ascii.eqb c ";".
Proof. cbn [startswith]. rewrite Ascii.eqb_sym. destruct (Ascii.eqb c ";"); reflexivity. Qed.

Lemma count_split_go (cur s : string) :
  List.length (List.filter (fun f => truthy (strip f)) (split_go ";" 0 cur s))
  = count_from (has_ink cur) s.
Proof.
  revert cur. induction s as [|c s IH]; intros cur.
  - simpl. rewrite truthy_strip, has_ink_rev. destruct (has_ink cur); reflexivity.
  - cbn [split_go count_from]. rewrite startswith_semicolon.
    destruct (Ascii.eqb_spec c ";") as [->|Hne].
    + cbn [List.filter]. rewrite truthy_strip, has_ink_rev.
      change (String.length ";" - 1) with 0.
      destruct (has_ink cur); cbn [List.length]; rewrite (IH ""); reflexivity.
    + rewrite IH. simpl. rewrite orb_comm. reflexivity.
Qed.

Lemma count_from_lstrip (ink : bool) (s : string) :
  count_from ink (lstrip s) = count_from ink s.
Proof.
  induction s as [|c s IH]; [reflexivity|]. cbn [lstrip].
  destruct (is_space c) eqn:E; [|reflexivity].
  rewrite IH. cbn [count_from]. destruct (Ascii.eqb_spec c ";") as [->|_]; [discriminate|].
  rewrite E, orb_false_r. reflexivity.
Qed.

Lemma count_from_rstrip (ink : bool) (s : string) :
  count_from ink (rstrip s) = count_from ink s.
Proof.
  revert ink. induction s as [|c s IH]; intros ink; [reflexivity|].
  cbn [rstrip count_from].
  destruct (is_space c && negb (truthy (rstrip s))) eqn:E.
  - apply andb_true_iff in E as [Hc Hr]. apply negb_true_iff in Hr.
    destruct (Ascii.eqb_spec c ";") as [->|_]; [discriminate|].
    rewrite Hc, orb_false_r, <- IH.
    destruct (rstrip s); [reflexivity|discriminate].
  - cbn [count_from]. destruct (Ascii.eqb c ";"); rewrite IH; reflexivity.
Qed.

Lemma length_non_empty_statements (q : string) :
  List.length (non_empty_statements q) = List.length (nonblank_fragments q).
Proof.
  unfold non_empty_statements, nonblank_fragments, fragments, split, blank.
  rewrite List.length_map.
  rewrite (List.filter_ext (fun f => negb (negb (truthy (strip f))))
             (fun f => truthy (strip f)))
    by (intros f; apply negb_involutive).
  rewrite !count_split_go. unfold strip.
  rewrite count_from_rstrip. apply count_from_lstrip.
Qed.

End Statements.

(** ** validate_sql_security: the four outcomes *)
Section ValidationOutcomes.

Lemma invalid_lookup_valid (msg : string) : invalid msg !! "valid" = Some (VBool false).
Proof. unfold invalid. rewrite lookup_insert_ne by discriminate. apply lookup_singleton_eq. Qed.

Lemma invalid_lookup_error (msg : string) : invalid msg !! "error" = Some (VStr msg).
Proof. unfold invalid. apply lookup_insert_eq. Qed.

Lemma invalid_inj (m1 m2 : string) : invalid m1 = invalid m2 -> m1 = m2.
Proof.
  intros H. pose proof (invalid_lookup_error m1) as E.
  rewrite H, invalid_lookup_error in E. congruence.
Qed.

Lemma accepted_lookup_error : ({["valid" := VBool true]} : gmap string pyval) !! "error" = None.
Proof. apply lookup_singleton_ne. discriminate. Qed.

Lemma accepted_not_invalid (msg : string) : {["valid" := VBool true]} <> invalid msg.
Proof.
  intros H. pose proof (invalid_lookup_valid msg) as E.
  rewrite <- H, lookup_singleton_eq in E. discriminate.
Qed.

Lemma forbidden_message_not_multiple (v : string) :
  forbidden_message v <> multiple_statements_message.
Proof. unfold forbidden_message. rewrite app_cons. discriminate. Qed.

Lemma validate_forbidden (q v : string) :
  first_forbidden (upper q) = Some v ->
  validate_sql_security q = invalid (forbidden_message v).
Proof. intros H. unfold validate_sql_security. rewrite H. reflexivity. Qed.

Lemma validate_multiple (q : string) :
  first_forbidden (upper q) = None ->
  1 < List.length (non_empty_statements q) ->
  validate_sql_security q = invalid multiple_statements_message.
Proof.
  intros H Hn. unfold validate_sql_security. rewrite H.
  apply Nat.ltb_lt in Hn. rewrite Hn. reflexivity.
Qed.

Lemma validate_not_select (q : string) :
  first_forbidden (upper q) = None ->
  List.length (non_empty_statements q) <= 1 ->
  startswith (strip (upper q)) "SELECT" = false ->
  validate_sql_security q = invalid only_select_message.
Proof.
  intros H Hn Hs. unfold validate_sql_security. rewrite H, Hs.
  apply Nat.ltb_ge in Hn. rewrite Hn. reflexivity.
Qed.

Lemma validate_accept (q : string) :
  first_forbidden (upper q) = None ->
  List.length (non_empty_statements q) <= 1 ->
  startswith (strip (upper q)) "SELECT" = true ->
  validate_sql_security q = {["valid" := VBool true]}.
Proof.
  intros H Hn Hs. unfold validate_sql_security. rewrite H, Hs.
  apply Nat.ltb_ge in Hn. rewrite Hn. reflexivity.
Qed.

End ValidationOutcomes.

(** ** Claims about validate_sql_security *)
Section ValidatorClaims.

(** C1 (as amended).  An ASCII query in which one of the fourteen
    forbidden verbs occurs as a standalone word, letter case ignored, is
    rejected, and the error names a forbidden verb that occurs standalone:
    the first such verb in the order of the list, hence the verb itself when
    no verb listed before it occurs standalone.  A query in which no
    forbidden verb occurs standalone (a verb inside a longer identifier such
    as [inserted_by] does not count) is not rejected by the forbidden-verb
    rule, and is accepted when it holds at most one fragment that is not
    blank and starts with SELECT. *)
Theorem forbidden_operation_rule (q : string) :
  ascii_only q = true ->
  let verbs := [ "INSERT"; "UPDATE"; "DELETE"; "DROP"; "ALTER"; "CREATE"; "TRUNCATE";
                 "EXEC"; "EXECUTE"; "MERGE"; "GRANT"; "REVOKE"; "COMMIT"; "ROLLBACK" ] in
  let rejection verb : gmap string pyval :=
    <["error" := VStr ("Forbidden operation detected: " ++ verb
                       ++ ". Only SELECT queries are allowed.")]>
      {["valid" := VBool false]} in
  (forall verb, In verb verbs -> standalone verb q ->
     validate_sql_security q !! "valid" = Some (VBool false) /\
     (exists v, In v verbs /\ standalone v q /\ validate_sql_security q = rejection v) /\
     (forall before after,
        verbs = (before ++ verb :: after)%list ->
        (forall v, In v before -> ~ standalone v q) ->
        validate_sql_security q = rejection verb)) /\
  ((forall verb, In verb verbs -> ~ standalone verb q) ->
     (forall v, validate_sql_security q <> rejection v) /\
     (List.length (nonblank_fragments q) <= 1 ->
      (exists rest, strip (upper q) = "SELECT" ++ rest) ->
      validate_sql_security q = {["valid" := VBool true]})).
Proof.
  intros _ verbs rejection.
  change verbs with FORBIDDEN_OPERATIONS.
  assert (Hrej : forall v, rejection v = invalid (forbidden_message v)) by reflexivity.
  split.
  - intros verb Hin Hs.
    destruct (first_forbidden (upper q)) as [v|] eqn:E.
    + pose proof (validate_forbidden q v E) as Hv.
      destruct (first_forbidden_some q v E) as [Hvin Hvs].
      split; [rewrite Hv; apply invalid_lookup_valid|].
      split; [exists v; rewrite Hrej; auto|].
      intros before after HF Hb.
      rewrite (first_forbidden_first q verb before after HF Hs Hb) in E.
      injection E as <-. rewrite Hrej. exact Hv.
    + exfalso. apply (proj1 (first_forbidden_none q) E verb Hin Hs).
  - intros Hnone. apply first_forbidden_none in Hnone.
    split.
    + intros v Heq. rewrite Hrej in Heq.
      destruct (Nat.le_gt_cases (List.length (non_empty_statements q)) 1) as [Hn|Hn].
      * destruct (startswith (strip (upper q)) "SELECT") eqn:Hsel.
        -- rewrite (validate_accept q Hnone Hn Hsel) in Heq.
           exact (accepted_not_invalid _ Heq).
        -- rewrite (validate_not_select q Hnone Hn Hsel) in Heq.
           apply invalid_inj in Heq. unfold forbidden_message in Heq.
           rewrite app_cons in Heq. discriminate Heq.
      * rewrite (validate_multiple q Hnone Hn) in Heq.
        apply invalid_inj in Heq. symmetry in Heq.
        exact (forbidden_message_not_multiple v Heq).
    + intros Hn Hsel. apply validate_accept; [exact Hnone| |].
      * rewrite length_non_empty_statements. exact Hn.
      * apply startswith_app. exact Hsel.
Qed.

Lemma forbidden_operation_rule_witness :
  validate_sql_security "select a from t where b = 1 or drop"
    = <["error" := VStr "Forbidden operation detected: DROP. Only SELECT queries are allowed."]>
        {["valid" := VBool false]} /\
  validate_sql_security "SELECT inserted_by FROM t" = {["valid" := VBool true]}.
Proof.
  split.
  - refine (proj2 (proj2 (proj1
      (forbidden_operation_rule "select a from t where b = 1 or drop" eq_refl)
      "DROP" _ _)) ["INSERT"; "UPDATE"; "DELETE"] _ eq_refl _).
    + simpl. tauto.
    + exists "select a from t where b = 1 or ", "drop", "". repeat split.
    + intros v Hv Hs.
      assert (Hw : word_literal v = true).
      { apply forbidden_word_literals. simpl in Hv |- *. tauto. }
      apply (proj2 (re_search_word_standalone v _ Hw)) in Hs.
      simpl in Hv. repeat (destruct Hv as [<-|Hv]; [discriminate Hs|]). exact Hv.
  - refine (proj2 (proj2
      (forbidden_operation_rule "SELECT inserted_by FROM t" eq_refl) _) _ _).
    + apply (proj1 (first_forbidden_none _)). reflexivity.
    + vm_compute. lia.
    + exists " INSERTED_BY FROM T". reflexivity.
Defined.

(** C1, as stated, fails: the query below contains DROP as a standalone
    word and the error does not name DROP. *)
Lemma forbidden_operation_named_counterexample :
  ascii_only "DELETE FROM t WHERE DROP" = true /\
  In "DROP" [ "INSERT"; "UPDATE"; "DELETE"; "DROP"; "ALTER"; "CREATE"; "TRUNCATE";
              "EXEC"; "EXECUTE"; "MERGE"; "GRANT"; "REVOKE"; "COMMIT"; "ROLLBACK" ] /\
  standalone "DROP" "DELETE FROM t WHERE DROP" /\
  validate_sql_security "DELETE FROM t WHERE DROP"
    = invalid "Forbidden operation detected: DELETE. Only SELECT queries are allowed." /\
  contains "DROP" "Forbidden operation detected: DELETE. Only SELECT queries are allowed." = false.
Proof.
  split; [reflexivity|]. split; [simpl; tauto|].
  split; [exists "DELETE FROM t WHERE ", "DROP", ""; repeat split|].
  split; reflexivity.
Qed.

(** C2 (as amended).  Fragments are compared after trimming whitespace: a
    query that splits on [;] into more than one fragment holding something
    else than whitespace is rejected, with the multiple-statements error
    when no forbidden verb is found first.  A query with at most one such
    fragment (a single statement followed by semicolons and whitespace) is
    never rejected as multiple statements, and is accepted when it holds no
    standalone forbidden verb and starts with SELECT. *)
Theorem multiple_statements_rule (q : string) :
  ascii_only q = true ->
  (1 < List.length (nonblank_fragments q) ->
     validate_sql_security q !! "valid" = Some (VBool false) /\
     ((forall verb, In verb FORBIDDEN_OPERATIONS -> ~ standalone verb q) ->
      validate_sql_security q = invalid multiple_statements_message)) /\
  (List.length (nonblank_fragments q) <= 1 ->
     validate_sql_security q <> invalid multiple_statements_message /\
     ((forall verb, In verb FORBIDDEN_OPERATIONS -> ~ standalone verb q) ->
      startswith (strip (upper q)) "SELECT" = true ->
      validate_sql_security q = {["valid" := VBool true]})).
Proof.
  intros _. rewrite <- length_non_empty_statements. split.
  - intros Hn. destruct (first_forbidden (upper q)) as [v|] eqn:E.
    + rewrite (validate_forbidden q v E). split; [apply invalid_lookup_valid|].
      intros Hnone. apply first_forbidden_none in Hnone. congruence.
    + rewrite (validate_multiple q E Hn). split; [apply invalid_lookup_valid|reflexivity].
  - intros Hn. split.
    + destruct (first_forbidden (upper q)) as [v|] eqn:E.
      * rewrite (validate_forbidden q v E). intros H. apply invalid_inj in H.
        exact (forbidden_message_not_multiple v H).
      * destruct (startswith (strip (upper q)) "SELECT") eqn:Hs.
        -- rewrite (validate_accept q E Hn Hs). apply accepted_not_invalid.
        -- rewrite (validate_not_select q E Hn Hs). intros H. apply invalid_inj in H.
           discriminate H.
    + intros Hnone Hs. apply first_forbidden_none in Hnone.
      apply validate_accept; assumption.
Qed.

Lemma multiple_statements_rule_witness :
  validate_sql_security "SELECT 1; SELECT 2" = invalid multiple_statements_message /\
  validate_sql_security "SELECT 1;" = {["valid" := VBool true]}.
Proof.
  split.
  - refine (proj2 (proj1 (multiple_statements_rule "SELECT 1; SELECT 2" eq_refl) _) _).
    + vm_compute. lia.
    + apply (proj1 (first_forbidden_none _)). reflexivity.
  - refine (proj2 (proj2 (multiple_statements_rule "SELECT 1;" eq_refl) _) _ eq_refl).
    + vm_compute. lia.
    + apply (proj1 (first_forbidden_none _)). reflexivity.
Defined.

(** C2, as stated, fails: the query below splits on [;] into the fragments
    ["SELECT 1"], [" "] and [""], two of which are not empty, and it is
    accepted. *)
Lemma blank_fragment_counterexample :
  ascii_only "SELECT 1; ;" = true /\
  split ";" "SELECT 1; ;" = ["SELECT 1"; " "; ""] /\
  List.filter truthy (split ";" "SELECT 1; ;") = ["SELECT 1"; " "] /\
  List.filter truthy (split ";" (strip "SELECT 1; ;")) = ["SELECT 1"; " "] /\
  validate_sql_security "SELECT 1; ;" = {["valid" := VBool true]}.
Proof. repeat split. Qed.

(** C3 (as amended).  When the query passes the three rules the result is
    the dictionary [{'valid': True}]: [valid] is true and there is no
    [error] key.  When a rule fails the result is
    [{'valid': False, 'error': msg}] with [msg] a string. *)
Theorem validation_result_shape (q : string) :
  ascii_only q = true ->
  let passes :=
    first_forbidden (upper q) = None /\
    List.length (non_empty_statements q) <= 1 /\
    startswith (strip (upper q)) "SELECT" = true in
  (passes ->
     validate_sql_security q = {["valid" := VBool true]} /\
     validate_sql_security q !! "valid" = Some (VBool true) /\
     validate_sql_security q !! "error" = None) /\
  (~ passes ->
     exists msg,
       validate_sql_security q = invalid msg /\
       validate_sql_security q !! "valid" = Some (VBool false) /\
       validate_sql_security q !! "error" = Some (VStr msg)).
Proof.
  intros _ passes. subst passes. split.
  - intros (E & Hn & Hs). rewrite (validate_accept q E Hn Hs).
    split; [reflexivity|]. split; [apply lookup_singleton_eq|apply accepted_lookup_error].
  - intros Hnot.
    assert (Hex : exists msg, validate_sql_security q = invalid msg).
    { destruct (first_forbidden (upper q)) as [v|] eqn:E.
      { eexists. apply validate_forbidden. exact E. }
      destruct (Nat.le_gt_cases (List.length (non_empty_statements q)) 1) as [Hn|Hn].
      2:{ eexists. apply validate_multiple; assumption. }
      destruct (startswith (strip (upper q)) "SELECT") eqn:Hs.
      { exfalso. apply Hnot. auto. }
      eexists. apply validate_not_select; assumption. }
    destruct Hex as [msg Hmsg]. exists msg. rewrite Hmsg.
    split; [reflexivity|]. split; [apply invalid_lookup_valid|apply invalid_lookup_error].
Qed.

Lemma validation_result_shape_witness :
  validate_sql_security "SELECT 1" !! "error" = None /\
  exists msg, validate_sql_security "SHOW TABLES" !! "error" = Some (VStr msg).
Proof.
  split.
  - refine (proj2 (proj2 (proj1 (validation_result_shape "SELECT 1" eq_refl) _))).
    split; [reflexivity|]. split; [vm_compute; lia|reflexivity].
  - destruct (proj2 (validation_result_shape "SHOW TABLES" eq_refl)) as (msg & _ & _ & H).
    + intros (_ & _ & H). discriminate H.
    + exists msg. exact H.
Defined.

(** C3, as stated, fails: the query below passes the three rules and the
    result has no [error] entry at all, so its [error] is not [None]. *)
Lemma accepted_result_error_counterexample :
  ascii_only "SELECT 1" = true /\
  first_forbidden (upper "SELECT 1") = None /\
  List.length (non_empty_statements "SELECT 1") = 1 /\
  startswith (strip (upper "SELECT 1")) "SELECT" = true /\
  validate_sql_security "SELECT 1" = {["valid" := VBool true]} /\
  validate_sql_security "SELECT 1" !! "error" <> Some VNone.
Proof. repeat split. discriminate. Qed.

(** C10.  The SELECT rule is a prefix test: the query [SELECTION * FROM t]
    holds no standalone forbidden verb and a single statement, its first
    token begins with SELECT without being SELECT, and it is accepted. *)
Theorem select_prefix_is_not_whole_word :
  exists q,
    ascii_only q = true /\
    (forall verb, In verb FORBIDDEN_OPERATIONS -> ~ standalone verb q) /\
    List.length (nonblank_fragments q) = 1 /\
    first_token (strip (upper q)) = "SELECTION" /\
    first_token (strip (upper q)) <> "SELECT" /\
    startswith (first_token (strip (upper q))) "SELECT" = true /\
    validate_sql_security q = {["valid" := VBool true]}.
Proof.
  exists "SELECTION * FROM t".
  split; [reflexivity|].
  split; [apply (proj1 (first_forbidden_none _)); reflexivity|].
  repeat split. discriminate.
Qed.

End ValidatorClaims.

(** ** execute_query *)
Section ExecuteQuery.

Lemma startswith_self_app (p b : string) : startswith (p ++ b) p = true.
Proof. apply startswith_app. exists b. reflexivity. Qed.

Lemma contains_app (p a b : string) : contains p (a ++ p ++ b) = true.
Proof.
  induction a as [|c a IH].
  - rewrite app_empty_l. destruct (p ++ b) eqn:E; cbn [contains]; rewrite <- E;
      rewrite startswith_self_app; reflexivity.
  - rewrite app_cons. cbn [contains]. rewrite IH. apply orb_true_r.
Qed.

Lemma timeout_message_contains (timeout : Z) :
  contains "timeout" (timeout_message timeout) = true.
Proof.
  change (timeout_message timeout)
    with ("Query execution " ++ "timeout" ++ " after " ++ pretty timeout
          ++ " seconds. Try narrowing your date range or filters.").
  apply contains_app.
Qed.

(** The test of the code on the first argument is the equality with 3024. *)
Lemma is_code_3024_equals (v : pyval) : equals_int 3024 v = is_code_3024 v.
Proof. destruct v as [|[]| | | |]; reflexivity. Qed.

Lemma handle_exception_shape (timeout : Z) (e : exception) :
  let r := handle_exception timeout e in
  success r = false /\ data r = [] /\ SqlExecutor.row_count r = 0 /\
  exists msg, error r = Some msg /\
    match class_of e with
    | TimeoutFailure =>
        msg = timeout_message timeout /\ execution_time_ms r = (timeout * 1000)%Z
    | OperationalFailure =>
        msg = "Database operational error: " ++ strip (text_of e) /\ execution_time_ms r = 0%Z
    | DatabaseFailure =>
        msg = "Database error: " ++ strip (text_of e) /\ execution_time_ms r = 0%Z
    | UnclassifiedFailure =>
        msg = "Execution error: " ++ strip (text_of e) /\ execution_time_ms r = 0%Z
    end.
Proof.
  destruct e as [[|a args] text|text|text];
    cbn [handle_exception class_of server_code text_of];
    rewrite <- ?is_code_3024_equals;
    try destruct (equals_int 3024 a); cbn; repeat split; eexists; repeat split.
Qed.

Lemma messages_distinct (t1 t2 : Z) (e1 e2 : exception) :
  class_of e1 <> class_of e2 ->
  error (handle_exception t1 e1) <> error (handle_exception t2 e2).
Proof.
  destruct e1 as [[|a1 args1] x1|x1|x1], e2 as [[|a2 args2] x2|x2|x2];
    cbn [handle_exception class_of server_code];
    rewrite <- ?is_code_3024_equals;
    try destruct (equals_int 3024 a1); try destruct (equals_int 3024 a2);
    cbn [failure error]; unfold timeout_message; intros Hc;
    try (exfalso; apply Hc; reflexivity);
    rewrite !app_cons; discriminate.
Qed.

Local Ltac finish_calls :=
  cbn [script calls elapsed_ms List.tl firstn skipn Nat.eqb app];
  rewrite <- ?List.app_assoc; cbn [app]; rewrite ?List.app_nil_r; reflexivity.

Lemma execute_query_raise (query org_id : string) (timeout : Z) (w : world)
    (k : nat) (e : exception) :
  k < 4 ->
  nth_error (script w) k = Some (Raise e) ->
  (forall j e', j < k -> nth_error (script w) j <> Some (Raise e')) ->
  execute_query query org_id timeout w =
    (handle_exception timeout e,
     {| script := skipn (S k) (script w);
        calls := (calls w ++ firstn (S k) (plan query timeout)
                  ++ (if (k =? 0)%nat then [] else [CloseCursor; CloseConnection]))%list;
        elapsed_ms := elapsed_ms w |}).
Proof.
  intros Hk Hnth Hbefore. destruct w as [sc cs el]. cbn [script calls elapsed_ms] in *.
  assert (H0 : forall a rest, sc = a :: rest -> 0 < k -> forall e', a <> Raise e').
  { intros a rest -> Hlt e' ->. exact (Hbefore 0 e' Hlt eq_refl). }
  assert (H1 : forall a b rest, sc = a :: b :: rest -> 1 < k -> forall e', b <> Raise e').
  { intros a b rest -> Hlt e' ->. exact (Hbefore 1 e' Hlt eq_refl). }
  assert (H2 : forall a b c rest, sc = a :: b :: c :: rest -> 2 < k -> forall e', c <> Raise e').
  { intros a b c rest -> Hlt e' ->. exact (Hbefore 2 e' Hlt eq_refl). }
  unfold execute_query, run, bind, driver, close, plan.
  destruct k as [|[|[|[|k]]]]; [| | | |lia].
  - destruct sc as [|a0 rest]; [discriminate|]. injection Hnth as ->.
    finish_calls.
  - destruct sc as [|a0 [|a1 rest]]; try discriminate. injection Hnth as ->.
    pose proof (H0 _ _ eq_refl ltac:(lia)) as Ha0.
    destruct a0 as [|r0|e0]; [| |exfalso; exact (Ha0 e0 eq_refl)];
      finish_calls.
  - destruct sc as [|a0 [|a1 [|a2 rest]]]; try discriminate. injection Hnth as ->.
    pose proof (H0 _ _ eq_refl ltac:(lia)) as Ha0.
    pose proof (H1 _ _ _ eq_refl ltac:(lia)) as Ha1.
    destruct a0 as [|r0|e0]; [| |exfalso; exact (Ha0 e0 eq_refl)];
      (destruct a1 as [|r1|e1]; [| |exfalso; exact (Ha1 e1 eq_refl)]);
      finish_calls.
  - destruct sc as [|a0 [|a1 [|a2 [|a3 rest]]]]; try discriminate. injection Hnth as ->.
    pose proof (H0 _ _ eq_refl ltac:(lia)) as Ha0.
    pose proof (H1 _ _ _ eq_refl ltac:(lia)) as Ha1.
    pose proof (H2 _ _ _ _ eq_refl ltac:(lia)) as Ha2.
    destruct a0 as [|r0|e0]; [| |exfalso; exact (Ha0 e0 eq_refl)];
      (destruct a1 as [|r1|e1]; [| |exfalso; exact (Ha1 e1 eq_refl)]);
      (destruct a2 as [|r2|e2]; [| |exfalso; exact (Ha2 e2 eq_refl)]);
      finish_calls.
Qed.

(** C9.  When a driver call of the execution raises, [execute_query]
    returns [success = False], [data = []], [row_count = 0] and a string
    [error].  For a timeout (an [OperationalError] whose first argument is
    3024) the message is the timeout message and contains the word
    "timeout"; the other classes have their own templates, and messages of
    different classes are never equal.  Nothing is retried: the driver is
    called once for every step up to the one that raised, and then only to
    close the cursor and the connection. *)
Theorem execution_failure_classes (query org_id : string) (timeout : Z)
    (w : world) (k : nat) (e : exception) :
  k < 4 ->
  nth_error (script w) k = Some (Raise e) ->
  (forall j e', j < k -> nth_error (script w) j <> Some (Raise e')) ->
  let r := fst (execute_query query org_id timeout w) in
  let w' := snd (execute_query query org_id timeout w) in
  success r = false /\ data r = [] /\ SqlExecutor.row_count r = 0 /\
  (exists msg, error r = Some msg /\
     match class_of e with
     | TimeoutFailure =>
         msg = "Query execution timeout after " ++ pretty timeout
               ++ " seconds. Try narrowing your date range or filters." /\
         contains "timeout" msg = true
     | OperationalFailure => msg = "Database operational error: " ++ strip (text_of e)
     | DatabaseFailure => msg = "Database error: " ++ strip (text_of e)
     | UnclassifiedFailure => msg = "Execution error: " ++ strip (text_of e)
     end) /\
  (forall rest text, e = OperationalError (VInt 3024 :: rest) text ->
     class_of e = TimeoutFailure) /\
  (forall t2 e2, class_of e2 <> class_of e ->
     error (handle_exception t2 e2) <> error r) /\
  calls w' = (calls w ++ firstn (S k) (plan query timeout)
              ++ (if (k =? 0)%nat then [] else [CloseCursor; CloseConnection]))%list /\
  script w' = skipn (S k) (script w).
Proof.
  intros Hk Hnth Hbefore r w'. subst r w'.
  rewrite (execute_query_raise query org_id timeout w k e Hk Hnth Hbefore).
  cbn [fst snd script calls].
  destruct (handle_exception_shape timeout e) as (Hs & Hd & Hr & msg & Hmsg & Hclass).
  split; [exact Hs|]. split; [exact Hd|]. split; [exact Hr|].
  split.
  { exists msg. split; [exact Hmsg|].
    destruct (class_of e); destruct Hclass as [-> _]; auto using timeout_message_contains. }
  split; [intros rest text ->; reflexivity|].
  split; [intros t2 e2 Hne; apply messages_distinct; exact Hne|].
  split; reflexivity.
Qed.

Lemma execution_failure_classes_witness :
  let w := World [Done; Done; Raise (OperationalError [VInt 3024; VStr "interrupted"]
                                       "(3024, 'interrupted')")] [] 7 in
  let r := fst (execute_query "SELECT 1" "org_123" 30 w) in
  let denied := World [Raise (OperationalError [VInt 1045; VStr "Access denied"]
                                "(1045, 'Access denied')")] [] 0 in
  let r' := fst (execute_query "SELECT 1" "org_123" 30 denied) in
  success r = false /\ SqlExecutor.row_count r = 0 /\
  error r = Some "Query execution timeout after 30 seconds. Try narrowing your date range or filters." /\
  calls (snd (execute_query "SELECT 1" "org_123" 30 w))
    = [Connect; Execute "SET SESSION max_execution_time = 30000"; Execute "SELECT 1";
       CloseCursor; CloseConnection] /\
  error r' = Some "Database operational error: (1045, 'Access denied')" /\
  calls (snd (execute_query "SELECT 1" "org_123" 30 denied)) = [Connect].
Proof.
  intros w r denied r'.
  assert (Hb : forall j e', j < 2 -> nth_error (script w) j <> Some (Raise e')).
  { intros [|[|j]] e' Hj; [discriminate|discriminate|lia]. }
  destruct (execution_failure_classes "SELECT 1" "org_123" 30 w 2 _
              ltac:(lia) eq_refl Hb)
    as (Hs & _ & Hr & (msg & Hmsg & Hm & _) & _ & _ & Hcalls & _).
  assert (Hb' : forall j e', j < 0 -> nth_error (script denied) j <> Some (Raise e'))
    by (intros j e' Hj; lia).
  destruct (execution_failure_classes "SELECT 1" "org_123" 30 denied 0 _
              ltac:(lia) eq_refl Hb')
    as (_ & _ & _ & (msg' & Hmsg' & Hm') & _ & _ & Hcalls' & _).
  split; [exact Hs|]. split; [exact Hr|].
  split; [exact (eq_trans Hmsg (f_equal Some Hm))|].
  split; [exact Hcalls|].
  split; [exact (eq_trans Hmsg' (f_equal Some Hm'))|exact Hcalls'].
Defined.

End ExecuteQuery.

(** ** build_kpi_query: resolution of the requested ids *)
Section Resolve.

Variable kpi_mapping : gmap Z info.

Lemma resolve_from (kpi_ids : list Z) (acc : resolved) :
  List.fold_left (resolve_step kpi_mapping) kpi_ids acc =
  {| columns_to_select :=
       columns_to_select acc ∪
       list_to_set (omap (fun id => column <$> kpi_mapping !! id) kpi_ids);
     chains_to_filter :=
       chains_to_filter acc ∪ list_to_set (implicated_chains kpi_mapping kpi_ids);
     kpi_info := (kpi_info acc ++ omap (entry_of kpi_mapping) kpi_ids)%list |}.
Proof.
  revert acc. induction kpi_ids as [|id ids IH]; intros acc.
  - destruct acc as [cols chains infos]. cbn.
    rewrite !union_empty_r_L, List.app_nil_r. reflexivity.
  - cbn [List.fold_left]. rewrite IH. unfold resolve_step, implicated_chains, entry_of.
    cbn [omap list_omap]. destruct (kpi_mapping !! id) as [i|]; cbn; [|reflexivity].
    rewrite <- !(assoc_L (∪)), <- List.app_assoc. reflexivity.
Qed.

Lemma resolve_chains (kpi_ids : list Z) :
  chains_to_filter (resolve kpi_mapping kpi_ids)
  = list_to_set (implicated_chains kpi_mapping kpi_ids).
Proof. unfold resolve. rewrite resolve_from. cbn. apply union_empty_l_L. Qed.

Lemma resolve_columns (kpi_ids : list Z) :
  columns_to_select (resolve kpi_mapping kpi_ids)
  = list_to_set (omap (fun id => column <$> kpi_mapping !! id) kpi_ids).
Proof. unfold resolve. rewrite resolve_from. cbn. apply union_empty_l_L. Qed.

Lemma resolve_kpi_info (kpi_ids : list Z) :
  kpi_info (resolve kpi_mapping kpi_ids) = omap (entry_of kpi_mapping) kpi_ids.
Proof. unfold resolve. rewrite resolve_from. reflexivity. Qed.

Lemma single_chain_set (kpi_ids : list Z) (c : string) :
  single_chain kpi_mapping kpi_ids c ->
  chains_to_filter (resolve kpi_mapping kpi_ids) = {[c]}.
Proof.
  intros [Hin Hall]. rewrite resolve_chains. apply set_eq. intros x.
  rewrite elem_of_list_to_set, elem_of_singleton, list_elem_of_In. split.
  - apply Hall.
  - intros ->. exact Hin.
Qed.

Lemma where_clauses_single (start_date end_date c : string) :
  where_clauses start_date end_date {[c]} =
  [lower_bound_clause start_date; upper_bound_clause end_date;
   "parent_chain_group IN ('" ++ c ++ "')"].
Proof.
  unfold where_clauses, chain_clause.
  rewrite bool_decide_eq_false_2 by (apply non_empty_singleton_L).
  rewrite size_singleton, elements_singleton. reflexivity.
Qed.

Lemma where_clauses_unconstrained (start_date end_date : string) (chains : gset string) :
  (forall c, chains <> {[c]}) ->
  where_clauses start_date end_date chains =
  [lower_bound_clause start_date; upper_bound_clause end_date].
Proof.
  intros Hno. unfold where_clauses.
  destruct (bool_decide (chains = ∅)) eqn:E; [reflexivity|].
  apply bool_decide_eq_false in E. cbn [negb andb].
  destruct (size chains <? 2)%nat eqn:Hs; [|reflexivity].
  exfalso. apply Nat.ltb_lt in Hs.
  assert (Hpos : size chains <> 0) by (intros H0; apply size_empty_inv in H0; apply E; apply leibniz_equiv; exact H0).
  assert (H1 : size chains = 1) by lia.
  apply size_1_elem_of in H1 as [c Hc]. apply (Hno c). apply leibniz_equiv. exact Hc.
Qed.

Lemma no_single_chain_set (kpi_ids : list Z) :
  (forall c, ~ single_chain kpi_mapping kpi_ids c) ->
  forall c, chains_to_filter (resolve kpi_mapping kpi_ids) <> {[c]}.
Proof.
  intros Hno c Heq. apply (Hno c). rewrite resolve_chains in Heq.
  split.
  - apply list_elem_of_In, (elem_of_list_to_set (C := gset string)).
    rewrite Heq. apply elem_of_singleton. reflexivity.
  - intros c' Hc'. apply list_elem_of_In, (elem_of_list_to_set (C := gset string)) in Hc'.
    rewrite Heq in Hc'. apply elem_of_singleton in Hc'. exact Hc'.
Qed.

End Resolve.

(** ** Claims about build_kpi_query *)
Section BuilderClaims.

Variable kpi_mapping : gmap Z info.

Lemma select_columns_empty : select_columns ∅ = fixed_columns.
Proof. vm_compute. reflexivity. Qed.

Lemma build_kpi_query_eq (kpi_ids : list Z)
    (start_date end_date frequency org_id end_day : string) :
  get_last_day_of_month end_date = Some end_day ->
  build_kpi_query kpi_mapping kpi_ids start_date end_date frequency org_id =
  Some (render_query
          (select_columns (columns_to_select (resolve kpi_mapping kpi_ids)))
          (where_clauses (normalize_date_format start_date) end_day
             (chains_to_filter (resolve kpi_mapping kpi_ids))),
        kpi_info (resolve kpi_mapping kpi_ids)).
Proof. intros H. unfold build_kpi_query. rewrite H. reflexivity. Qed.

Lemma no_single_chain_cases (kpi_ids : list Z) :
  (forall c, ~ single_chain kpi_mapping kpi_ids c) <->
  implicated_chains kpi_mapping kpi_ids = [] \/
  exists c1 c2, c1 <> c2 /\ In c1 (implicated_chains kpi_mapping kpi_ids)
                /\ In c2 (implicated_chains kpi_mapping kpi_ids).
Proof.
  unfold single_chain. destruct (implicated_chains kpi_mapping kpi_ids) as [|c1 l] eqn:E.
  - split; [auto|]. intros _ c [[] _].
  - split.
    + intros Hno. right.
      destruct (decide (Forall (fun c' => c' = c1) (c1 :: l))) as [Hall|Hnot].
      * exfalso. apply (Hno c1). split; [left; reflexivity|].
        intros c' Hc'. rewrite Forall_forall in Hall. apply Hall, list_elem_of_In, Hc'.
      * apply not_Forall_Exists in Hnot; [|intros x; apply _].
        apply Exists_exists in Hnot as (c2 & Hin & Hne).
        exists c1, c2. split; [congruence|]. split; [left; reflexivity|].
        apply list_elem_of_In. exact Hin.
    + intros [H|(a & b & Hne & Ha & Hb)]; [discriminate|].
      intros c [_ Hall]. apply Hne. rewrite (Hall a Ha), (Hall b Hb). reflexivity.
Qed.

Lemma single_chain_dec (kpi_ids : list Z) :
  (exists c, single_chain kpi_mapping kpi_ids c) \/
  (forall c, ~ single_chain kpi_mapping kpi_ids c).
Proof.
  unfold single_chain.
  destruct (implicated_chains kpi_mapping kpi_ids) as [|c1 l] eqn:E.
  - right. intros c [[] _].
  - destruct (decide (Forall (fun c' => c' = c1) (c1 :: l))) as [Hall|Hnot].
    + left. exists c1. split; [left; reflexivity|].
      intros c' Hc'. rewrite Forall_forall in Hall. apply Hall, list_elem_of_In, Hc'.
    + right. intros c [Hin Hc]. apply Hnot. apply Forall_forall. intros x Hx.
      apply list_elem_of_In in Hx.
      rewrite (Hc x Hx), (Hc c1 (or_introl eq_refl)). reflexivity.
Qed.

Lemma months_between_app (first_day last_day rest : string) :
  months_between first_day last_day ++ rest
  = "mon_year >= '" ++ first_day ++ "' AND mon_year <= '" ++ last_day ++ "'" ++ rest.
Proof. unfold months_between. rewrite !app_assoc_str. reflexivity. Qed.

(** The text the builder emits is the statement of its projection and of
    the conjunction of its clauses. *)
Lemma render_query_statement (cols clauses : list string) :
  render_query cols clauses = statement (join ", " cols) (join " AND " clauses).
Proof. reflexivity. Qed.

Lemma join_bounds (first_day last_day : string) :
  join " AND " [lower_bound_clause first_day; upper_bound_clause last_day]
  = months_between first_day last_day.
Proof.
  unfold join, lower_bound_clause, upper_bound_clause, months_between.
  cbn [String.concat]. rewrite !app_assoc_str. reflexivity.
Qed.

Lemma join_bounds_chain (first_day last_day c : string) :
  join " AND " [lower_bound_clause first_day; upper_bound_clause last_day;
                "parent_chain_group IN ('" ++ c ++ "')"]
  = months_between first_day last_day ++ and_chain c.
Proof.
  unfold join, lower_bound_clause, upper_bound_clause, months_between, and_chain.
  cbn [String.concat]. rewrite !app_assoc_str. reflexivity.
Qed.

Lemma join_fixed_columns : join ", " fixed_columns = fixed_projection.
Proof. reflexivity. Qed.

(** C4.  The WHERE clause of the built query always holds the two bounds
    of the date range.  It holds the constraint on [parent_chain_group] when
    exactly one distinct chain is implicated by the resolved ids, and only
    then: with no implicated chain or with two different ones the clause
    consists of the two bounds. *)
Theorem chain_filter_iff_single_chain (kpi_ids : list Z)
    (start_date end_date frequency org_id end_day : string) :
  get_last_day_of_month end_date = Some end_day ->
  let r := resolve kpi_mapping kpi_ids in
  let projection := join ", " (select_columns (columns_to_select r)) in
  let bounds := months_between (normalize_date_format start_date) end_day in
  (forall c, single_chain kpi_mapping kpi_ids c ->
     build_kpi_query kpi_mapping kpi_ids start_date end_date frequency org_id =
     Some (statement projection (bounds ++ and_chain c), kpi_info r)) /\
  ((implicated_chains kpi_mapping kpi_ids = [] \/
    exists c1 c2, c1 <> c2 /\ In c1 (implicated_chains kpi_mapping kpi_ids)
                  /\ In c2 (implicated_chains kpi_mapping kpi_ids)) ->
     build_kpi_query kpi_mapping kpi_ids start_date end_date frequency org_id =
     Some (statement projection bounds, kpi_info r)) /\
  ((exists c, single_chain kpi_mapping kpi_ids c) \/
   (implicated_chains kpi_mapping kpi_ids = [] \/
    exists c1 c2, c1 <> c2 /\ In c1 (implicated_chains kpi_mapping kpi_ids)
                  /\ In c2 (implicated_chains kpi_mapping kpi_ids))).
Proof.
  intros Hend r projection bounds. subst r projection bounds.
  rewrite (build_kpi_query_eq kpi_ids start_date end_date frequency org_id end_day Hend).
  rewrite render_query_statement.
  split; [|split].
  - intros c Hc. rewrite (single_chain_set kpi_mapping kpi_ids c Hc), where_clauses_single.
    rewrite join_bounds_chain. reflexivity.
  - intros Hno. pose proof (proj2 (no_single_chain_cases kpi_ids) Hno) as Hno'.
    rewrite where_clauses_unconstrained, join_bounds; [reflexivity|].
    apply no_single_chain_set. exact Hno'.
  - destruct (implicated_chains kpi_mapping kpi_ids) as [|c1 l] eqn:E; [right; left; reflexivity|].
    destruct (decide (Forall (fun c' => c' = c1) (c1 :: l))) as [Hall|Hnot].
    + left. exists c1. unfold single_chain. rewrite E. split; [left; reflexivity|].
      intros c' Hc'. rewrite Forall_forall in Hall. apply Hall, list_elem_of_In, Hc'.
    + right. right. apply not_Forall_Exists in Hnot; [|intros x; apply _].
      apply Exists_exists in Hnot as (c2 & Hin & Hne).
      exists c1, c2. split; [congruence|]. split; [left; reflexivity|].
      apply list_elem_of_In. exact Hin.
Qed.

(** C5.  [kpi_info] holds one entry for every requested id that is mapped,
    in request order and with the fields of the mapping, and nothing for an
    unmapped id; no error is raised for it.  For [[a; b]] with only [a]
    mapped it is the single entry of [a].  When no requested id is mapped
    the query is still built, with the fixed projection only, and the
    handler still hands it to the database. *)
Theorem unmapped_ids_dropped (kpi_ids : list Z)
    (start_date end_date frequency org_id end_day : string) :
  get_last_day_of_month end_date = Some end_day ->
  exists query,
    build_kpi_query kpi_mapping kpi_ids start_date end_date frequency org_id
      = Some (query, omap (entry_of kpi_mapping) kpi_ids) /\
    List.map kpi_id (omap (entry_of kpi_mapping) kpi_ids)
      = List.filter (fun id => bool_decide (is_Some (kpi_mapping !! id))) kpi_ids /\
    (forall a b i, kpi_ids = [a; b] ->
       kpi_mapping !! a = Some i -> kpi_mapping !! b = None ->
       omap (entry_of kpi_mapping) kpi_ids
         = [{| kpi_id := a; kpi_column := column i; kpi_name := name i;
               kpi_unit := unit_ i; kpi_chain := chain i |}]) /\
    ((forall id, In id kpi_ids -> kpi_mapping !! id = None) ->
       omap (entry_of kpi_mapping) kpi_ids = [] /\
       query = statement fixed_projection
                 (months_between (normalize_date_format start_date) end_day) /\
       forall format_currency format_grouped strftime py_str format_pct
              mean_is_zero count_outliers run_query date_range,
         kpi_ids <> [] ->
         parse_date_range date_range = Some (start_date, end_date) ->
         snd (lambda_handler format_currency format_grouped strftime py_str
                format_pct mean_is_zero count_outliers true run_query
                kpi_mapping kpi_ids date_range frequency org_id) = [query]).
Proof.
  intros Hend. eexists. split; [|split; [|split]].
  - rewrite (build_kpi_query_eq kpi_ids start_date end_date frequency org_id end_day Hend).
    rewrite resolve_kpi_info. reflexivity.
  - clear Hend. induction kpi_ids as [|id ids IH]; [reflexivity|].
    cbn [omap list_omap List.filter]. unfold entry_of at 1.
    destruct (kpi_mapping !! id) as [i|] eqn:E; cbn; [f_equal|]; exact IH.
  - intros a b i -> Ha Hb. cbn. unfold entry_of. rewrite Ha, Hb. reflexivity.
  - intros Hnone.
    assert (Hinfo : omap (entry_of kpi_mapping) kpi_ids = []).
    { clear Hend. induction kpi_ids as [|id ids IH]; [reflexivity|].
      cbn. unfold entry_of at 1. rewrite (Hnone id) by (left; reflexivity). cbn.
      apply IH. intros x Hx. apply Hnone. right. exact Hx. }
    assert (Hcols : omap (fun id => column <$> kpi_mapping !! id) kpi_ids = []).
    { clear Hend Hinfo. induction kpi_ids as [|id ids IH]; [reflexivity|].
      cbn. rewrite (Hnone id) by (left; reflexivity). cbn.
      apply IH. intros x Hx. apply Hnone. right. exact Hx. }
    assert (Hchains : implicated_chains kpi_mapping kpi_ids = []).
    { clear Hend Hinfo Hcols. unfold implicated_chains.
      induction kpi_ids as [|id ids IH]; [reflexivity|].
      cbn. rewrite (Hnone id) by (left; reflexivity). cbn.
      apply IH. intros x Hx. apply Hnone. right. exact Hx. }
    assert (Hq : render_query
                   (select_columns (columns_to_select (resolve kpi_mapping kpi_ids)))
                   (where_clauses (normalize_date_format start_date) end_day
                      (chains_to_filter (resolve kpi_mapping kpi_ids)))
                 = statement fixed_projection
                     (months_between (normalize_date_format start_date) end_day)).
    { rewrite resolve_columns, resolve_chains, Hcols, Hchains.
      cbn [list_to_set foldr]. rewrite select_columns_empty.
      rewrite render_query_statement, join_fixed_columns.
      unfold where_clauses. rewrite bool_decide_eq_true_2 by reflexivity.
      cbn [negb andb]. rewrite List.app_nil_r, join_bounds. reflexivity. }
    split; [exact Hinfo|]. split; [exact Hq|].
    intros fc fg sf ps fp mz co run_query date_range Hne Hparse.
    unfold lambda_handler. destruct kpi_ids as [|id ids]; [contradiction|].
    rewrite Hparse.
    rewrite (build_kpi_query_eq (id :: ids) start_date end_date frequency org_id end_day Hend).
    destruct (run_query _) as [raw|]; [|reflexivity].
    destruct (validate_data_quality _ _ _ _); [|reflexivity].
    destruct (format_kpi_results _ _ _ _ _ _); reflexivity.
Qed.

End BuilderClaims.

Lemma chain_filter_iff_single_chain_witness :
  build_kpi_query sample_mapping [7; 8; 11]%Z "2024-01" "2024-02" "monthly" "default" =
  Some (String "010" "        SELECT " ++
        String "010" "            mon_year as period, parent_chain_group, company_chain, channel_group, channel, cy_revenue, cy_volume, py_revenue, revenue_variance, revenue_variance_percent, py_volume, volume_variance, percent_volume_change" ++
        String "010" "        FROM reddyice_s3_commercial_money" ++
        String "010" "        WHERE mon_year >= '2024-01-01' AND mon_year <= '2024-02-29' AND parent_chain_group IN ('Customer A')" ++
        String "010" "        ORDER BY mon_year, parent_chain_group" ++
        String "010" "    ",
        [ {| kpi_id := 7; kpi_column := "cy_revenue"; kpi_name := "Total Revenue";
             kpi_unit := "currency"; kpi_chain := "Customer A" |};
          {| kpi_id := 11; kpi_column := "cy_volume"; kpi_name := "Total Volume";
             kpi_unit := "count"; kpi_chain := "Customer A" |} ]) /\
  build_kpi_query sample_mapping [7; 9]%Z "2024-01" "2024-02" "monthly" "default" =
  Some (String "010" "        SELECT " ++
        String "010" "            mon_year as period, parent_chain_group, company_chain, channel_group, channel, cy_oos_percent, cy_revenue, py_revenue, revenue_variance, revenue_variance_percent, py_oos_percent" ++
        String "010" "        FROM reddyice_s3_commercial_money" ++
        String "010" "        WHERE mon_year >= '2024-01-01' AND mon_year <= '2024-02-29'" ++
        String "010" "        ORDER BY mon_year, parent_chain_group" ++
        String "010" "    ",
        [ {| kpi_id := 7; kpi_column := "cy_revenue"; kpi_name := "Total Revenue";
             kpi_unit := "currency"; kpi_chain := "Customer A" |};
          {| kpi_id := 9; kpi_column := "cy_oos_percent"; kpi_name := "Average OOS%";
             kpi_unit := "percent"; kpi_chain := "Customer B" |} ]).
Proof.
  split.
  - refine (eq_trans (proj1 (chain_filter_iff_single_chain sample_mapping [7; 8; 11]%Z
                     "2024-01" "2024-02" "monthly" "default" "2024-02-29" eq_refl)
              "Customer A" _) _).
    + split.
      * vm_compute. tauto.
      * intros c' Hc'. vm_compute in Hc'. destruct Hc' as [<-|[<-|[]]]; reflexivity.
    + vm_compute. reflexivity.
  - refine (eq_trans (proj1 (proj2 (chain_filter_iff_single_chain sample_mapping [7; 9]%Z
                     "2024-01" "2024-02" "monthly" "default" "2024-02-29" eq_refl)) _) _).
    + right. exists "Customer A", "Customer B".
      split; [discriminate|]. vm_compute. tauto.
    + vm_compute. reflexivity.
Defined.

Lemma unmapped_ids_dropped_witness :
  (exists query,
     build_kpi_query sample_mapping [7; 8]%Z "2024-01" "2024-01" "monthly" "default"
       = Some (query,
               [{| kpi_id := 7; kpi_column := "cy_revenue"; kpi_name := "Total Revenue";
                   kpi_unit := "currency"; kpi_chain := "Customer A" |}])) /\
  build_kpi_query sample_mapping [8]%Z "2024-01" "2024-01" "monthly" "default"
  = Some (String "010" "        SELECT " ++
          String "010" "            mon_year as period, parent_chain_group, company_chain, channel_group, channel" ++
          String "010" "        FROM reddyice_s3_commercial_money" ++
          String "010" "        WHERE mon_year >= '2024-01-01' AND mon_year <= '2024-01-31'" ++
          String "010" "        ORDER BY mon_year, parent_chain_group" ++
          String "010" "    ",
          []).
Proof.
  split.
  - destruct (unmapped_ids_dropped sample_mapping [7; 8]%Z
                "2024-01" "2024-01" "monthly" "default" "2024-01-31" eq_refl)
      as (query & Hq & _ & Hab & _).
    exists query. rewrite Hq, (Hab 7%Z 8%Z _ eq_refl eq_refl eq_refl). reflexivity.
  - destruct (unmapped_ids_dropped sample_mapping [8]%Z
                "2024-01" "2024-01" "monthly" "default" "2024-01-31" eq_refl)
      as (query & Hq & _ & _ & Hnone).
    assert (Hunmapped : forall id, In id [8%Z] -> sample_mapping !! id = None)
      by (intros id [<-|[]]; reflexivity).
    destruct (Hnone Hunmapped) as (Hinfo & Hquery & _).
    rewrite Hq, Hinfo, Hquery. reflexivity.
Defined.

(** ** Dates *)
Section Dates.

Lemma digit_cases (d : Z) :
  (0 <= d <= 9)%Z ->
  d = 0%Z \/ d = 1%Z \/ d = 2%Z \/ d = 3%Z \/ d = 4%Z \/
  d = 5%Z \/ d = 6%Z \/ d = 7%Z \/ d = 8%Z \/ d = 9%Z.
Proof. lia. Qed.

Lemma digit_char_facts (d : Z) :
  (0 <= d <= 9)%Z ->
  is_digit (digit_char d) = true /\ digit_value (digit_char d) = d.
Proof.
  intros H. destruct (digit_cases d H) as [->|[->|[->|[->|[->|[->|[->|[->|[->| ->]]]]]]]]];
    split; reflexivity.
Qed.

Lemma is_digit_facts (c : ascii) :
  is_digit c = true ->
  is_c_space c = false /\ Ascii.eqb "-" c = false /\
  Ascii.eqb c "-" = false /\ Ascii.eqb c "+" = false.
Proof. destruct c as [[] [] [] [] [] [] [] []]; cbv; intros H; try discriminate H; auto. Qed.

Lemma split_year_month (c1 c2 c3 c4 c5 c6 : ascii) :
  is_digit c1 = true -> is_digit c2 = true -> is_digit c3 = true ->
  is_digit c4 = true -> is_digit c5 = true -> is_digit c6 = true ->
  split "-" (String c1 (String c2 (String c3 (String c4
               (String "-" (String c5 (String c6 "")))))))
  = [String c1 (String c2 (String c3 (String c4 ""))); String c5 (String c6 "")].
Proof.
  intros H1 H2 H3 H4 H5 H6.
  destruct (is_digit_facts c1 H1) as (_ & E1 & _).
  destruct (is_digit_facts c2 H2) as (_ & E2 & _).
  destruct (is_digit_facts c3 H3) as (_ & E3 & _).
  destruct (is_digit_facts c4 H4) as (_ & E4 & _).
  destruct (is_digit_facts c5 H5) as (_ & E5 & _).
  destruct (is_digit_facts c6 H6) as (_ & E6 & _).
  unfold split. cbn [split_go startswith].
  rewrite E1, E2, E3, E4, E5, E6, Ascii.eqb_refl. reflexivity.
Qed.

Lemma skip_digits (s : string) :
  (forall c, In c (list_ascii_of_string s) -> is_digit c = true) ->
  skip_trailing (skip_leading s) = s.
Proof.
  intros H.
  assert (Hl : skip_leading s = s).
  { destruct s as [|c s]; [reflexivity|]. cbn [skip_leading].
    destruct (is_digit_facts c (H c (or_introl eq_refl))) as (-> & _). reflexivity. }
  rewrite Hl. clear Hl. induction s as [|c s IH]; [reflexivity|].
  cbn [skip_trailing]. destruct (is_digit_facts c (H c (or_introl eq_refl))) as (-> & _).
  cbn [andb]. rewrite IH; [reflexivity|].
  intros x Hx. apply H. right. exact Hx.
Qed.

Lemma py_int_four_digits (y : Z) :
  (0 <= y <= 9999)%Z -> py_int (four_digits y) = Some y.
Proof.
  intros Hy. unfold four_digits.
  assert (D1 : (0 <= y / 1000 <= 9)%Z) by (Z.div_mod_to_equations; lia).
  assert (D2 : (0 <= y / 100 mod 10 <= 9)%Z) by (Z.div_mod_to_equations; lia).
  assert (D3 : (0 <= y / 10 mod 10 <= 9)%Z) by (Z.div_mod_to_equations; lia).
  assert (D4 : (0 <= y mod 10 <= 9)%Z) by (Z.div_mod_to_equations; lia).
  destruct (digit_char_facts _ D1) as [I1 V1], (digit_char_facts _ D2) as [I2 V2],
           (digit_char_facts _ D3) as [I3 V3], (digit_char_facts _ D4) as [I4 V4].
  unfold py_int. rewrite skip_digits.
  2:{ intros c Hc. cbn in Hc. destruct Hc as [<-|[<-|[<-|[<-|[]]]]]; assumption. }
  destruct (is_digit_facts _ I1) as (_ & _ & -> & ->).
  cbn [int_digits]. rewrite I1, I2, I3, I4, V1, V2, V3, V4. f_equal.
  Z.div_mod_to_equations. lia.
Qed.

Lemma py_int_two_digits (m : Z) :
  (0 <= m <= 99)%Z -> py_int (two_digits m) = Some m.
Proof.
  intros Hm. unfold two_digits.
  assert (D1 : (0 <= m / 10 <= 9)%Z) by (Z.div_mod_to_equations; lia).
  assert (D2 : (0 <= m mod 10 <= 9)%Z) by (Z.div_mod_to_equations; lia).
  destruct (digit_char_facts _ D1) as [I1 V1], (digit_char_facts _ D2) as [I2 V2].
  unfold py_int. rewrite skip_digits.
  2:{ intros c Hc. cbn in Hc. destruct Hc as [<-|[<-|[]]]; assumption. }
  destruct (is_digit_facts _ I1) as (_ & _ & -> & ->).
  cbn [int_digits]. rewrite I1, I2, V1, V2. f_equal.
  Z.div_mod_to_equations. lia.
Qed.

Lemma isleap_leap_year (y : Z) : isleap y = leap_year y.
Proof.
  unfold isleap, leap_year.
  destruct (Z.eqb_spec (y mod 4) 0), (Z.eqb_spec (y mod 100) 0),
           (Z.eqb_spec (y mod 400) 0); cbn; try reflexivity;
    exfalso; Z.div_mod_to_equations; lia.
Qed.

Lemma month_cases (m : Z) :
  (1 <= m <= 12)%Z ->
  m = 1%Z \/ m = 2%Z \/ m = 3%Z \/ m = 4%Z \/ m = 5%Z \/ m = 6%Z \/
  m = 7%Z \/ m = 8%Z \/ m = 9%Z \/ m = 10%Z \/ m = 11%Z \/ m = 12%Z.
Proof. lia. Qed.

Lemma monthrange_days_last (y m : Z) :
  (1 <= m <= 12)%Z -> monthrange_days y m = Some (last_calendar_day y m).
Proof.
  intros Hm. unfold monthrange_days, last_calendar_day. rewrite isleap_leap_year.
  destruct (month_cases m Hm)
    as [->|[->|[->|[->|[->|[->|[->|[->|[->|[->|[->| ->]]]]]]]]]]];
    cbn; try reflexivity.
  destruct (leap_year y); reflexivity.
Qed.

Lemma format_02d_last (y m : Z) :
  (1 <= m <= 12)%Z ->
  format_02d (last_calendar_day y m) = two_digits (last_calendar_day y m).
Proof.
  intros Hm. unfold last_calendar_day.
  destruct (_ || _)%bool; [reflexivity|].
  destruct (m =? 2)%Z; [|reflexivity].
  destruct (leap_year y); reflexivity.
Qed.

Lemma get_last_day_of_month_year_month (y m : Z) :
  (0 <= y <= 9999)%Z -> (1 <= m <= 12)%Z ->
  get_last_day_of_month (year_month y m)
  = Some (year_month y m ++ "-" ++ two_digits (last_calendar_day y m)).
Proof.
  intros Hy Hm. unfold get_last_day_of_month.
  change (String.length (year_month y m) =? 7)%nat with true. cbn iota.
  assert (D1 : (0 <= y / 1000 <= 9)%Z) by (Z.div_mod_to_equations; lia).
  assert (D2 : (0 <= y / 100 mod 10 <= 9)%Z) by (Z.div_mod_to_equations; lia).
  assert (D3 : (0 <= y / 10 mod 10 <= 9)%Z) by (Z.div_mod_to_equations; lia).
  assert (D4 : (0 <= y mod 10 <= 9)%Z) by (Z.div_mod_to_equations; lia).
  assert (D5 : (0 <= m / 10 <= 9)%Z) by (Z.div_mod_to_equations; lia).
  assert (D6 : (0 <= m mod 10 <= 9)%Z) by (Z.div_mod_to_equations; lia).
  change (year_month y m) with
    (String (digit_char (y / 1000)) (String (digit_char (y / 100 mod 10))
       (String (digit_char (y / 10 mod 10)) (String (digit_char (y mod 10))
          (String "-" (String (digit_char (m / 10))
             (String (digit_char (m mod 10)) ""))))))) at 1.
  rewrite split_year_month by (apply digit_char_facts; assumption).
  cbn [List.map].
  change (String (digit_char (y / 1000)) _) with (four_digits y).
  change (String (digit_char (m / 10)) _) with (two_digits m).
  rewrite py_int_four_digits, py_int_two_digits by lia.
  rewrite monthrange_days_last by exact Hm. cbn [mbind option_bind].
  rewrite format_02d_last by exact Hm. reflexivity.
Qed.

Lemma normalize_date_format_year_month (y m : Z) :
  normalize_date_format (year_month y m) = year_month y m ++ "-01".
Proof. reflexivity. Qed.

End Dates.

(** ** parse_date_range: splitting at the separator *)
Section RangeSplit.

Lemma spaceless_cons (c : ascii) (s : string) :
  Notions.spaceless (String c s) = true -> is_space c = false /\ Notions.spaceless s = true.
Proof. cbn [Notions.spaceless]. rewrite andb_true_iff, negb_true_iff. tauto. Qed.

Lemma not_space_char (c : ascii) : is_space c = false -> Ascii.eqb " " c = false.
Proof. destruct (Ascii.eqb_spec " " c) as [<-|]; [discriminate|reflexivity]. Qed.

Lemma rev_app_rev_app (a b c : string) :
  String.rev_app (String.rev_app a b) c = String.rev_app b (a ++ c).
Proof.
  revert b. induction a as [|x a IH]; intros b; [reflexivity|].
  cbn [String.rev_app]. rewrite IH. reflexivity.
Qed.

Lemma rev_rev_app (s : string) : String.rev (String.rev_app s "") = s.
Proof. unfold String.rev. rewrite rev_app_rev_app. cbn. apply app_empty_r. Qed.

Lemma split_to_spaceless (cur s : string) :
  Notions.spaceless s = true ->
  split_go " to " 0 cur s = [String.rev (String.rev_app s cur)].
Proof.
  revert cur. induction s as [|c s IH]; intros cur H; [reflexivity|].
  apply spaceless_cons in H as [Hc Hs].
  cbn [split_go startswith]. rewrite (not_space_char c Hc).
  rewrite (IH _ Hs). reflexivity.
Qed.

Lemma split_to_at_separator (cur a b : string) :
  Notions.spaceless a = true -> Notions.spaceless b = true ->
  split_go " to " 0 cur (a ++ " to " ++ b)
  = [String.rev (String.rev_app a cur); String.rev (String.rev_app b "")].
Proof.
  revert cur. induction a as [|c a IH]; intros cur Ha Hb.
  - rewrite app_empty_l.
    change (" to " ++ b) with (String " " (String "t" (String "o" (String " " b)))).
    cbn [split_go startswith]. rewrite !Ascii.eqb_refl. cbn [String.length Nat.sub].
    rewrite (split_to_spaceless "" b Hb). reflexivity.
  - apply spaceless_cons in Ha as [Hc Ha]. rewrite app_cons.
    cbn [split_go startswith]. rewrite (not_space_char c Hc).
    rewrite (IH _ Ha Hb). reflexivity.
Qed.

Lemma strip_spaceless (s : string) : Notions.spaceless s = true -> strip s = s.
Proof.
  intros H. unfold strip.
  assert (Hl : lstrip s = s).
  { destruct s as [|c s]; [reflexivity|]. apply spaceless_cons in H as [Hc _].
    cbn [lstrip]. rewrite Hc. reflexivity. }
  rewrite Hl. clear Hl. induction s as [|c s IH]; [reflexivity|].
  apply spaceless_cons in H as [Hc Hs]. cbn [rstrip]. rewrite Hc, (IH Hs). reflexivity.
Qed.

Lemma digit_not_space (d : Z) : (0 <= d <= 9)%Z -> is_space (digit_char d) = false.
Proof.
  intros H. destruct (digit_cases d H) as [->|[->|[->|[->|[->|[->|[->|[->|[->| ->]]]]]]]]];
    reflexivity.
Qed.

Lemma spaceless_year_month (y m : Z) :
  (0 <= y <= 9999)%Z -> (1 <= m <= 12)%Z -> Notions.spaceless (year_month y m) = true.
Proof.
  intros Hy Hm.
  assert (D1 : (0 <= y / 1000 <= 9)%Z) by (Z.div_mod_to_equations; lia).
  assert (D2 : (0 <= y / 100 mod 10 <= 9)%Z) by (Z.div_mod_to_equations; lia).
  assert (D3 : (0 <= y / 10 mod 10 <= 9)%Z) by (Z.div_mod_to_equations; lia).
  assert (D4 : (0 <= y mod 10 <= 9)%Z) by (Z.div_mod_to_equations; lia).
  assert (D5 : (0 <= m / 10 <= 9)%Z) by (Z.div_mod_to_equations; lia).
  assert (D6 : (0 <= m mod 10 <= 9)%Z) by (Z.div_mod_to_equations; lia).
  change (year_month y m) with
    (String (digit_char (y / 1000)) (String (digit_char (y / 100 mod 10))
       (String (digit_char (y / 10 mod 10)) (String (digit_char (y mod 10))
          (String "-" (String (digit_char (m / 10))
             (String (digit_char (m mod 10)) ""))))))).
  cbn [Notions.spaceless]. rewrite !digit_not_space by assumption. reflexivity.
Qed.

Lemma parse_date_range_parts (a b : string) :
  Notions.spaceless a = true -> Notions.spaceless b = true ->
  parse_date_range (a ++ " to " ++ b) = Some (a, b).
Proof.
  intros Ha Hb. unfold parse_date_range, split.
  rewrite (split_to_at_separator "" a b Ha Hb), !rev_rev_app.
  rewrite !strip_spaceless by assumption. reflexivity.
Qed.

End RangeSplit.

Section DateClaims.

Variable kpi_mapping : gmap Z info.

(** C6.  A range of two months written [YYYY-MM] is parsed into its two
    months, and the statement built for them is bounded below by the first
    day of the start month and above by the last calendar day of the end
    month, February having 29 days in leap years.  The range
    "2024-01 to 2024-01" is bounded by 2024-01-01 and 2024-01-31, and
    "2024-02 to 2024-02" by 2024-02-01 and 2024-02-29. *)
Theorem date_range_normalization (kpi_ids : list Z) (frequency org_id : string)
    (y1 m1 y2 m2 : Z) :
  (0 <= y1 <= 9999)%Z -> (1 <= m1 <= 12)%Z ->
  (0 <= y2 <= 9999)%Z -> (1 <= m2 <= 12)%Z ->
  let projection :=
    join ", " (select_columns (columns_to_select (resolve kpi_mapping kpi_ids))) in
  let info := kpi_info (resolve kpi_mapping kpi_ids) in
  let built (date_range first_day last_day : string) :=
    exists start_date end_date chain_part,
      parse_date_range date_range = Some (start_date, end_date) /\
      (forall c, single_chain kpi_mapping kpi_ids c -> chain_part = and_chain c) /\
      ((forall c, ~ single_chain kpi_mapping kpi_ids c) -> chain_part = "") /\
      build_kpi_query kpi_mapping kpi_ids start_date end_date frequency org_id
      = Some (statement projection
                ("mon_year >= '" ++ first_day ++ "' AND mon_year <= '" ++ last_day ++ "'"
                 ++ chain_part),
              info) in
  built (year_month y1 m1 ++ " to " ++ year_month y2 m2)
        (year_month y1 m1 ++ "-01")
        (year_month y2 m2 ++ "-" ++ two_digits (last_calendar_day y2 m2)) /\
  built "2024-01 to 2024-01" "2024-01-01" "2024-01-31" /\
  built "2024-02 to 2024-02" "2024-02-01" "2024-02-29".
Proof.
  intros Hy1 Hm1 Hy2 Hm2 projection info built.
  assert (H : forall a1 b1 a2 b2,
            (0 <= a1 <= 9999)%Z -> (1 <= b1 <= 12)%Z ->
            (0 <= a2 <= 9999)%Z -> (1 <= b2 <= 12)%Z ->
            built (year_month a1 b1 ++ " to " ++ year_month a2 b2)
                  (year_month a1 b1 ++ "-01")
                  (year_month a2 b2 ++ "-" ++ two_digits (last_calendar_day a2 b2))).
  { intros a1 b1 a2 b2 Ha1 Hb1 Ha2 Hb2. subst built. cbn beta.
    exists (year_month a1 b1), (year_month a2 b2).
    pose proof (build_kpi_query_eq kpi_mapping kpi_ids (year_month a1 b1)
                  (year_month a2 b2) frequency org_id _
                  (get_last_day_of_month_year_month a2 b2 Ha2 Hb2)) as Hq.
    rewrite normalize_date_format_year_month, render_query_statement in Hq.
    destruct (single_chain_dec kpi_mapping kpi_ids) as [[c Hc]|Hno].
    - exists (and_chain c).
      split; [apply parse_date_range_parts; apply spaceless_year_month; assumption|].
      split.
      { intros c' Hc'. f_equal. exact (proj2 Hc' c (proj1 Hc)). }
      split; [intros Hnone; destruct (Hnone c Hc)|].
      rewrite (single_chain_set kpi_mapping kpi_ids c Hc), where_clauses_single,
        join_bounds_chain, months_between_app in Hq.
      exact Hq.
    - exists "".
      split; [apply parse_date_range_parts; apply spaceless_year_month; assumption|].
      split; [intros c Hc; destruct (Hno c Hc)|].
      split; [reflexivity|].
      rewrite where_clauses_unconstrained, join_bounds, <- (app_empty_r (months_between _ _)),
        months_between_app in Hq
        by (apply no_single_chain_set; exact Hno).
      exact Hq. }
  split; [apply H; assumption|].
  split; [exact (H 2024%Z 1%Z 2024%Z 1%Z ltac:(lia) ltac:(lia) ltac:(lia) ltac:(lia))
         |exact (H 2024%Z 2%Z 2024%Z 2%Z ltac:(lia) ltac:(lia) ltac:(lia) ltac:(lia))].
Qed.

End DateClaims.

Lemma date_range_normalization_witness :
  parse_date_range "2024-02 to 2024-02" = Some ("2024-02", "2024-02") /\
  build_kpi_query sample_mapping [7]%Z "2024-02" "2024-02" "monthly" "default"
  = Some (String "010" "        SELECT " ++
          String "010" "            mon_year as period, parent_chain_group, company_chain, channel_group, channel, cy_revenue, py_revenue, revenue_variance, revenue_variance_percent" ++
          String "010" "        FROM reddyice_s3_commercial_money" ++
          String "010" "        WHERE mon_year >= '2024-02-01' AND mon_year <= '2024-02-29' AND parent_chain_group IN ('Customer A')" ++
          String "010" "        ORDER BY mon_year, parent_chain_group" ++
          String "010" "    ",
          [ {| kpi_id := 7; kpi_column := "cy_revenue"; kpi_name := "Total Revenue";
               kpi_unit := "currency"; kpi_chain := "Customer A" |} ]).
Proof.
  destruct (proj1 (date_range_normalization sample_mapping [7]%Z "monthly" "default"
                     2024 2 2024 2 ltac:(lia) ltac:(lia) ltac:(lia) ltac:(lia)))
    as (start_date & end_date & chain_part & Hparse & Hchain & _ & Hbuilt).
  assert (Hp : parse_date_range "2024-02 to 2024-02" = Some ("2024-02", "2024-02"))
    by reflexivity.
  change (year_month 2024 2 ++ " to " ++ year_month 2024 2)
    with "2024-02 to 2024-02" in Hparse.
  rewrite Hp in Hparse. injection Hparse as <- <-.
  split; [exact Hp|].
  rewrite Hbuilt, (Hchain "Customer A"); [reflexivity|].
  split.
  - vm_compute. tauto.
  - intros c' Hc'. vm_compute in Hc'. destruct Hc' as [<-|[]]. reflexivity.
Defined.

(** ** format_kpi_results: the percent rule *)
Section PercentRule.

Lemma format_percent_nonnegative (d : Z * nat) :
  (0 <= fst d)%Z -> format_percent d = percent_by_magnitude d.
Proof.
  intros H. unfold format_percent, percent_by_magnitude, below_one, magnitude_below_one.
  rewrite Z.abs_eq by exact H. reflexivity.
Qed.

Lemma format_percent_fraction (d : Z * nat) :
  (- 10 ^ Z.of_nat (snd d) < fst d)%Z -> format_percent d = percent_by_magnitude d.
Proof.
  intros H. unfold format_percent, percent_by_magnitude, below_one, magnitude_below_one.
  destruct (Z.ltb_spec (fst d) (10 ^ Z.of_nat (snd d))),
           (Z.ltb_spec (Z.abs (fst d)) (10 ^ Z.of_nat (snd d))); try reflexivity; lia.
Qed.

(** C7 (a defect of the code).  The percent rule tests [value < 1], not the
    magnitude: the value -5.30 of the column [percent_volume_change], whose
    magnitude is not below 1, is multiplied by 100 and rendered "-530.00%",
    where the rule on magnitudes renders "-5.30%".  The raw value is kept
    in the original slot. *)
Theorem negative_percentage_is_scaled
    (format_currency format_grouped : pyval -> option string)
    (strftime : string -> Z -> string) (py_str : pyval -> string) :
  contains "revenue" (lower "percent_volume_change") = false /\
  contains "percent" (lower "percent_volume_change") = true /\
  format_kpi_results format_currency format_grouped strftime py_str
    [[("percent_volume_change", VDec (-530) 2)]] []
  = Some [[("percent_volume_change", VDec (-530) 2);
           ("percent_volume_change_formatted", VStr "-530.00%")]] /\
  magnitude_below_one ((-530)%Z, 2) = false /\
  percent_by_magnitude ((-530)%Z, 2) = "-5.30%".
Proof. repeat split. Qed.

End PercentRule.

(** ** Insertion-ordered dictionaries *)
Section OrderedDict.

Context {V : Type}.

Lemma od_get_set_eq (k : string) (v : V) (d : list (string * V)) :
  od_get k (od_set k v d) = Some v.
Proof.
  induction d as [|[k' v'] d IH]; cbn [od_set od_get].
  - rewrite String.eqb_refl. reflexivity.
  - destruct (String.eqb k k') eqn:E; cbn [od_get]; rewrite ?String.eqb_refl, ?E; auto.
Qed.

Lemma od_get_set_ne (k k' : string) (v : V) (d : list (string * V)) :
  k <> k' -> od_get k (od_set k' v d) = od_get k d.
Proof.
  intros Hne. apply String.eqb_neq in Hne.
  induction d as [|[k2 v2] d IH]; cbn [od_set od_get].
  - rewrite Hne. reflexivity.
  - destruct (String.eqb k' k2) eqn:E; cbn [od_get].
    + apply String.eqb_eq in E. subst k2. rewrite Hne. reflexivity.
    + rewrite IH. reflexivity.
Qed.

Lemma od_get_In (k : string) (v : V) (d : list (string * V)) :
  od_get k d = Some v -> In (k, v) d.
Proof.
  induction d as [|[k' v'] d IH]; cbn [od_get]; [discriminate|].
  destruct (String.eqb_spec k k') as [->|Hne].
  - intros [= ->]. left. reflexivity.
  - intros H. right. apply IH. exact H.
Qed.

Lemma od_get_None (k : string) (d : list (string * V)) :
  ~ In k (List.map fst d) -> od_get k d = None.
Proof.
  induction d as [|[k' v'] d IH]; cbn; [reflexivity|]. intros H.
  destruct (String.eqb_spec k k') as [->|Hne]; [exfalso; apply H; left; reflexivity|].
  apply IH. intros Hin. apply H. right. exact Hin.
Qed.

Lemma In_od_get (k : string) (v : V) (d : list (string * V)) :
  List.NoDup (List.map fst d) -> In (k, v) d -> od_get k d = Some v.
Proof.
  induction d as [|[k' v'] d IH]; cbn; [contradiction|].
  intros Hnd [[= -> ->]|Hin].
  - rewrite String.eqb_refl. reflexivity.
  - apply List.NoDup_cons_iff in Hnd as [Hk Hnd].
    destruct (String.eqb_spec k k') as [->|Hne].
    + exfalso. apply Hk. apply (List.in_map fst) in Hin. exact Hin.
    + apply IH; assumption.
Qed.

Lemma od_set_keys (k : string) (v : V) (d : list (string * V)) :
  List.map fst (od_set k v d)
  = match od_get k d with
    | Some _ => List.map fst d
    | None => (List.map fst d ++ [k])%list
    end.
Proof.
  induction d as [|[k' v'] d IH]; cbn [od_set od_get List.map]; [reflexivity|].
  destruct (String.eqb_spec k k') as [->|Hne]; [reflexivity|].
  cbn [List.map fst]. rewrite IH. destruct (od_get k d); reflexivity.
Qed.

Lemma od_get_Some_key (k : string) (d : list (string * V)) :
  od_get k d = None -> ~ In k (List.map fst d).
Proof.
  induction d as [|[k' v'] d IH]; cbn; [tauto|].
  destruct (String.eqb_spec k k') as [->|Hne]; [discriminate|].
  intros H [Heq|Hin]; [congruence|]. exact (IH H Hin).
Qed.

Lemma od_set_NoDup (k : string) (v : V) (d : list (string * V)) :
  List.NoDup (List.map fst d) -> List.NoDup (List.map fst (od_set k v d)).
Proof.
  intros Hnd. rewrite od_set_keys. destruct (od_get k d) eqn:E; [exact Hnd|].
  apply od_get_Some_key in E.
  apply List.NoDup_app; [exact Hnd|repeat constructor; intros []|].
  intros x Hx [<-|[]]. exact (E Hx).
Qed.

End OrderedDict.

(** ** validate_data_quality: counting nulls *)
Section NullCounts.

Lemma is_null_cons (col k : string) (v : pyval) (r : GetKpiData.row) :
  is_null col ((k, v) :: r) = if String.eqb col k then is_none v else is_null col r.
Proof.
  unfold is_null. cbn [od_get]. destruct (String.eqb col k); [|reflexivity].
  destruct v; reflexivity.
Qed.

Lemma count_row_nulls_get (col : string) (r : GetKpiData.row) (nc : list (string * nat)) :
  List.NoDup (List.map fst r) ->
  od_get col (count_row_nulls nc r)
  = if is_null col r then Some (default 0 (od_get col nc) + 1) else od_get col nc.
Proof.
  revert nc. induction r as [|[k v] r IH]; intros nc Hnd; [reflexivity|].
  cbn [List.map fst] in Hnd. apply List.NoDup_cons_iff in Hnd as [Hk Hnd].
  unfold count_row_nulls. cbn [List.fold_left fst snd].
  change (List.fold_left _ r ?a) with (count_row_nulls a r).
  rewrite (IH _ Hnd), is_null_cons.
  destruct (String.eqb_spec col k) as [->|Hne].
  - assert (Hr : is_null k r = false).
    { unfold is_null. rewrite (od_get_None k r Hk). reflexivity. }
    rewrite Hr. destruct (is_none v); [apply od_get_set_eq|reflexivity].
  - destruct (is_none v); rewrite ?(od_get_set_ne col k) by exact Hne; reflexivity.
Qed.

Lemma count_row_nulls_NoDup (r : GetKpiData.row) (nc : list (string * nat)) :
  List.NoDup (List.map fst nc) -> List.NoDup (List.map fst (count_row_nulls nc r)).
Proof.
  revert nc. induction r as [|[k v] r IH]; intros nc Hnd; [exact Hnd|].
  unfold count_row_nulls. cbn [List.fold_left fst snd].
  change (List.fold_left _ r ?a) with (count_row_nulls a r).
  apply IH. destruct (is_none v); [apply od_set_NoDup|]; exact Hnd.
Qed.

Lemma count_nulls_from_get (col : string) (results : list GetKpiData.row)
    (nc : list (string * nat)) :
  (forall r, In r results -> List.NoDup (List.map fst r)) ->
  od_get col (List.fold_left count_row_nulls results nc)
  = match null_rows col results with
    | 0 => od_get col nc
    | S _ => Some (default 0 (od_get col nc) + null_rows col results)
    end.
Proof.
  revert nc. induction results as [|r results IH]; intros nc Hnd; [reflexivity|].
  cbn [List.fold_left]. rewrite IH by (intros x Hx; apply Hnd; right; exact Hx).
  rewrite (count_row_nulls_get col r nc) by (apply Hnd; left; reflexivity).
  unfold null_rows. cbn [List.filter].
  destruct (is_null col r); cbn [List.length default];
    destruct (List.length (List.filter (is_null col) results)); cbn [default];
    try reflexivity.
  unfold id. f_equal. lia.
Qed.

Lemma count_nulls_get (col : string) (results : list GetKpiData.row) :
  (forall r, In r results -> List.NoDup (List.map fst r)) ->
  od_get col (count_nulls results)
  = match null_rows col results with 0 => None | S _ => Some (null_rows col results) end.
Proof.
  intros Hnd. unfold count_nulls. rewrite (count_nulls_from_get col results [] Hnd).
  destruct (null_rows col results); reflexivity.
Qed.

Lemma count_nulls_NoDup (results : list GetKpiData.row) :
  List.NoDup (List.map fst (count_nulls results)).
Proof.
  unfold count_nulls.
  assert (H : forall nc, List.NoDup (List.map fst nc) ->
                List.NoDup (List.map fst (List.fold_left count_row_nulls results nc))).
  { induction results as [|r results IH]; intros nc Hnc; [exact Hnc|].
    cbn [List.fold_left]. apply IH, count_row_nulls_NoDup, Hnc. }
  apply H. constructor.
Qed.

Lemma count_nulls_In (col : string) (count : nat) (results : list GetKpiData.row) :
  (forall r, In r results -> List.NoDup (List.map fst r)) ->
  In (col, count) (count_nulls results) ->
  count = null_rows col results.
Proof.
  intros Hnd Hin. apply (In_od_get _ _ _ (count_nulls_NoDup results)) in Hin.
  rewrite (count_nulls_get col results Hnd) in Hin.
  destruct (null_rows col results); congruence.
Qed.

Lemma null_rows_In (col : string) (results : list GetKpiData.row) :
  (forall r, In r results -> List.NoDup (List.map fst r)) ->
  0 < null_rows col results ->
  In (col, null_rows col results) (count_nulls results).
Proof.
  intros Hnd Hpos. apply od_get_In. rewrite (count_nulls_get col results Hnd).
  destruct (null_rows col results); [lia|reflexivity].
Qed.

End NullCounts.

(** ** validate_data_quality: issues and warnings *)
Section DataQualityClaims.

Variable format_pct : nat -> nat -> string.
Variable mean_is_zero : list pyval -> option bool.
Variable count_outliers : list pyval -> option nat.

Let message (total : nat) (item : string * nat) : string :=
  null_message format_pct (fst item) (snd item) total.

Lemma null_step_fold (total : nat) (items : list (string * nat))
    (acc : list string * list string) :
  List.fold_left (null_step format_pct total) items acc =
  ((fst acc ++ List.map (message total) (List.filter (over_half total) items))%list,
   (snd acc ++ List.map (message total) (List.filter (over_tenth_only total) items))%list).
Proof.
  revert acc. induction items as [|[col count] items IH]; intros [i w].
  - cbn. rewrite !List.app_nil_r. reflexivity.
  - cbn [List.fold_left]. rewrite IH.
    assert (Hstep : null_step format_pct total (i, w) (col, count) =
              if over_half total (col, count)
              then ((i ++ [message total (col, count)])%list, w)
              else if over_tenth_only total (col, count)
                   then (i, (w ++ [message total (col, count)])%list)
                   else (i, w)).
    { unfold null_step, over_tenth_only, over_half. cbn [fst snd].
      destruct (50 * total <? 100 * count)%nat; reflexivity. }
    rewrite Hstep. cbn [List.filter].
    destruct (over_half total (col, count)) eqn:E1.
    + assert (E2 : over_tenth_only total (col, count) = false)
        by (unfold over_tenth_only; rewrite E1; reflexivity).
      rewrite E2. cbn [fst snd List.map]. rewrite <- List.app_assoc. reflexivity.
    + destruct (over_tenth_only total (col, count)) eqn:E2;
        cbn [fst snd List.map]; rewrite <- ?List.app_assoc; reflexivity.
Qed.

Lemma outlier_loop_keeps (results : list GetKpiData.row) (cols : list string)
    (warnings final : list string) :
  outlier_loop mean_is_zero count_outliers results cols warnings = Some final ->
  exists extra, final = (warnings ++ extra)%list /\ List.Forall (outlier_warning cols) extra.
Proof.
  revert warnings. induction cols as [|col cols IH]; intros warnings H.
  - cbn in H. injection H as <-. exists []. rewrite List.app_nil_r. auto.
  - cbn [outlier_loop] in H.
    destruct (outlier_step mean_is_zero count_outliers results warnings col)
      as [warnings'|] eqn:Hstep; [|discriminate H].
    cbn [mbind option_bind] in H. destruct (IH _ H) as (extra & -> & Hextra).
    assert (Hweak : List.Forall (outlier_warning (col :: cols)) extra).
    { eapply List.Forall_impl; [|exact Hextra].
      intros w (c & k & Hc & Hk & ->). exists c, k. split; [right; exact Hc|auto]. }
    unfold outlier_step in Hstep.
    destruct (column_values col results) as [|v vs].
    { injection Hstep as <-. exists extra. auto. }
    destruct (forallb is_number (v :: vs)); [|discriminate Hstep].
    destruct (mean_is_zero (v :: vs)) as [[|]|]; cbn [mbind option_bind] in Hstep;
      [injection Hstep as <-; exists extra; auto| |discriminate Hstep].
    destruct (count_outliers (v :: vs)) as [k|]; cbn [mbind option_bind] in Hstep;
      [|discriminate Hstep].
    destruct (Nat.ltb_spec 0 k) as [Hk|Hk]; injection Hstep as <-.
    + exists (outlier_message col k :: extra). rewrite <- List.app_assoc. split; [reflexivity|].
      constructor; [|exact Hweak]. exists col, k. split; [left; reflexivity|auto].
    + exists extra. auto.
Qed.

Lemma outlier_loop_returns (results : list GetKpiData.row) (cols : list string)
    (warnings : list string) :
  (forall col, In col cols -> analysable mean_is_zero count_outliers results col) ->
  is_Some (outlier_loop mean_is_zero count_outliers results cols warnings).
Proof.
  revert warnings. induction cols as [|col cols IH]; intros warnings H; [eexists; reflexivity|].
  cbn [outlier_loop].
  assert (Hstep : is_Some (outlier_step mean_is_zero count_outliers results warnings col)).
  { unfold outlier_step. destruct (H col (or_introl eq_refl)) as [->|(Hn & [z Hz] & [k Hk])];
      [eexists; reflexivity|].
    destruct (column_values col results) as [|v vs]; [eexists; reflexivity|].
    rewrite Hn, Hz, Hk. cbn [mbind option_bind].
    destruct z; [eexists; reflexivity|]. destruct (0 <? k)%nat; eexists; reflexivity. }
  destruct Hstep as [w ->]. cbn [mbind option_bind]. apply IH.
  intros c Hc. apply H. right. exact Hc.
Qed.

Lemma validate_data_quality_nonempty (results : list GetKpiData.row) (q : quality) :
  results <> [] ->
  validate_data_quality format_pct mean_is_zero count_outliers results = Some q ->
  exists extra,
    List.Forall (outlier_warning numeric_columns) extra /\
    q =
    let total := List.length results in
    let high := List.map (message total)
                  (List.filter (over_half total) (count_nulls results)) in
    let mid := List.map (message total)
                 (List.filter (over_tenth_only total) (count_nulls results)) in
    {| valid := (List.length high =? 0)%nat;
       issues := high;
       warnings := (mid ++ extra)%list;
       GetKpiData.row_count := total |}.
Proof.
  intros Hne H. destruct results as [|r results]; [contradiction|].
  unfold validate_data_quality in H. rewrite null_step_fold in H.
  cbn [fst snd List.app] in H.
  destruct (outlier_loop mean_is_zero count_outliers (r :: results) numeric_columns _)
    as [final|] eqn:Hloop; [|discriminate H].
  cbn [mbind option_bind] in H. injection H as <-.
  destruct (outlier_loop_keeps _ _ _ _ Hloop) as (extra & -> & Hextra).
  exists extra. split; [exact Hextra|reflexivity].
Qed.

Lemma validate_data_quality_returns (results : list GetKpiData.row) :
  (forall col, In col numeric_columns ->
     analysable mean_is_zero count_outliers results col) ->
  is_Some (validate_data_quality format_pct mean_is_zero count_outliers results).
Proof.
  intros H. destruct results as [|r results]; [eexists; reflexivity|].
  unfold validate_data_quality.
  destruct (outlier_loop_returns (r :: results) numeric_columns
              (snd (List.fold_left (null_step format_pct (List.length (r :: results)))
                      (count_nulls (r :: results)) ([], []))) H) as [w ->].
  eexists. reflexivity.
Qed.

Lemma column_values_In (col : string) (v : pyval) (r : GetKpiData.row)
    (results : list GetKpiData.row) :
  In r results -> od_get col r = Some v -> is_none v = false ->
  In v (column_values col results).
Proof.
  intros Hr Hget Hv. unfold column_values. apply List.in_flat_map.
  exists r. split; [exact Hr|]. rewrite Hget, Hv. left. reflexivity.
Qed.

Lemma outlier_loop_raises (results : list GetKpiData.row) (cols : list string)
    (col : string) (warnings : list string) :
  In col cols ->
  (forall w, outlier_step mean_is_zero count_outliers results w col = None) ->
  outlier_loop mean_is_zero count_outliers results cols warnings = None.
Proof.
  intros Hin Hraise. revert warnings.
  induction cols as [|c cols IH]; intros warnings; [destruct Hin|].
  cbn [outlier_loop].
  destruct (outlier_step mean_is_zero count_outliers results warnings c) as [w|] eqn:E;
    [|reflexivity].
  cbn [mbind option_bind]. destruct Hin as [->|Hin]; [|exact (IH Hin w)].
  rewrite Hraise in E. discriminate E.
Qed.

(** A string or a date in a numeric column makes the validation raise. *)
Lemma validate_data_quality_raises (results : list GetKpiData.row) (r : GetKpiData.row)
    (col : string) (v : pyval) :
  In r results -> In col numeric_columns -> od_get col r = Some v ->
  (exists s, v = VStr s) \/ (exists t, v = VDatetime t) ->
  validate_data_quality format_pct mean_is_zero count_outliers results = None.
Proof.
  intros Hr Hcol Hget Hv.
  assert (Hnn : is_none v = false /\ is_number v = false)
    by (destruct Hv as [[s ->]|[t ->]]; split; reflexivity).
  destruct Hnn as [Hnone Hnum].
  pose proof (column_values_In col v r results Hr Hget Hnone) as Hin.
  assert (Hstep : forall w, outlier_step mean_is_zero count_outliers results w col = None).
  { intros w. unfold outlier_step.
    destruct (column_values col results) as [|x xs] eqn:E; [destruct Hin|].
    assert (Hf : forallb is_number (x :: xs) = false).
    { apply not_true_is_false. intros Hall.
      rewrite List.forallb_forall in Hall. rewrite (Hall v Hin) in Hnum. discriminate. }
    rewrite Hf. reflexivity. }
  destruct results as [|r0 rest]; [destruct Hr|].
  unfold validate_data_quality.
  rewrite (outlier_loop_raises (r0 :: rest) numeric_columns col _ Hcol Hstep).
  reflexivity.
Qed.

Lemma NoDup_map_filter {A B} (f : A -> B) (p : A -> bool) (l : list A) :
  List.NoDup (List.map f l) -> List.NoDup (List.map f (List.filter p l)).
Proof.
  induction l as [|x l IH]; intros H; [constructor|].
  cbn [List.map] in H. apply List.NoDup_cons_iff in H as [Hx Hl].
  cbn [List.filter]. destruct (p x); [|exact (IH Hl)].
  cbn [List.map]. constructor; [|exact (IH Hl)].
  intros Hin. apply Hx. apply List.in_map_iff in Hin as (y & Hy & Hin).
  apply List.filter_In in Hin as [Hin _]. rewrite <- Hy. apply List.in_map. exact Hin.
Qed.

(** The columns of the null counts that pass a test on their count. *)
Lemma counted_columns (results : list GetKpiData.row) (test : string * nat -> bool)
    (col : string) :
  (forall r, In r results -> List.NoDup (List.map fst r)) ->
  In col (List.map fst (List.filter test (count_nulls results))) <->
  0 < null_rows col results /\ test (col, null_rows col results) = true.
Proof.
  intros Hnd. rewrite List.in_map_iff. split.
  - intros ([c k] & <- & Hin). apply List.filter_In in Hin as [Hin Ht].
    pose proof (count_nulls_In c k results Hnd Hin) as ->. cbn [fst].
    split; [|exact Ht].
    pose proof (In_od_get _ _ _ (count_nulls_NoDup results) Hin) as Hget.
    rewrite (count_nulls_get c results Hnd) in Hget.
    destruct (null_rows c results); [discriminate Hget|lia].
  - intros [Hpos Ht]. exists (col, null_rows col results). split; [reflexivity|].
    apply List.filter_In. split; [apply null_rows_In; assumption|exact Ht].
Qed.

Lemma counted_messages (results : list GetKpiData.row) (test : string * nat -> bool) :
  (forall r, In r results -> List.NoDup (List.map fst r)) ->
  List.map (message (List.length results)) (List.filter test (count_nulls results))
  = List.map (fun col => null_message format_pct col (null_rows col results)
                           (List.length results))
      (List.map fst (List.filter test (count_nulls results))).
Proof.
  intros Hnd. rewrite List.map_map. apply List.map_ext_in. intros [c k] Hin.
  apply List.filter_In in Hin as [Hin _].
  rewrite (count_nulls_In c k results Hnd Hin). reflexivity.
Qed.

(** C8 (as amended).  A result set is marked invalid exactly when an issue
    is recorded.  In a non-empty result set the issues are the null messages
    of the columns null in more than 50% of the rows, each once; the
    warnings are the null messages of the columns null in more than 10% and
    at most 50% of the rows, each once, followed by outlier messages for
    numeric columns; a column null in 10% of the rows or fewer gets no null
    message; and the set is valid exactly when no column is null in more
    than 50% of the rows.  An empty result set is invalid, with the no-data
    issue and a row count of 0.  The validation returns whenever the numeric
    columns hold numbers on which the outlier arithmetic does not raise, and
    raises when one of them holds a string or a date. *)
Theorem data_quality_thresholds (results : list GetKpiData.row) :
  (forall r, In r results -> List.NoDup (List.map fst r)) ->
  let validation := validate_data_quality format_pct mean_is_zero count_outliers in
  let n := List.length results in
  let numeric := [ "cy_revenue"; "cy_volume"; "cy_oos_percent"; "store_count" ] in
  let null_note col :=
    "Column '" ++ col ++ "' has " ++ format_pct (null_rows col results) n
    ++ "% null values" in
  validation [] =
    Some {| valid := false;
            issues := ["No data returned for the specified date range and KPI IDs"];
            warnings := []; GetKpiData.row_count := 0 |} /\
  ((forall col, In col numeric -> analysable mean_is_zero count_outliers results col) ->
   is_Some (validation results)) /\
  (forall r col v,
     In r results -> In col numeric -> od_get col r = Some v ->
     (exists s, v = VStr s) \/ (exists t, v = VDatetime t) ->
     validation results = None) /\
  (forall q, validation results = Some q ->
     (valid q = true <-> issues q = []) /\
     (results <> [] ->
        GetKpiData.row_count q = n /\
        (valid q = true <-> forall col, 100 * null_rows col results <= 50 * n) /\
        exists high mid outliers,
          issues q = List.map null_note high /\
          warnings q = (List.map null_note mid ++ outliers)%list /\
          List.NoDup high /\ List.NoDup mid /\
          (forall col, In col high <-> 50 * n < 100 * null_rows col results) /\
          (forall col, In col mid <->
                       10 * n < 100 * null_rows col results <= 50 * n) /\
          List.Forall (outlier_warning numeric) outliers)).
Proof.
  intros Hnd validation n numeric null_note. subst validation.
  change numeric with numeric_columns.
  change null_note
    with (fun col => null_message format_pct col (null_rows col results) n) in *.
  split; [reflexivity|]. split; [apply validate_data_quality_returns|].
  split; [intros r col v; apply validate_data_quality_raises|].
  intros q Hq.
  assert (Hcases : results = [] \/ results <> [])
    by (destruct results; [left; reflexivity|right; discriminate]).
  destruct Hcases as [Hnil|Hne].
  { subst results. cbn in Hq. injection Hq as <-. split; [cbn; split; discriminate|].
    intros Hne. contradiction. }
  destruct (validate_data_quality_nonempty results q Hne Hq) as (extra & Hextra & ->).
  cbn zeta. cbn [valid issues warnings GetKpiData.row_count].
  fold n.
  assert (Hhigh : forall col, In col (List.map fst (List.filter (over_half n)
                                                     (count_nulls results)))
                              <-> 50 * n < 100 * null_rows col results).
  { intros col. unfold n. rewrite (counted_columns results _ col Hnd).
    unfold over_half. cbn [snd]. rewrite Nat.ltb_lt. lia. }
  assert (Hmid : forall col, In col (List.map fst (List.filter (over_tenth_only n)
                                                    (count_nulls results)))
                             <-> 10 * n < 100 * null_rows col results <= 50 * n).
  { intros col. unfold n. rewrite (counted_columns results _ col Hnd).
    unfold over_tenth_only, over_half. cbn [snd].
    rewrite andb_true_iff, negb_true_iff, Nat.ltb_lt, Nat.ltb_ge. lia. }
  assert (Hvalid : (List.length (List.map (message n)
                      (List.filter (over_half n) (count_nulls results))) =? 0)%nat = true
                   <-> forall col, 100 * null_rows col results <= 50 * n).
  { rewrite Nat.eqb_eq, List.length_map. split.
    - intros Hlen col.
      destruct (Nat.le_gt_cases (100 * null_rows col results) (50 * n)) as [H|H]; [exact H|].
      apply Hhigh in H. apply List.length_zero_iff_nil in Hlen. rewrite Hlen in H.
      destruct H.
    - intros Hall.
      destruct (List.filter (over_half n) (count_nulls results)) as [|[c k] l] eqn:E;
        [reflexivity|].
      exfalso. specialize (Hall c).
      assert (Hin : 50 * n < 100 * null_rows c results)
        by (apply Hhigh; left; reflexivity).
      lia. }
  split; [rewrite Nat.eqb_eq; apply List.length_zero_iff_nil|].
  intros _. split; [reflexivity|]. split; [exact Hvalid|].
  exists (List.map fst (List.filter (over_half n) (count_nulls results))),
         (List.map fst (List.filter (over_tenth_only n) (count_nulls results))), extra.
  unfold n. rewrite <- !(counted_messages results _ Hnd). fold n.
  split; [reflexivity|]. split; [reflexivity|].
  split; [apply NoDup_map_filter, count_nulls_NoDup|].
  split; [apply NoDup_map_filter, count_nulls_NoDup|].
  split; [exact Hhigh|]. split; [exact Hmid|exact Hextra].
Qed.

End DataQualityClaims.

Lemma data_quality_thresholds_witness :
  exists q60 q30,
    validate_data_quality whole_percent (fun _ => Some false) (fun _ => Some 0)
      (null_sample 100 60) = Some q60 /\
    validate_data_quality whole_percent (fun _ => Some false) (fun _ => Some 0)
      (null_sample 100 30) = Some q30 /\
    (valid q60 = true <-> forall col, 100 * null_rows col (null_sample 100 60) <= 50 * 100) /\
    In "Column 'py_volume' has 60.0% null values" (issues q60) /\
    In "Column 'py_volume' has 30.0% null values" (warnings q30).
Proof.
  assert (Hnd : forall total nulls r,
            In r (null_sample total nulls) -> List.NoDup (List.map fst r)).
  { intros total nulls r Hr. unfold null_sample in Hr.
    apply List.in_app_or in Hr as [Hr|Hr]; apply List.repeat_spec in Hr; subst r;
      repeat constructor; intros []. }
  assert (Han : forall total nulls col, In col numeric_columns ->
            analysable (fun _ => Some false) (fun _ => Some 0) (null_sample total nulls) col).
  { intros total nulls col Hcol. left. unfold null_sample.
    cbn in Hcol. unfold column_values. rewrite List.flat_map_app.
    assert (Hrep : forall k v, List.flat_map
              (fun r => match od_get col r with
                        | Some v0 => if is_none v0 then [] else [v0]
                        | None => []
                        end) (repeat [("py_volume", v)] k) = []).
    { intros k v. induction k as [|k IH]; [reflexivity|]. cbn [repeat List.flat_map].
      rewrite IH.
      destruct Hcol as [<-|[<-|[<-|[<-|[]]]]]; reflexivity. }
    rewrite !Hrep. reflexivity. }
  destruct (data_quality_thresholds whole_percent (fun _ => Some false) (fun _ => Some 0)
              (null_sample 100 60) (Hnd 100 60)) as (_ & Hret60 & _ & H60).
  destruct (data_quality_thresholds whole_percent (fun _ => Some false) (fun _ => Some 0)
              (null_sample 100 30) (Hnd 100 30)) as (_ & Hret30 & _ & H30).
  destruct (Hret60 (Han 100 60)) as [q60 Hq60].
  destruct (Hret30 (Han 100 30)) as [q30 Hq30].
  exists q60, q30. split; [exact Hq60|]. split; [exact Hq30|].
  destruct (H60 q60 Hq60) as (_ & H60').
  destruct (H60' ltac:(discriminate))
    as (_ & Hvalid & high & mid & outliers & Hissues & _ & _ & _ & Hhigh & _).
  destruct (H30 q30 Hq30) as (_ & H30').
  destruct (H30' ltac:(discriminate))
    as (_ & _ & high' & mid' & outliers' & _ & Hwarnings & _ & _ & _ & Hmid & _).
  split; [exact Hvalid|]. split.
  - rewrite Hissues.
    change "Column 'py_volume' has 60.0% null values"
      with ((fun col => null_message whole_percent col
                          (null_rows col (null_sample 100 60))
                          (List.length (null_sample 100 60))) "py_volume").
    apply List.in_map, Hhigh. vm_compute. lia.
  - rewrite Hwarnings. apply List.in_or_app. left.
    change "Column 'py_volume' has 30.0% null values"
      with ((fun col => null_message whole_percent col
                          (null_rows col (null_sample 100 30))
                          (List.length (null_sample 100 30))) "py_volume").
    apply List.in_map, Hmid. vm_compute. lia.
Defined.

(** C8, as stated, fails at the lower end of the range: a column null in
    exactly 10% of the rows (10 rows out of 100) is not recorded at all. *)
Lemma ten_percent_null_counterexample :
  List.length (null_sample 100 10) = 100 /\
  null_rows "py_volume" (null_sample 100 10) = 10 /\
  validate_data_quality whole_percent (fun _ => Some false) (fun _ => Some 0)
    (null_sample 100 10)
  = Some {| valid := true; issues := []; warnings := []; GetKpiData.row_count := 100 |}.
Proof. vm_compute. repeat split. Qed.

(** * Further properties *)

Import KpiCatalog SqlHandler Notions.

(** ** validate_sql_security: what an accepted query looks like *)
Section ValidatorGuarantees.

Lemma upper_char_facts (c : ascii) :
  upper_char (upper_char c) = upper_char c /\
  upper_char (lower_char c) = upper_char c /\
  lower_char (upper_char c) = lower_char c /\
  is_space (upper_char c) = is_space c /\
  is_space (lower_char c) = is_space c /\
  Ascii.eqb (upper_char c) ";" = Ascii.eqb c ";" /\
  Ascii.eqb (lower_char c) ";" = Ascii.eqb c ";".
Proof. destruct c as [[] [] [] [] [] [] [] []]; repeat split. Qed.

Lemma upper_upper (s : string) : upper (upper s) = upper s.
Proof.
  induction s as [|c s IH]; [reflexivity|]. cbn [upper].
  rewrite IH. f_equal. apply upper_char_facts.
Qed.

Lemma upper_lower (s : string) : upper (lower s) = upper s.
Proof.
  induction s as [|c s IH]; [reflexivity|]. cbn [upper lower].
  rewrite IH. f_equal. apply upper_char_facts.
Qed.

Lemma lower_upper (s : string) : lower (upper s) = lower s.
Proof.
  induction s as [|c s IH]; [reflexivity|]. cbn [upper lower].
  rewrite IH. f_equal. apply upper_char_facts.
Qed.

Lemma count_from_upper (ink : bool) (s : string) :
  count_from ink (upper s) = count_from ink s.
Proof.
  revert ink. induction s as [|c s IH]; intros ink; [reflexivity|].
  cbn [upper count_from].
  destruct (upper_char_facts c) as (_ & _ & _ & -> & _ & -> & _).
  destruct (Ascii.eqb c ";"); rewrite IH; reflexivity.
Qed.

Lemma count_from_lower (ink : bool) (s : string) :
  count_from ink (lower s) = count_from ink s.
Proof.
  revert ink. induction s as [|c s IH]; intros ink; [reflexivity|].
  cbn [lower count_from].
  destruct (upper_char_facts c) as (_ & _ & _ & _ & -> & _ & ->).
  destruct (Ascii.eqb c ";"); rewrite IH; reflexivity.
Qed.

Lemma length_nonblank_fragments (q : string) :
  List.length (nonblank_fragments q) = count_from false q.
Proof.
  unfold nonblank_fragments, fragments, split, blank.
  rewrite (List.filter_ext (fun f => negb (negb (truthy (strip f))))
             (fun f => truthy (strip f)))
    by (intros f; apply negb_involutive).
  apply count_split_go.
Qed.

Lemma validate_same (q q' : string) :
  upper q' = upper q ->
  count_from false q' = count_from false q ->
  validate_sql_security q' = validate_sql_security q.
Proof.
  intros Hu Hc. unfold validate_sql_security. rewrite Hu.
  rewrite !length_non_empty_statements, !length_nonblank_fragments, Hc. reflexivity.
Qed.

(** X1.  An ASCII query the validator accepts holds none of the fourteen
    forbidden verbs as a standalone word, holds at most one fragment between
    semicolons that is not blank, and begins with SELECT once trimmed and
    uppercased. *)
Theorem accepted_query_is_guarded (q : string) :
  ascii_only q = true ->
  validate_sql_security q !! "valid" = Some (VBool true) ->
  (forall verb,
     In verb [ "INSERT"; "UPDATE"; "DELETE"; "DROP"; "ALTER"; "CREATE"; "TRUNCATE";
               "EXEC"; "EXECUTE"; "MERGE"; "GRANT"; "REVOKE"; "COMMIT"; "ROLLBACK" ] ->
     ~ standalone verb q) /\
  List.length (nonblank_fragments q) <= 1 /\
  exists rest, strip (upper q) = "SELECT" ++ rest.
Proof.
  intros _ Hvalid.
  destruct (first_forbidden (upper q)) as [v|] eqn:E.
  { rewrite (validate_forbidden q v E), invalid_lookup_valid in Hvalid. discriminate. }
  destruct (Nat.le_gt_cases (List.length (non_empty_statements q)) 1) as [Hn|Hn].
  2:{ rewrite (validate_multiple q E Hn), invalid_lookup_valid in Hvalid. discriminate. }
  destruct (startswith (strip (upper q)) "SELECT") eqn:Hs.
  2:{ rewrite (validate_not_select q E Hn Hs), invalid_lookup_valid in Hvalid. discriminate. }
  split; [exact (proj1 (first_forbidden_none q) E)|].
  split; [rewrite <- length_non_empty_statements; exact Hn|].
  apply startswith_app. exact Hs.
Qed.

Lemma accepted_query_is_guarded_witness :
  List.length (nonblank_fragments " select name from t ; ") <= 1 /\
  exists rest, strip (upper " select name from t ; ") = "SELECT" ++ rest.
Proof.
  exact (proj2 (accepted_query_is_guarded " select name from t ; " eq_refl eq_refl)).
Defined.

(** X2.  The verdict of the validator does not depend on letter case: the
    uppercased and the lowercased query get the result of the query. *)
Theorem validation_ignores_letter_case (q : string) :
  ascii_only q = true ->
  validate_sql_security (upper q) = validate_sql_security q /\
  validate_sql_security (lower q) = validate_sql_security q.
Proof.
  intros _. split; apply validate_same.
  - apply upper_upper.
  - apply count_from_upper.
  - apply upper_lower.
  - apply count_from_lower.
Qed.

Lemma validation_ignores_letter_case_witness :
  validate_sql_security "SELECT A FROM T; DROP TABLE T"
    = validate_sql_security "Select a From t; Drop Table t" /\
  validate_sql_security "select a from t; drop table t"
    = validate_sql_security "Select a From t; Drop Table t".
Proof.
  exact (validation_ignores_letter_case "Select a From t; Drop Table t" eq_refl).
Defined.

End ValidatorGuarantees.

(** ** execute_query on every script *)
Section ExecuteQueryAlways.

Local Ltac each_script sc :=
  destruct sc as [|[|?|?] [|[|?|?] [|[|?|?] [|[|?|?] ?]]]].

Lemma execute_query_calls (query org_id : string) (timeout : Z) (w : world) :
  let w' := snd (execute_query query org_id timeout w) in
  let k := steps (script w) in
  calls w' = (calls w ++ firstn k (plan query timeout)
              ++ (if (k =? 1)%nat then [] else closing_calls))%list /\
  script w' = skipn k (script w).
Proof.
  destruct w as [sc cs el]. cbn [script calls].
  each_script sc; cbn; rewrite <- ?List.app_assoc; cbn; rewrite ?List.app_nil_r;
    split; reflexivity.
Qed.

(** X3.  Whatever the driver answers, the result of [execute_query] is
    coherent: [row_count] is the number of rows in [data], [error] is
    [None] exactly when [success] is true, and a failure carries no row. *)
Theorem execute_query_result_invariants (query org_id : string) (timeout : Z)
    (w : world) :
  let r := fst (execute_query query org_id timeout w) in
  SqlExecutor.row_count r = List.length (data r) /\
  (success r = true <-> error r = None) /\
  (success r = false -> data r = []).
Proof.
  destruct w as [sc cs el].
  assert (H : forall e, let r := handle_exception timeout e in
            SqlExecutor.row_count r = List.length (data r) /\
            (success r = true <-> error r = None) /\ (success r = false -> data r = [])).
  { intros [[|a args] text|text|text]; cbn; try destruct (is_code_3024 a); cbn;
      repeat split; try discriminate; reflexivity. }
  each_script sc; cbn; try apply H; repeat split; try discriminate; reflexivity.
Qed.

(** X4.  Whatever the driver answers, [execute_query] calls it along the
    plan (connect, set the time limit, execute the query, fetch), stops at
    the first call that raises, and then closes the cursor and the
    connection exactly when the connection was obtained.  In particular the
    query is submitted at most once, and never when setting the time limit
    failed. *)
Theorem execute_query_call_discipline (query org_id : string) (timeout : Z)
    (w : world) :
  let w' := snd (execute_query query org_id timeout w) in
  let k := steps (script w) in
  1 <= k <= 4 /\
  calls w' = (calls w ++ firstn k (plan query timeout)
              ++ (if (k =? 1)%nat then [] else closing_calls))%list /\
  script w' = skipn k (script w) /\
  (k = 1 <-> exists e rest, script w = Raise e :: rest) /\
  (k < 3 -> ~ In (Execute query) (firstn k (plan query timeout))
            \/ query = set_timeout_statement timeout).
Proof.
  intros w' k. subst w' k.
  destruct (execute_query_calls query org_id timeout w) as [Hc Hs].
  split; [|split; [exact Hc|split; [exact Hs|split]]].
  - destruct w as [sc cs el]. cbn [script]. each_script sc; cbn; lia.
  - destruct w as [sc cs el]. cbn [script].
    each_script sc; cbn; split; try (intros H; discriminate H);
      try (intros (e' & rest & H); discriminate H); eauto.
  - intros Hk. destruct (string_dec query (set_timeout_statement timeout)) as [->|Hne];
      [right; reflexivity|left].
    intros H. destruct (steps (script w)) as [|[|[|k]]]; [| | |lia]; cbn in H.
    + exact H.
    + destruct H as [H|[]]. discriminate H.
    + destruct H as [H|[H|[]]]; [discriminate H|]. injection H as H. congruence.
Qed.

(** X5.  When none of the four driver calls raises, [execute_query]
    succeeds: [data] holds the rows fetched (no row when the driver fetched
    nothing), [execution_time_ms] is the measured duration, [error] is
    [None], and the four calls are followed by the two closing calls. *)
Theorem execute_query_success (query org_id : string) (timeout : Z) (w : world) :
  (forall j e, j < 4 -> nth_error (script w) j <> Some (Raise e)) ->
  let rows := match nth_error (script w) 3 with Some (Rows rs) => rs | _ => [] end in
  execute_query query org_id timeout w =
  ({| success := true; data := rows; SqlExecutor.row_count := List.length rows;
      execution_time_ms := elapsed_ms w; error := None |},
   {| script := skipn 4 (script w);
      calls := (calls w ++ plan query timeout ++ closing_calls)%list;
      elapsed_ms := elapsed_ms w |}).
Proof.
  intros Hno. destruct w as [sc cs el]. cbn [script calls elapsed_ms] in *.
  unfold closing_calls.
  each_script sc; cbn;
    try (exfalso; first [ exact (Hno 0 _ ltac:(lia) eq_refl)
                        | exact (Hno 1 _ ltac:(lia) eq_refl)
                        | exact (Hno 2 _ ltac:(lia) eq_refl)
                        | exact (Hno 3 _ ltac:(lia) eq_refl) ]);
    unfold close; cbn; rewrite <- ?List.app_assoc; cbn [app]; reflexivity.
Qed.

Lemma execute_query_success_witness :
  fst (execute_query "SELECT 1" "org_123" 30
         (World [Done; Done; Done; Rows [[("1", VInt 1)]]] [] 12))
  = {| success := true; data := [[("1", VInt 1)]]; SqlExecutor.row_count := 1;
       execution_time_ms := 12; error := None |}.
Proof.
  refine (f_equal fst (execute_query_success "SELECT 1" "org_123" 30
            (World [Done; Done; Done; Rows [[("1", VInt 1)]]] [] 12) _)).
  intros [|[|[|[|j]]]] e Hj; try discriminate. lia.
Defined.

End ExecuteQueryAlways.

(** ** The handler of the SQL executor *)
Section SqlHandlerFacts.

Lemma validate_sql_security_cases (q : string) :
  validate_sql_security q = {["valid" := VBool true]} \/
  exists msg, validate_sql_security q = invalid msg.
Proof.
  destruct (first_forbidden (upper q)) as [v|] eqn:E.
  { right. eexists. apply validate_forbidden. exact E. }
  destruct (Nat.le_gt_cases (List.length (non_empty_statements q)) 1) as [Hn|Hn].
  2:{ right. eexists. apply validate_multiple; assumption. }
  destruct (startswith (strip (upper q)) "SELECT") eqn:Hs.
  - left. apply validate_accept; assumption.
  - right. eexists. apply validate_not_select; assumption.
Qed.

Lemma truthy_false (s : string) : truthy s = false -> s = "".
Proof. destruct s; [reflexivity|discriminate]. Qed.

Lemma in_firstn {A} (x : A) (k : nat) (l : list A) : In x (firstn k l) -> In x l.
Proof.
  revert l. induction k as [|k IH]; intros [|y l]; cbn; try tauto.
  intros [H|H]; [left; exact H|right; apply IH; exact H].
Qed.

(** The five outcomes of the handler. *)
Lemma sql_handler_cases (parameters : gmap string pyval) (b : bool) (w : world) :
  let query := stripped (first_of (parameters !! "sql_query") (parameters !! "query")) in
  let org_id := stripped (parameters !! "org_id") in
  let timeout := int_of (default (VInt QUERY_TIMEOUT) (parameters !! "timeout")) in
  ((query = None \/ org_id = None \/ timeout = None) /\
   SqlHandler.lambda_handler parameters b w = (Response 500 InternalErrorBody b, w)) \/
  (exists q o t, query = Some q /\ org_id = Some o /\ timeout = Some t /\
     ((q = "" /\
       SqlHandler.lambda_handler parameters b w
       = (Response 400 (ErrorBody "Query parameter is required") b, w)) \/
      (q <> "" /\ o = "" /\
       SqlHandler.lambda_handler parameters b w
       = (Response 400 (ErrorBody "org_id parameter is required for data isolation") b, w)) \/
      (q <> "" /\ o <> "" /\ exists msg,
         validate_sql_security q = invalid msg /\
         SqlHandler.lambda_handler parameters b w = (Response 403 (ErrorBody msg) b, w)) \/
      (q <> "" /\ o <> "" /\
       validate_sql_security q = {["valid" := VBool true]} /\
       SqlHandler.lambda_handler parameters b w
       = (Response (if success (fst (execute_query q o t w)) then 200 else 500)
            (ResultBody (fst (execute_query q o t w))) b,
          snd (execute_query q o t w))))).
Proof.
  intros query org_id timeout. subst query org_id timeout.
  unfold SqlHandler.lambda_handler.
  destruct (stripped (first_of _ _)) as [q|]; [|left; auto].
  destruct (stripped (parameters !! "org_id")) as [o|]; [|left; auto].
  destruct (int_of _) as [t|]; [|left; auto].
  right. exists q, o, t. repeat (split; [reflexivity|]).
  destruct (truthy q) eqn:Hq; cbn [negb].
  2:{ left. split; [apply truthy_false; exact Hq|reflexivity]. }
  assert (Hq' : q <> "") by (intros ->; discriminate Hq).
  destruct (truthy o) eqn:Ho; cbn [negb].
  2:{ right. left. split; [exact Hq'|]. split; [apply truthy_false; exact Ho|reflexivity]. }
  assert (Ho' : o <> "") by (intros ->; discriminate Ho).
  right. right.
  destruct (validate_sql_security_cases q) as [Hv|[msg Hv]]; rewrite Hv.
  - right. rewrite lookup_singleton_eq.
    destruct (execute_query q o t w) as [r w'] eqn:E. cbn [fst snd]. auto.
  - left. rewrite invalid_lookup_valid, invalid_lookup_error. eauto.
Qed.

(** X6.  The handler of the SQL executor reaches the database only with a
    query the validator accepts: unless the response carries the result of
    an execution the driver is not called at all, an execution is that of
    the trimmed query parameter, which is valid, with a non-empty org id,
    and every statement handed to the driver is either the time-limit
    statement or a statement the validator accepts. *)
Theorem handler_guards_database (parameters : gmap string pyval) (b : bool) (w : world) :
  let resp := fst (SqlHandler.lambda_handler parameters b w) in
  let w' := snd (SqlHandler.lambda_handler parameters b w) in
  ((forall r, responseBody resp <> ResultBody r) -> w' = w) /\
  (forall r, responseBody resp = ResultBody r ->
     exists q o t,
       stripped (first_of (parameters !! "sql_query") (parameters !! "query")) = Some q /\
       stripped (parameters !! "org_id") = Some o /\
       q <> "" /\ o <> "" /\
       validate_sql_security q !! "valid" = Some (VBool true) /\
       execute_query q o t w = (r, w')) /\
  (forall stmt, In (Execute stmt) (calls w') ->
     In (Execute stmt) (calls w) \/
     (exists t, stmt = set_timeout_statement t) \/
     validate_sql_security stmt !! "valid" = Some (VBool true)).
Proof.
  intros resp w'. subst resp w'.
  destruct (sql_handler_cases parameters b w)
    as [[_ ->]|(q & o & t & Eq & Eo & Et &
                [[_ ->]|[(_ & _ & ->)|[(_ & _ & msg & _ & ->)|(Hq & Ho & Hv & ->)]]])];
    cbn [fst snd responseBody];
    try (split; [reflexivity|split; [intros r H; discriminate H|intros stmt H; left; exact H]]).
  split; [intros H; exfalso; exact (H _ eq_refl)|]. split.
  - intros r [= <-]. exists q, o, t. rewrite Hv, lookup_singleton_eq.
    repeat (split; [assumption || reflexivity|]). apply surjective_pairing.
  - intros stmt Hin.
    destruct (execute_query_calls q o t w) as [Hc _]. cbn zeta in Hc. rewrite Hc in Hin.
    apply List.in_app_or in Hin as [Hin|Hin]; [left; exact Hin|right].
    apply List.in_app_or in Hin as [Hin|Hin].
    + apply in_firstn in Hin. cbn in Hin.
      destruct Hin as [H|[H|[H|[H|[]]]]]; try discriminate H.
      * injection H as <-. left. eauto.
      * injection H as <-. right. rewrite Hv. apply lookup_singleton_eq.
    + destruct (_ =? _)%nat; [destruct Hin|].
      cbn in Hin. destruct Hin as [H|[H|[]]]; discriminate H.
Qed.



End SqlHandlerFacts.

(** ** The KPI catalogue *)
Section Catalogue.

Lemma lower_lower (s : string) : lower (lower s) = lower s.
Proof.
  induction s as [|c s IH]; [reflexivity|]. cbn [lower]. rewrite IH. f_equal.
  destruct c as [[] [] [] [] [] [] [] []]; reflexivity.
Qed.

(** X8.  The column a KPI name is mapped to does not depend on the letter
    case of the name. *)
Theorem kpi_name_mapping_ignores_case (kpi_name : string) :
  ascii_only kpi_name = true ->
  map_kpi_name_to_column (upper kpi_name) = map_kpi_name_to_column kpi_name /\
  map_kpi_name_to_column (lower kpi_name) = map_kpi_name_to_column kpi_name.
Proof.
  intros _. unfold map_kpi_name_to_column. rewrite lower_upper, lower_lower. auto.
Qed.

Lemma kpi_name_mapping_ignores_case_witness :
  map_kpi_name_to_column "TOTAL SSS REVENUE" = map_kpi_name_to_column "Total SSS Revenue" /\
  map_kpi_name_to_column "total sss revenue" = map_kpi_name_to_column "Total SSS Revenue".
Proof. exact (kpi_name_mapping_ignores_case "Total SSS Revenue" eq_refl). Defined.

(** X9.  The rules of the name mapping are tried in order: a name that
    mentions revenue is mapped to a revenue column whatever else it
    mentions, a name that mentions 7lb is never mapped to [cy_volume], and
    a mapped column is always one of the six KPI columns. *)
Theorem kpi_name_mapping_priorities (kpi_name : string) :
  (contains "revenue" (lower kpi_name) = true ->
   map_kpi_name_to_column kpi_name = Some "cy_sss_revenue" \/
   map_kpi_name_to_column kpi_name = Some "cy_revenue") /\
  (contains "7lb" (lower kpi_name) = true ->
   map_kpi_name_to_column kpi_name <> Some "cy_volume") /\
  (forall column, map_kpi_name_to_column kpi_name = Some column ->
     In column kpi_columns).
Proof.
  unfold map_kpi_name_to_column.
  destruct (contains "sss revenue" (lower kpi_name));
    [repeat split; intros; cbn; try discriminate; intuition congruence|].
  destruct (contains "revenue" (lower kpi_name));
    [repeat split; intros; cbn; try discriminate; intuition congruence|].
  destruct (contains "sss volume" (lower kpi_name));
    [repeat split; intros; cbn; try discriminate; intuition congruence|].
  destruct (contains "7lb" (lower kpi_name)), (contains "volume" (lower kpi_name));
    cbn [andb negb];
    try (repeat split; intros; cbn; try discriminate; intuition congruence);
    (destruct (contains "store count" (lower kpi_name));
     [repeat split; intros; cbn; try discriminate; intuition congruence|]);
    (destruct (_ || _ || _)%bool;
     repeat split; intros; cbn; try discriminate; intuition congruence).
Qed.

Lemma mapping_step_info_of (m : gmap Z info) (kpi : kpi_record) :
  mapping_step m kpi =
  match info_of kpi with
  | Some i => <[meta_kpi_id kpi := i]> m
  | None => m
  end.
Proof.
  unfold mapping_step, info_of.
  destruct (map_kpi_name_to_column (meta_kpi_name kpi)); reflexivity.
Qed.

Lemma mapping_fold_sound (metadata : list kpi_record) (m : gmap Z info) (id : Z) (i : info) :
  List.fold_left mapping_step metadata m !! id = Some i ->
  m !! id = Some i \/
  exists kpi, In kpi metadata /\ meta_kpi_id kpi = id /\ info_of kpi = Some i.
Proof.
  revert m. induction metadata as [|kpi metadata IH]; intros m H; [left; exact H|].
  cbn [List.fold_left] in H. apply IH in H as [H|(k & Hin & Hid & Hi)].
  - rewrite mapping_step_info_of in H. destruct (info_of kpi) as [i'|] eqn:E; [|left; exact H].
    destruct (decide (meta_kpi_id kpi = id)) as [Heq|Hne].
    + subst id. rewrite lookup_insert_eq in H. injection H as <-.
      right. exists kpi. split; [left; reflexivity|auto].
    + rewrite lookup_insert_ne in H by exact Hne. left. exact H.
  - right. exists k. split; [right; exact Hin|auto].
Qed.




Lemma get_cached_from (loads : list (option (list kpi_record))) (m : gmap Z info) :
  cached_calls loads (Some m) = repeat m (List.length loads).
Proof. induction loads as [|l loads IH]; [reflexivity|]. cbn. rewrite IH. reflexivity. Qed.

(** X11.  The mapping is computed on the first call only: every later
    call of [get_cached_kpi_mapping] returns the mapping of the first load,
    whatever the metadata file holds by then (an empty mapping from a failed
    first load included). *)
Theorem cached_mapping_is_first_load (first : option (list kpi_record))
    (later : list (option (list kpi_record))) :
  cached_calls (first :: later) None
  = repeat (get_kpi_mapping first) (S (List.length later)).
Proof. cbn. rewrite get_cached_from. reflexivity. Qed.

End Catalogue.

(** ** build_kpi_query: the projection *)
Section Projection.

Lemma unique_in_order_spec (seen : gset string) (l : list string) :
  List.NoDup (unique_in_order seen l) /\
  forall x, In x (unique_in_order seen l) <-> In x l /\ x ∉ seen.
Proof.
  revert seen. induction l as [|y l IH]; intros seen.
  - split; [constructor|]. cbn. tauto.
  - cbn [unique_in_order]. destruct (decide (y ∈ seen)) as [Hy|Hy].
    + destruct (IH seen) as [Hnd Hin]. split; [exact Hnd|].
      intros x. rewrite Hin. cbn. split; [tauto|].
      intros [[->|H] Hx]; [contradiction|tauto].
    + destruct (IH ({[y]} ∪ seen)) as [Hnd Hin]. split.
      * constructor; [|exact Hnd]. rewrite Hin. intros [_ H]. apply H.
        apply elem_of_union_l, elem_of_singleton. reflexivity.
      * intros x. cbn. rewrite Hin. rewrite elem_of_union, elem_of_singleton. split.
        -- intros [<-|[H1 H2]]; [tauto|]. split; [tauto|]. intros H. apply H2. right. exact H.
        -- intros [[<-|H] Hx]; [left; reflexivity|].
           destruct (decide (x = y)) as [->|Hne]; [left; reflexivity|].
           right. split; [exact H|]. intros [Hxy|Hs]; [congruence|contradiction].
Qed.

Lemma unique_in_order_app (seen : gset string) (a b : list string) :
  unique_in_order seen (a ++ b)
  = (unique_in_order seen a ++ unique_in_order (list_to_set a ∪ seen) b)%list.
Proof.
  revert seen. induction a as [|x a IH]; intros seen.
  - cbn. rewrite union_empty_l_L. reflexivity.
  - cbn [app unique_in_order list_to_set foldr]. destruct (decide (x ∈ seen)) as [Hx|Hx].
    + rewrite IH. f_equal. f_equal. apply set_eq. intros z.
      rewrite !elem_of_union, elem_of_singleton. split; [tauto|].
      intros [[->|H]|H]; tauto.
    + cbn [app]. rewrite IH. f_equal. f_equal. f_equal. apply set_eq. intros z.
      rewrite !elem_of_union, elem_of_singleton. tauto.
Qed.

Lemma sorted_In (s : gset string) (x : string) : In x (sorted s) <-> x ∈ s.
Proof.
  unfold sorted. rewrite <- list_elem_of_In.
  rewrite (merge_sort_Permutation String.le (elements s)). apply elem_of_elements.
Qed.

(** The list of columns before duplicates are removed. *)
Lemma select_columns_candidates (columns : gset string) :
  exists context,
    select_columns columns = unique_in_order ∅ (fixed_columns ++ sorted columns ++ context) /\
    forall x, In x context -> In x context_columns.
Proof.
  exists ((if decide ("cy_revenue" ∈ columns ∨ "cy_sss_revenue" ∈ columns)
           then ["py_revenue"; "revenue_variance"; "revenue_variance_percent"] else [])
          ++ (if decide ("cy_volume" ∈ columns ∨ "cy_sss_volume" ∈ columns)
              then ["py_volume"; "volume_variance"; "percent_volume_change"] else [])
          ++ (if decide ("cy_oos_percent" ∈ columns) then ["py_oos_percent"] else []))%list.
  unfold select_columns.
  destruct (decide ("cy_revenue" ∈ columns ∨ "cy_sss_revenue" ∈ columns));
    destruct (decide ("cy_volume" ∈ columns ∨ "cy_sss_volume" ∈ columns));
    destruct (decide ("cy_oos_percent" ∈ columns));
    (split; [cbn [app]; rewrite ?List.app_nil_r, <- ?List.app_assoc; reflexivity|]);
    cbn; intros x Hx; intuition subst; tauto.
Qed.

Lemma select_columns_In (columns : gset string) (x : string) :
  In x (select_columns columns) ->
  In x fixed_columns \/ x ∈ columns \/ In x context_columns.
Proof.
  destruct (select_columns_candidates columns) as (context & -> & Hctx).
  intros H. apply (unique_in_order_spec ∅) in H as [H _].
  apply List.in_app_or in H as [H|H]; [left; exact H|].
  apply List.in_app_or in H as [H|H]; [right; left; apply sorted_In; exact H|].
  right. right. apply Hctx. exact H.
Qed.

Lemma mapped_column_known (kpi_name column : string) :
  map_kpi_name_to_column kpi_name = Some column -> In column kpi_columns.
Proof.
  unfold map_kpi_name_to_column.
  repeat match goal with
         | |- context [if ?b then _ else _] => destruct b
         end; intros [= <-]; cbn; tauto.
Qed.

(** X12.  The projection of the built query holds no column twice, begins
    with the five fixed columns in their order, and holds the column of
    every entry of [kpi_info]. *)
Theorem projection_shape (kpi_mapping : gmap Z info) (kpi_ids : list Z) :
  let r := resolve kpi_mapping kpi_ids in
  let cols := select_columns (columns_to_select r) in
  List.NoDup cols /\
  (exists rest, cols = (fixed_columns ++ rest)%list) /\
  (forall e, In e (kpi_info r) -> In (kpi_column e) cols).
Proof.
  intros r cols. subst r cols.
  destruct (select_columns_candidates (columns_to_select (resolve kpi_mapping kpi_ids)))
    as (context & Hsel & _).
  rewrite Hsel. split; [apply unique_in_order_spec|]. split.
  - rewrite unique_in_order_app. eexists. f_equal.
  - intros e He. apply unique_in_order_spec. split; [|apply not_elem_of_empty].
    apply List.in_or_app. right. apply List.in_or_app. left. apply sorted_In.
    rewrite resolve_columns. rewrite resolve_kpi_info in He.
    apply list_elem_of_In, list_elem_of_omap in He as (id & Hid & He).
    unfold entry_of in He. destruct (kpi_mapping !! id) as [i|] eqn:E; [|discriminate].
    cbn in He. injection He as <-. cbn.
    apply elem_of_list_to_set, list_elem_of_omap. exists id. rewrite E.
    split; [exact Hid|reflexivity].
Qed.

End Projection.

Section Whitelist.

(** X13.  With the mapping built from a metadata file, whatever the names
    and page names in the file, every column of the projection is one of
    the five fixed columns, the six KPI columns or the seven context
    columns: no text of the file reaches the SELECT list. *)
Theorem projected_columns_whitelisted (loaded : option (list kpi_record))
    (kpi_ids : list Z) (c : string) :
  In c (select_columns (columns_to_select (resolve (get_kpi_mapping loaded) kpi_ids))) ->
  In c (fixed_columns ++ kpi_columns ++ context_columns)%list.
Proof.
  intros H. apply select_columns_In in H as [H|[H|H]].
  - apply List.in_or_app. left. exact H.
  - apply List.in_or_app. right. apply List.in_or_app. left.
    rewrite resolve_columns in H.
    apply elem_of_list_to_set, list_elem_of_omap in H as (id & _ & H).
    destruct (get_kpi_mapping loaded !! id) as [i|] eqn:E; [|discriminate].
    cbn in H. injection H as <-.
    destruct loaded as [metadata|]; cbn [get_kpi_mapping] in E;
      [|rewrite lookup_empty in E; discriminate].
    apply mapping_fold_sound in E as [E|(kpi & _ & _ & Hi)];
      [rewrite lookup_empty in E; discriminate|].
    unfold info_of in Hi.
    destruct (map_kpi_name_to_column (meta_kpi_name kpi)) as [col|] eqn:Hc; [|discriminate].
    cbn in Hi. injection Hi as <-. cbn. exact (mapped_column_known _ _ Hc).
  - apply List.in_or_app. right. apply List.in_or_app. right. exact H.
Qed.

Lemma projected_columns_whitelisted_witness :
  In "cy_revenue"
    (fixed_columns ++ kpi_columns ++ context_columns)%list.
Proof.
  refine (projected_columns_whitelisted
            (Some [KpiRecord 7 "Total Revenue; DROP" (Some "Draft Customer A") None])
            [7]%Z "cy_revenue" _).
  vm_compute. tauto.
Defined.

End Whitelist.

(** ** Dates: idempotence and the request format *)
Section DateFacts.

Lemma length_app_str (a b : string) :
  String.length (a ++ b) = String.length a + String.length b.
Proof. induction a as [|c a IH]; [reflexivity|]. rewrite app_cons. cbn. rewrite IH. reflexivity. Qed.

(** X14.  Normalising a date twice changes nothing more: the normalised
    start date is left as it is by [normalize_date_format], and the end
    date computed by [get_last_day_of_month] is returned unchanged by both
    functions.  A date whose length is not 7 passes through both. *)
Theorem date_normalization_idempotent (date_str : string) :
  normalize_date_format (normalize_date_format date_str) = normalize_date_format date_str /\
  (forall last, get_last_day_of_month date_str = Some last ->
     get_last_day_of_month last = Some last /\ normalize_date_format last = last) /\
  (String.length date_str <> 7 ->
   normalize_date_format date_str = date_str /\
   get_last_day_of_month date_str = Some date_str).
Proof.
  unfold normalize_date_format, get_last_day_of_month.
  destruct (String.length date_str =? 7)%nat eqn:E.
  - apply Nat.eqb_eq in E. split; [|split].
    + rewrite length_app_str, E. reflexivity.
    + intros last H.
      destruct (List.map py_int (split "-" date_str)) as [|[y|] [|[m|] [|? ?]]];
        try discriminate H.
      destruct (monthrange_days y m) as [d|]; [|discriminate H].
      cbn in H. injection H as <-.
      assert (Hlen : (String.length (date_str ++ "-" ++ format_02d d) =? 7)%nat = false).
      { apply Nat.eqb_neq. rewrite !length_app_str, E. cbn. lia. }
      rewrite Hlen. auto.
    + intros H. contradiction.
  - rewrite E. split; [reflexivity|]. split; [|auto].
    intros last [= <-]. rewrite E. auto.
Qed.

(** X15.  A date range made of two parts without whitespace joined by
    " to " is parsed into these two parts, and a text without whitespace
    (so without the separator) is refused. *)
Theorem parse_date_range_round_trip (a b : string) :
  spaceless a = true -> spaceless b = true ->
  parse_date_range (a ++ " to " ++ b) = Some (a, b) /\
  parse_date_range a = None.
Proof.
  intros Ha Hb. unfold parse_date_range, split. split.
  - rewrite (split_to_at_separator "" a b Ha Hb), !rev_rev_app.
    rewrite !strip_spaceless by assumption. reflexivity.
  - rewrite (split_to_spaceless "" a Ha). reflexivity.
Qed.

Lemma parse_date_range_round_trip_witness :
  parse_date_range ("2023-11" ++ " to " ++ "2024-02") = Some ("2023-11", "2024-02") /\
  parse_date_range "2023-11" = None.
Proof. exact (parse_date_range_round_trip "2023-11" "2024-02" eq_refl eq_refl). Defined.

End DateFacts.

(** ** format_kpi_results: rows and plain items *)
Section FormatterFacts.

Variable format_currency : pyval -> option string.
Variable format_grouped : pyval -> option string.
Variable strftime : string -> Z -> string.
Variable py_str : pyval -> string.

Lemma od_set_fresh {V} (k : string) (v : V) (d : list (string * V)) :
  ~ In k (List.map fst d) -> od_set k v d = (d ++ [(k, v)])%list.
Proof.
  induction d as [|[k' v'] d IH]; cbn; [reflexivity|]. intros H.
  destruct (String.eqb_spec k k') as [->|Hne]; [exfalso; apply H; left; reflexivity|].
  rewrite IH; [reflexivity|]. intros Hin. apply H. right. exact Hin.
Qed.

Lemma format_item_plain (formatted_row : GetKpiData.row) (item : string * pyval) :
  plain_item item = true ->
  format_item format_currency format_grouped strftime py_str formatted_row item
  = Some (od_set (fst item) (snd item) formatted_row).
Proof.
  destruct item as [key value]. unfold plain_item, plain_column, format_item. cbn [fst snd].
  destruct (is_none value) eqn:Hn.
  { intros _. destruct value; try discriminate Hn. reflexivity. }
  cbn [orb]. rewrite negb_true_iff. intros H.
  repeat (apply orb_false_iff in H as [H ?]).
  repeat match goal with E : _ = false |- _ => rewrite E; clear E end.
  reflexivity.
Qed.

Lemma format_items_plain (formatted_row items : GetKpiData.row) :
  forallb plain_item items = true ->
  List.NoDup (List.map fst (formatted_row ++ items)) ->
  format_items format_currency format_grouped strftime py_str formatted_row items
  = Some (formatted_row ++ items)%list.
Proof.
  revert formatted_row. induction items as [|item items IH]; intros acc Hp Hnd.
  - cbn. rewrite List.app_nil_r. reflexivity.
  - cbn [forallb] in Hp. apply andb_true_iff in Hp as [Hi Hp].
    cbn [format_items]. rewrite (format_item_plain acc item Hi). cbn [mbind option_bind].
    assert (Hfresh : ~ In (fst item) (List.map fst acc)).
    { rewrite List.map_app in Hnd. cbn [List.map] in Hnd.
      apply List.NoDup_remove_2 in Hnd. intros H. apply Hnd.
      apply List.in_or_app. left. exact H. }
    rewrite (od_set_fresh _ _ _ Hfresh). destruct item as [k v]. cbn [fst snd].
    rewrite IH; [rewrite <- List.app_assoc; reflexivity|exact Hp|].
    rewrite <- List.app_assoc. exact Hnd.
Qed.

Lemma format_kpi_results_length (results formatted : list GetKpiData.row)
    (kpi_info : list kpi_entry) :
  format_kpi_results format_currency format_grouped strftime py_str results kpi_info
    = Some formatted ->
  List.length formatted = List.length results.
Proof.
  revert formatted. induction results as [|r results IH]; intros formatted H.
  - injection H as <-. reflexivity.
  - cbn [format_kpi_results] in H.
    destruct (format_items _ _ _ _ [] r) as [fr|]; [|discriminate H].
    destruct (format_kpi_results _ _ _ _ results kpi_info) as [rest|]; [|discriminate H].
    cbn in H. injection H as <-. cbn. f_equal. apply IH. reflexivity.
Qed.

(** X16.  [format_kpi_results] returns one row per input row, and a row
    whose items are nulls or belong to columns no formatting rule applies
    to comes back unchanged: same keys, same values, same order, and no
    formatted twin. *)
Theorem format_keeps_rows (results : list GetKpiData.row) (kpi_info : list kpi_entry) :
  (forall formatted,
     format_kpi_results format_currency format_grouped strftime py_str results kpi_info
       = Some formatted ->
     List.length formatted = List.length results) /\
  ((forall r, In r results ->
      List.NoDup (List.map fst r) /\ forallb plain_item r = true) ->
   format_kpi_results format_currency format_grouped strftime py_str results kpi_info
     = Some results).
Proof.
  split.
  - intros formatted H. exact (format_kpi_results_length _ _ _ H).
  - induction results as [|r results IH]; intros H; [reflexivity|].
    cbn [format_kpi_results].
    destruct (H r (or_introl eq_refl)) as [Hnd Hp].
    rewrite (format_items_plain [] r Hp Hnd). cbn [mbind option_bind app].
    rewrite IH by (intros x Hx; apply H; right; exact Hx). reflexivity.
Qed.

End FormatterFacts.

(** ** validate_data_quality: what the verdict depends on *)
Section VerdictFacts.

Lemma count_row_nulls_none (nc : list (string * nat)) (r : GetKpiData.row) :
  (forall item, In item r -> is_none (snd item) = false) ->
  count_row_nulls nc r = nc.
Proof.
  revert nc. induction r as [|item r IH]; intros nc H; [reflexivity|].
  unfold count_row_nulls. cbn [List.fold_left].
  rewrite (H item (or_introl eq_refl)).
  apply IH. intros x Hx. apply H. right. exact Hx.
Qed.

Lemma count_nulls_none (results : list GetKpiData.row) :
  (forall r item, In r results -> In item r -> is_none (snd item) = false) ->
  count_nulls results = [].
Proof.
  unfold count_nulls. generalize (@nil (string * nat)).
  induction results as [|r results IH]; intros nc H; [reflexivity|].
  cbn [List.fold_left].
  rewrite count_row_nulls_none by (intros item Hi; exact (H r item (or_introl eq_refl) Hi)).
  apply IH. intros r' item Hr. apply H. right. exact Hr.
Qed.

(** X17.  When [validate_data_quality] returns, its verdict depends on the
    nulls only: two runs that differ in the outlier arithmetic and both
    return agree on [valid], [issues] and [row_count], which is the number
    of rows, and a non-empty result set without any null is valid, with no
    issue.  It returns whenever the numeric columns hold numbers on which
    the arithmetic returns, and it raises, whatever the arithmetic, as soon
    as one of the four numeric columns holds a text or a date. *)
Theorem verdict_depends_on_nulls_only (format_pct : nat -> nat -> string)
    (mean_is_zero mean_is_zero' : list pyval -> option bool)
    (count_outliers count_outliers' : list pyval -> option nat)
    (results : list GetKpiData.row) :
  (forall q q',
     validate_data_quality format_pct mean_is_zero count_outliers results = Some q ->
     validate_data_quality format_pct mean_is_zero' count_outliers' results = Some q' ->
     valid q = valid q' /\ issues q = issues q' /\
     GetKpiData.row_count q = List.length results /\
     (results <> [] ->
      (forall r item, In r results -> In item r -> snd item <> VNone) ->
      valid q = true /\ issues q = [])) /\
  ((forall col, In col numeric_columns ->
      analysable mean_is_zero count_outliers results col) ->
   is_Some (validate_data_quality format_pct mean_is_zero count_outliers results)) /\
  (forall r col v,
     In r results -> In col numeric_columns -> od_get col r = Some v ->
     (exists s, v = VStr s) \/ (exists t, v = VDatetime t) ->
     validate_data_quality format_pct mean_is_zero count_outliers results = None).
Proof.
  split; [|split].
  - intros q q' Hq Hq'.
    destruct results as [|r results].
    { cbn in Hq, Hq'. injection Hq as <-. injection Hq' as <-.
      split; [reflexivity|]. split; [reflexivity|]. split; [reflexivity|].
      intros H. contradiction. }
    destruct (validate_data_quality_nonempty format_pct mean_is_zero count_outliers
                (r :: results) q ltac:(discriminate) Hq) as (extra & _ & ->).
    destruct (validate_data_quality_nonempty format_pct mean_is_zero' count_outliers'
                (r :: results) q' ltac:(discriminate) Hq') as (extra' & _ & ->).
    cbn zeta. cbn [valid issues GetKpiData.row_count].
    split; [reflexivity|]. split; [reflexivity|]. split; [reflexivity|].
    intros _ Hnone.
    rewrite count_nulls_none; [split; reflexivity|].
    intros r' item Hr Hi. specialize (Hnone r' item Hr Hi).
    destruct (snd item); try reflexivity. contradiction.
  - apply validate_data_quality_returns.
  - intros r col v. apply validate_data_quality_raises.
Qed.

End VerdictFacts.

(** ** The handler of get_kpi_data *)
Section KpiHandlerFacts.

Variable format_currency : pyval -> option string.
Variable format_grouped : pyval -> option string.
Variable strftime : string -> Z -> string.
Variable py_str : pyval -> string.
Variable format_pct : nat -> nat -> string.
Variable mean_is_zero : list pyval -> option bool.
Variable count_outliers : list pyval -> option nat.
Variable connect : bool.
Variable run_query : string -> option (list GetKpiData.row).

Let handle := handle_parameters format_currency format_grouped strftime py_str
                format_pct mean_is_zero count_outliers connect run_query.

(** X18.  The handler of get_kpi_data hands at most one statement to the
    database, and none when the connection fails, when the ids cannot be
    read (status 500), when no id is given (status 400) or when the date
    range is malformed.  A response with status 200 comes from ids that
    were read, a date range that was parsed and a query that was built and
    executed; it holds one formatted row per row returned, [count] is
    their number, and the data-quality report is the one of the raw rows. *)
Theorem kpi_handler_discipline (kpi_mapping : gmap Z info) (kpi_ids_str : ids_param)
    (date_range frequency org_id : string) :
  let out := handle kpi_mapping kpi_ids_str date_range frequency org_id in
  List.length (snd out) <= 1 /\
  (connect = false -> snd out = []) /\
  (parse_kpi_ids kpi_ids_str = None -> out = (Status500, [])) /\
  (parse_kpi_ids kpi_ids_str = Some [] -> out = (Status400, [])) /\
  (parse_date_range date_range = None -> snd out = []) /\
  (forall kpi_data count kpi_info data_quality,
     fst out = Status200 kpi_data count kpi_info data_quality ->
     exists kpi_ids start_date end_date query raw,
       parse_kpi_ids kpi_ids_str = Some kpi_ids /\ kpi_ids <> [] /\
       parse_date_range date_range = Some (start_date, end_date) /\
       build_kpi_query kpi_mapping kpi_ids start_date end_date frequency org_id
         = Some (query, kpi_info) /\
       snd out = [query] /\ run_query query = Some raw /\
       count = List.length raw /\ List.length kpi_data = List.length raw /\
       validate_data_quality format_pct mean_is_zero count_outliers raw
         = Some data_quality).
Proof.
  intros out. subst out handle. unfold handle_parameters, GetKpiData.lambda_handler.
  destruct (parse_kpi_ids kpi_ids_str) as [[|id ids]|] eqn:Hids;
    try (repeat split; cbn; intros; try discriminate; try congruence; lia).
  destruct (parse_date_range date_range) as [[start_date end_date]|] eqn:Hdate;
    try (repeat split; cbn; intros; try discriminate; try congruence; lia).
  destruct (build_kpi_query _ _ _ _ _ _) as [[query info]|] eqn:Hbuild;
    try (repeat split; cbn; intros; try discriminate; try congruence; lia).
  destruct connect eqn:Hconnect;
    try (repeat split; cbn; intros; try discriminate; try congruence; lia).
  destruct (run_query query) as [raw|] eqn:Hrun;
    try (repeat split; cbn; intros; try discriminate; try congruence; lia).
  destruct (validate_data_quality _ _ _ raw) as [validation|] eqn:Hval;
    try (repeat split; cbn; intros; try discriminate; try congruence; lia).
  destruct (format_kpi_results _ _ _ _ raw info) as [formatted|] eqn:Hfmt;
    try (repeat split; cbn; intros; try discriminate; try congruence; lia).
  pose proof (format_kpi_results_length _ _ _ _ _ _ _ Hfmt) as Hlen.
  split; [cbn; lia|]. split; [discriminate|]. split; [discriminate|].
  split; [discriminate|]. split; [discriminate|].
  intros kpi_data count kpi_info dq H. cbn in H. injection H as <- <- <- <-.
  exists (id :: ids), start_date, end_date, query, raw.
  repeat split; try assumption; try reflexivity; discriminate.
Qed.

(** X20.  Neither the query built by [build_kpi_query] nor the statement
    the handler hands to the database depends on the frequency or on the
    org id: both parameters are accepted and left unused. *)
Theorem kpi_query_ignores_frequency_and_org (kpi_mapping : gmap Z info)
    (kpi_ids : list Z) (kpi_ids_str : ids_param)
    (start_date end_date date_range frequency org_id frequency' org_id' : string) :
  build_kpi_query kpi_mapping kpi_ids start_date end_date frequency org_id
  = build_kpi_query kpi_mapping kpi_ids start_date end_date frequency' org_id' /\
  snd (handle kpi_mapping kpi_ids_str date_range frequency org_id)
  = snd (handle kpi_mapping kpi_ids_str date_range frequency' org_id').
Proof.
  split; [reflexivity|].
  subst handle. unfold handle_parameters, GetKpiData.lambda_handler.
  destruct (parse_kpi_ids kpi_ids_str) as [[|id ids]|]; reflexivity.
Qed.

End KpiHandlerFacts.

(** ** Reading the parameter kpi_ids *)
Section KpiIds.

Lemma pretty_N_char_digit (d : N) :
  (d < 10)%N ->
  is_digit (pretty_N_char d) = true /\ digit_value (pretty_N_char d) = Z.of_N d.
Proof.
  intros H.
  assert (d = 0 \/ d = 1 \/ d = 2 \/ d = 3 \/ d = 4 \/ d = 5 \/ d = 6 \/ d = 7
          \/ d = 8 \/ d = 9)%N as Hd by lia.
  destruct Hd as [->|[->|[->|[->|[->|[->|[->|[->|[->| ->]]]]]]]]]; split; reflexivity.
Qed.

Lemma all_chars_app (P : ascii -> bool) (a b : string) :
  all_chars P (a ++ b) = all_chars P a && all_chars P b.
Proof.
  induction a as [|c a IH]; [reflexivity|]. rewrite app_cons. cbn [all_chars].
  rewrite IH. apply andb_assoc.
Qed.

Lemma all_chars_impl (P Q : ascii -> bool) (s : string) :
  (forall c, P c = true -> Q c = true) -> all_chars P s = true -> all_chars Q s = true.
Proof.
  intros HPQ. induction s as [|c s IH]; [reflexivity|]. cbn [all_chars].
  rewrite !andb_true_iff. intros [Hc Hs]. auto.
Qed.

Lemma int_digits_cons (c : ascii) (s : string) (acc : Z) (pending : bool) :
  is_digit c = true ->
  int_digits acc pending (String c s) = int_digits (10 * acc + digit_value c) false s.
Proof. intros H. cbn [int_digits]. rewrite H. reflexivity. Qed.

Lemma int_digits_app (ds : string) :
  all_chars is_digit ds = true -> ds <> "" ->
  forall acc pending t,
    int_digits acc pending (ds ++ t)
    = int_digits (acc * 10 ^ Z.of_nat (String.length ds)
                  + default 0%Z (int_digits 0 true ds)) false t.
Proof.
  induction ds as [|c ds IH]; intros Hd Hne acc pending t; [contradiction|].
  cbn [all_chars] in Hd. apply andb_true_iff in Hd as [Hc Hd].
  rewrite app_cons, !(int_digits_cons c) by exact Hc.
  destruct ds as [|c' ds'].
  - rewrite app_empty_l. cbn [int_digits String.length default].
    change (Z.of_nat 1) with 1%Z. rewrite Z.pow_1_r. f_equal. unfold id. lia.
  - rewrite (IH Hd ltac:(discriminate) (10 * acc + digit_value c)%Z false t).
    pose proof (IH Hd ltac:(discriminate) (10 * 0 + digit_value c)%Z false "") as E.
    rewrite app_empty_r in E. rewrite E. clear E.
    set (n := String.length (String c' ds')).
    set (v := default 0%Z (int_digits 0 true (String c' ds'))).
    change (String.length (String c (String c' ds'))) with (S n).
    cbn [int_digits default]. f_equal.
    rewrite Nat2Z.inj_succ, Z.pow_succ_r by lia. unfold id. lia.
Qed.

Lemma pretty_N_go_digits (x : N) :
  (0 < x)%N ->
  forall s, exists ds,
    pretty_N_go x s = ds ++ s /\ ds <> "" /\ all_chars is_digit ds = true /\
    int_digits 0 true ds = Some (Z.of_N x).
Proof.
  induction (N.lt_wf_0 x) as [x _ IH]. intros Hx s.
  rewrite pretty_N_go_step by exact Hx.
  assert (Hm : (x mod 10 < 10)%N) by (apply N.mod_lt; discriminate).
  destruct (pretty_N_char_digit _ Hm) as [Hc Hv].
  destruct (N.eq_dec (x / 10)%N 0%N) as [H0|H0].
  - rewrite H0, pretty_N_go_0. exists (String (pretty_N_char (x mod 10)) "").
    split; [reflexivity|]. split; [discriminate|]. split; [cbn; rewrite Hc; reflexivity|].
    rewrite int_digits_cons by exact Hc. cbn [int_digits]. rewrite Hv. f_equal.
    pose proof (N.div_mod' x 10) as E. rewrite H0 in E.
    change (10 * 0 + x `mod` 10)%N with (x `mod` 10)%N in E.
    rewrite <- E. reflexivity.
  - destruct (IH (x / 10)%N (N.div_lt x 10 Hx eq_refl) (proj1 (N.neq_0_lt_0 _) H0)
                (String (pretty_N_char (x mod 10)) s)) as (ds & Hp & Hne & Hd & Hi).
    exists (ds ++ String (pretty_N_char (x mod 10)) "").
    split; [rewrite Hp, app_assoc_str; reflexivity|].
    split; [destruct ds; [contradiction|discriminate]|].
    split; [rewrite all_chars_app, Hd; cbn; rewrite Hc; reflexivity|].
    rewrite (int_digits_app ds Hd Hne). rewrite Hi. cbn [default].
    rewrite int_digits_cons by exact Hc. cbn [int_digits]. rewrite Hv. f_equal.
    pose proof (N.div_mod' x 10) as E. unfold id.
    rewrite E at 3. rewrite N2Z.inj_add, N2Z.inj_mul. reflexivity.
Qed.

(** The numeral of an integer: digits behind an optional minus sign, read
    back by [int]. *)
Lemma pretty_Z_numeral (z : Z) :
  exists ds, ds <> "" /\ all_chars is_digit ds = true /\
    int_digits 0 true ds = Some (Z.abs z) /\
    pretty z = if (z <? 0)%Z then String "-" ds else ds.
Proof.
  destruct z as [|p|p].
  - exists "0". repeat split. discriminate.
  - destruct (pretty_N_go_digits (Npos p) ltac:(lia) "") as (ds & Hp & Hne & Hd & Hi).
    exists ds. rewrite app_empty_r in Hp. repeat split; try assumption.
  - destruct (pretty_N_go_digits (Npos p) ltac:(lia) "") as (ds & Hp & Hne & Hd & Hi).
    exists ds. rewrite app_empty_r in Hp. repeat split; try assumption.
    rewrite <- Hp. reflexivity.
Qed.

Lemma all_chars_spaceless (P : ascii -> bool) (s : string) :
  (forall c, P c = true -> is_space c = false) ->
  all_chars P s = true -> spaceless s = true.
Proof.
  intros HP. induction s as [|c s IH]; [reflexivity|]. cbn [all_chars spaceless].
  rewrite !andb_true_iff, negb_true_iff. intros [Hc Hs]. auto.
Qed.

Lemma numeral_char_facts (c : ascii) :
  numeral_char c = true -> is_space c = false /\ Ascii.eqb "," c = false.
Proof. destruct c as [[] [] [] [] [] [] [] []]; cbv; intros H; try discriminate H; auto. Qed.

Lemma digit_is_numeral (c : ascii) : is_digit c = true -> numeral_char c = true.
Proof. unfold numeral_char. intros ->. reflexivity. Qed.

Lemma pretty_Z_numeral_chars (z : Z) :
  pretty z <> "" /\ all_chars numeral_char (pretty z) = true.
Proof.
  destruct (pretty_Z_numeral z) as (ds & Hne & Hd & _ & ->).
  apply (all_chars_impl _ _ _ digit_is_numeral) in Hd.
  destruct (z <? 0)%Z; [|auto]. split; [discriminate|]. cbn [all_chars]. rewrite Hd. reflexivity.
Qed.

Lemma skip_all_digits (s : string) :
  all_chars is_digit s = true -> skip_leading s = s /\ skip_trailing s = s.
Proof.
  intros H. split.
  - destruct s as [|c s]; [reflexivity|]. cbn [all_chars] in H.
    apply andb_true_iff in H as [Hc _]. cbn [skip_leading].
    destruct (is_digit_facts c Hc) as (-> & _). reflexivity.
  - induction s as [|c s IH]; [reflexivity|]. cbn [all_chars] in H.
    apply andb_true_iff in H as [Hc Hs]. cbn [skip_trailing].
    destruct (is_digit_facts c Hc) as (-> & _). rewrite (IH Hs). reflexivity.
Qed.

Lemma py_int_pretty (z : Z) : py_int (pretty z) = Some z.
Proof.
  destruct (pretty_Z_numeral z) as (ds & Hne & Hd & Hi & ->).
  destruct (skip_all_digits ds Hd) as [Hl Ht]. unfold py_int.
  destruct (Z.ltb_spec z 0) as [Hz|Hz].
  - cbn [skip_leading]. change (is_c_space "-") with false. cbn iota.
    cbn [skip_trailing]. change (is_c_space "-") with false. cbn [andb].
    rewrite Ht. rewrite Ascii.eqb_refl, Hi. cbn. f_equal. lia.
  - rewrite Hl, Ht. destruct ds as [|c d]; [contradiction|].
    cbn [all_chars] in Hd. apply andb_true_iff in Hd as [Hc _].
    destruct (is_digit_facts c Hc) as (_ & _ & -> & ->). rewrite Hi. f_equal. lia.
Qed.

Lemma comma_split_free (cur s : string) :
  all_chars numeral_char s = true ->
  split_go "," 0 cur s = [String.rev (String.rev_app s cur)].
Proof.
  revert cur. induction s as [|c s IH]; intros cur H; [reflexivity|].
  cbn [all_chars] in H. apply andb_true_iff in H as [Hc Hs].
  cbn [split_go startswith]. destruct (numeral_char_facts c Hc) as [_ ->].
  rewrite (IH _ Hs). reflexivity.
Qed.

Lemma comma_split_at (cur a t : string) :
  all_chars numeral_char a = true ->
  split_go "," 0 cur (a ++ String "," t)
  = String.rev (String.rev_app a cur) :: split_go "," 0 "" t.
Proof.
  revert cur. induction a as [|c a IH]; intros cur H.
  - rewrite app_empty_l. cbn [split_go startswith]. rewrite Ascii.eqb_refl. reflexivity.
  - cbn [all_chars] in H. apply andb_true_iff in H as [Hc Hs].
    rewrite app_cons. cbn [split_go startswith]. destruct (numeral_char_facts c Hc) as [_ ->].
    rewrite (IH _ Hs). reflexivity.
Qed.

Lemma rev_rev_app_cur (s cur : string) :
  String.rev (String.rev_app s cur) = String.rev cur ++ s.
Proof. unfold String.rev. rewrite rev_app_rev_app. revert s.
  assert (H : forall a b c, String.rev_app a (b ++ c) = String.rev_app a b ++ c).
  { induction a as [|x a IH]; intros b c; [reflexivity|]. cbn [String.rev_app].
    rewrite <- IH. reflexivity. }
  intros s. rewrite app_empty_r, <- (H cur "" s), app_empty_l. reflexivity.
Qed.

(** The fragments of a comma-separated list of numerals: the first one, and
    the others behind the space that follows each comma. *)
Lemma split_numerals (z : Z) (zs : list Z) (cur : string) :
  split_go "," 0 cur (join ", " (List.map pretty (z :: zs)))
  = (String.rev cur ++ pretty z) :: List.map (fun z' => " " ++ pretty z') zs.
Proof.
  revert z cur. induction zs as [|z' zs IH]; intros z cur.
  - cbn [List.map join String.concat].
    rewrite comma_split_free by apply pretty_Z_numeral_chars.
    rewrite rev_rev_app_cur. reflexivity.
  - change (join ", " (List.map pretty (z :: z' :: zs)))
      with (pretty z ++ String "," (String " " (join ", " (List.map pretty (z' :: zs))))).
    rewrite comma_split_at by apply pretty_Z_numeral_chars.
    rewrite rev_rev_app_cur. f_equal.
    cbn [split_go startswith].
    change (Ascii.eqb "," " ") with false. cbn iota.
    rewrite (IH z' (String " " "")). reflexivity.
Qed.

Lemma strip_numeral (z : Z) :
  strip (pretty z) = pretty z /\ strip (" " ++ pretty z) = pretty z.
Proof.
  assert (H : strip (pretty z) = pretty z).
  { apply strip_spaceless.
    apply (all_chars_spaceless numeral_char); [|apply pretty_Z_numeral_chars].
    intros c Hc. apply numeral_char_facts. exact Hc. }
  split; [exact H|]. exact H.
Qed.

(** X19.  Integers written in decimal and separated by a comma and a
    space are read back as the same list by the parsing of the parameter
    [kpi_ids]; the empty text is read as the empty list. *)
Theorem parse_kpi_ids_round_trip (kpi_ids : list Z) :
  parse_kpi_ids (IdsText (join ", " (List.map pretty kpi_ids))) = Some kpi_ids.
Proof.
  destruct kpi_ids as [|z zs]; [reflexivity|].
  unfold parse_kpi_ids, split. rewrite split_numerals.
  change (String.rev "" ++ pretty z) with (pretty z).
  cbn [List.filter]. destruct (strip_numeral z) as [Hz _]. rewrite Hz.
  destruct (pretty_Z_numeral_chars z) as [Hne _].
  destruct (pretty z) as [|c0 s0] eqn:Ez; [contradiction|]. cbn [truthy].
  rewrite <- Ez in *. cbn [List.map all_some]. rewrite Hz, py_int_pretty. cbn [mbind option_bind].
  assert (Hrest : all_some
            (List.map (fun x => py_int (strip x))
               (List.filter (fun x => truthy (strip x))
                  (List.map (fun z' => " " ++ pretty z') zs))) = Some zs).
  { clear. induction zs as [|z' zs IH]; [reflexivity|].
    cbn [List.map List.filter]. destruct (strip_numeral z') as [_ Hs]. rewrite Hs.
    destruct (pretty_Z_numeral_chars z') as [Hne _].
    destruct (pretty z') as [|c0 s0] eqn:Ez; [contradiction|]. cbn [truthy].
    rewrite <- Ez in *. cbn [List.map all_some]. rewrite Hs, py_int_pretty, IH. reflexivity. }
  rewrite Hrest. reflexivity.
Qed.

End KpiIds.

(** ** get_available_kpis: the filter by customer *)
Section CustomerFilter.

Import GetAvailableKpis.

Lemma contains_empty (s : string) : contains "" s = true.
Proof. destruct s; reflexivity. Qed.

Lemma filter_all {A} (f : A -> bool) (l : list A) :
  (forall x, f x = true) -> List.filter f l = l.
Proof.
  intros H. induction l as [|x l IH]; [reflexivity|].
  cbn [List.filter]. rewrite H, IH. reflexivity.
Qed.

Lemma filter_filter_same {A} (f : A -> bool) (l : list A) :
  List.filter f (List.filter f l) = List.filter f l.
Proof.
  induction l as [|x l IH]; [reflexivity|]. cbn [List.filter].
  destruct (f x) eqn:E; [|exact IH]. cbn [List.filter]. rewrite E, IH. reflexivity.
Qed.

(** X21.  [filter_kpis_by_customer] does not depend on the letter case of
    the customer, returns every record for the empty customer, keeps the
    order and decides record by record (the filter of a concatenation is the
    concatenation of the filters), and filtering twice filters once. *)
Theorem customer_filter_facts (kpis more : list kpi_record) (customer : string) :
  ascii_only customer = true ->
  filter_kpis_by_customer kpis (upper customer) = filter_kpis_by_customer kpis customer /\
  filter_kpis_by_customer kpis (lower customer) = filter_kpis_by_customer kpis customer /\
  filter_kpis_by_customer kpis "" = kpis /\
  filter_kpis_by_customer (kpis ++ more) customer
  = (filter_kpis_by_customer kpis customer ++ filter_kpis_by_customer more customer)%list /\
  filter_kpis_by_customer (filter_kpis_by_customer kpis customer) customer
  = filter_kpis_by_customer kpis customer.
Proof.
  intros _. unfold filter_kpis_by_customer.
  rewrite lower_upper, lower_lower. repeat split.
  - cbn [lower String.eqb]. apply filter_all. intros kpi. apply contains_empty.
  - destruct (String.eqb (lower customer) "all"); [reflexivity|]. apply List.filter_app.
  - destruct (String.eqb (lower customer) "all"); [reflexivity|]. apply filter_filter_same.
Qed.

Lemma customer_filter_facts_witness :
  let kpis := [KpiRecord 1 "Total Revenue" (Some "Draft Customer A") (Some "$");
               KpiRecord 2 "Total Volume" (Some "Draft Customer B") None] in
  let more := [KpiRecord 3 "Store Count" None (Some "count")] in
  ascii_only "Customer A" = true /\
  filter_kpis_by_customer kpis "CUSTOMER A" = filter_kpis_by_customer kpis "Customer A".
Proof.
  intros kpis more. split; [reflexivity|].
  exact (proj1 (customer_filter_facts kpis more "Customer A" eq_refl)).
Defined.

End CustomerFilter.
